(* ===================================================================== *)
(*  IP resolution engine of the Nimble Streamer log analyzer             *)
(*                                                                       *)
(*  A shallow embedding of                                               *)
(*    - src/local_ip_database.py     (class LocalIPDatabase)             *)
(*    - src/enhanced_ipinfo_service.py (class EnhancedIPinfoService)     *)
(*    - src/ipinfo_service.py        (IPInfoService._is_private_ip)      *)
(*  and the properties of the tiered lookup proved about it.             *)
(* ===================================================================== *)

From Stdlib Require Import ZArith Ascii String List Bool Lia.
From Stdlib Require Import DecimalString.
From stdpp Require Import gmap strings list fin_maps.

Local Open Scope string_scope.
Local Open Scope Z_scope.

(* ===================================================================== *)
(** * Python values                                                   *)
(* ===================================================================== *)

(** The values that occur in the dictionaries handled by the two services.
    Strings are ASCII text.  JSON numbers are integers; a JSON array or
    object (and any other value that is neither a scalar nor a datetime) is
    the opaque [VObj], which carries the text [str()] gives for it and its
    truth value.  [VDatetime t] is a naive [datetime] for the instant [t],
    counted in microseconds. *)
Inductive pyval : Type :=
  | VNone
  | VBool (b : bool)
  | VInt (z : Z)
  | VStr (s : string)
  | VObj (text : string) (truth : bool)
  | VDatetime (t : Z).

#[global] Instance pyval_eq_dec : EqDecision pyval.
Proof. solve_decision. Defined.

(** A Python [dict] with string keys. *)
Abbreviation record := (gmap string pyval).

(** [x == s] for a string literal [s]: only a [str] equals a [str]. *)
Definition py_eq_str (v : pyval) (s : string) : bool :=
  match v with
  | VStr s' => String.eqb s' s
  | _ => false
  end.

(** [d.get(k) == s]; a missing key reads as [None]. *)
Definition get_eq (d : record) (k s : string) : bool :=
  match d !! k with
  | Some v => py_eq_str v s
  | None => false
  end.

(** Python truthiness. *)
Definition truthy (v : pyval) : bool :=
  match v with
  | VNone => false
  | VBool b => b
  | VInt z => negb (z =? 0)
  | VStr s => negb (String.eqb s "")
  | VObj _ b => b
  | VDatetime _ => true
  end.

(** Truthiness of a dictionary: non-empty. *)
Definition dict_truthy (d : record) : bool :=
  negb (bool_decide (d = ∅)).

(** [d.get(k, default)]. *)
Definition dict_get (d : record) (k : string) (default : pyval) : pyval :=
  match d !! k with
  | Some v => v
  | None => default
  end.

(** [d.update(e)]: the keys of [e] overwrite those of [d]. *)
Definition dict_update (d e : record) : record := e ∪ d.

(** Decimal text of an integer, as [str(int)] prints it. *)
Definition str_of_Z (z : Z) : string :=
  NilZero.string_of_int (Z.to_int z).

(* ===================================================================== *)
(** * [str.split('.')] and [int(str)]                                 *)
(* ===================================================================== *)

(** [s.split(sep)] for a one-character separator: never an empty list. *)
Fixpoint split_on (sep : ascii) (s : string) : list string :=
  match s with
  | EmptyString => [EmptyString]
  | String c s' =>
      if Ascii.eqb c sep then EmptyString :: split_on sep s'
      else match split_on sep s' with
           | [] => [String c EmptyString]
           | p :: ps => String c p :: ps
           end
  end.

Definition split_dots (ip : string) : list string := split_on "."%char ip.

(** The blanks [int()] skips around an ASCII numeral. *)
Definition is_space (c : ascii) : bool :=
  let n := N_of_ascii c in
  ((9 <=? n)%N && (n <=? 13)%N) || (n =? 32)%N.

Definition digit_of (c : ascii) : option Z :=
  let n := N_of_ascii c in
  if ((48 <=? n)%N && (n <=? 57)%N)%bool then Some (Z.of_N (n - 48)) else None.

Fixpoint lstrip (l : list ascii) : list ascii :=
  match l with
  | c :: l' => if is_space c then lstrip l' else l
  | [] => []
  end.

Definition strip (l : list ascii) : list ascii :=
  rev (lstrip (rev (lstrip l))).

(** Digits after the first one: a single underscore may separate two
    digits. [pending] tells that the previous character was an underscore. *)
Fixpoint digits_loop (acc : Z) (pending : bool) (l : list ascii) : option Z :=
  match l with
  | [] => if pending then None else Some acc
  | c :: l' =>
      if Ascii.eqb c "_"%char then
        if pending then None else digits_loop acc true l'
      else
        match digit_of c with
        | Some d => digits_loop (10 * acc + d) false l'
        | None => None
        end
  end.

Definition parse_digits (l : list ascii) : option Z :=
  match l with
  | [] => None
  | c :: l' =>
      match digit_of c with
      | Some d => digits_loop d false l'
      | None => None
      end
  end.

(** [int(s)] in base ten; [None] stands for [ValueError].  The interpreter's
    configurable cap on the number of digits is not part of the model. *)
Definition py_int (s : string) : option Z :=
  match strip (list_ascii_of_string s) with
  | c :: l' =>
      if Ascii.eqb c "+"%char then parse_digits l'
      else if Ascii.eqb c "-"%char then Z.opp <$> parse_digits l'
      else parse_digits (c :: l')
  | [] => None
  end.

(** [list(map(int, parts))]: the first part that is not a numeral raises. *)
Fixpoint map_int (parts : list string) : option (list Z) :=
  match parts with
  | [] => Some []
  | p :: ps =>
      match py_int p with
      | Some z =>
          match map_int ps with
          | Some zs => Some (z :: zs)
          | None => None
          end
      | None => None
      end
  end.

(* ===================================================================== *)
(** * The private-range classifiers                                   *)
(* ===================================================================== *)

(** The chain of range tests shared by the two tiered services, on the
    converted parts.  [parts !! i] is [parts[i]], with [None] for
    [IndexError]; [and] evaluates its right operand only when the left one
    holds, so [parts[1]] is read only after [parts[0]] matched. *)
Definition range_tests (parts : list Z) : option bool :=
  p0 ← parts !! 0%nat;
  if p0 =? 10 then Some true
  else
    in_172 ← (if p0 =? 172
              then p1 ← parts !! 1%nat; Some ((16 <=? p1) && (p1 <=? 31))
              else Some false);
    if in_172 : bool then Some true
    else
      in_192 ← (if p0 =? 192
                then p1 ← parts !! 1%nat; Some (p1 =? 168)
                else Some false);
      if in_192 : bool then Some true
      else if p0 =? 127 then Some true
      else Some false.

(** The inputs the specification calls malformed: not four parts, or a part
    that is not a numeral. *)
Definition malformed_ipv4 (ip : string) : bool :=
  let parts := split_dots ip in
  negb (length parts =? 4)%nat || negb (forallb (fun p => bool_decide (is_Some (py_int p))) parts).

(* ===================================================================== *)
(** * The outside world and the state of the services                 *)
(* ===================================================================== *)

(** What [reader.get(ip)] of an offline database gives. *)
Inductive lookup_result : Type :=
  | LRaise                      (* the reader raised *)
  | LNone                       (* no record for the address *)
  | LDict (d : record)          (* a record that is a dictionary *)
  | LOther (truth : bool).      (* a record of another type *)

(** An opened offline database: a fixed table. *)
Abbreviation reader := (string -> lookup_result).

(** The body of an HTTP answer, as [response.json()] sees it. *)
Inductive json_body : Type :=
  | BodyDict (d : record)       (* a JSON object *)
  | BodyOther                   (* valid JSON that is not an object *)
  | BodyInvalid.                (* [json()] raises *)

(** What [requests.get] gives. *)
Inductive http_result : Type :=
  | HttpRaise
  | HttpResponse (status_code : Z) (body : json_body).

(** The environment of a run.  The clocks, the network and the disk are
    consulted in sequence: the [n]-th consultation of the run reads the
    functions below at [n].  The three text functions are the renderings of
    an instant by [str(datetime)], [datetime.isoformat()] and SQLite's
    [CURRENT_TIMESTAMP]; [int_affinity] is what SQLite stores when a text is
    bound to a column of INTEGER affinity. *)
Record Env : Type := {
  clock : nat -> Z;
  sql_clock : nat -> Z;
  http_get : nat -> string -> http_result;
  disk_ok : nat -> bool;
  dt_text : Z -> string;
  iso_text : Z -> string;
  sql_text : Z -> string;
  int_affinity : string -> pyval
}.

(** A call that leaves the process. *)
Inductive event : Type :=
  | EvMmdb (ip : string)        (* a lookup in an offline database *)
  | EvHttp (ip : string).       (* a request to the online API *)

(** A row of table [ip_data]; the key [ip] is the key of the map that holds
    the rows.  The two timestamps are kept as instants. *)
Record row : Type := {
  c_country : pyval;
  c_country_code : pyval;
  c_country_name : pyval;
  c_continent : pyval;
  c_continent_code : pyval;
  c_region : pyval;
  c_city : pyval;
  c_asn : pyval;
  c_as_name : pyval;
  c_as_domain : pyval;
  c_org : pyval;
  c_isp : pyval;
  c_timezone : pyval;
  c_is_private : pyval;
  c_source : pyval;
  c_first_seen : Z;
  c_last_updated : Z;
  c_query_count : Z
}.

(** [EnhancedIPinfoService.stats]. *)
Record Stats : Type := {
  offline_hits : Z;
  online_hits : Z;
  cache_hits : Z;
  local_db_hits : Z;
  errors : Z
}.

(** The attributes of the two service objects, the cache file, and the
    position in the run ([tick]) with the calls made so far ([trace], most
    recent first). *)
Record State : Type := {
  (* LocalIPDatabase *)
  ip_data : gmap string row;
  ipinfo_token : option string;
  db_lite_reader : option reader;
  (* EnhancedIPinfoService *)
  token : option string;
  cache : gmap string record;
  lite_reader : option reader;
  country_reader : option reader;
  city_reader : option reader;
  stats : Stats;
  (* files and the world *)
  cache_file : gmap string record;
  tick : nat;
  trace : list event
}.

Definition set_ip_data (f : gmap string row -> gmap string row) (s : State) : State :=
  {| ip_data := f (ip_data s); ipinfo_token := ipinfo_token s;
     db_lite_reader := db_lite_reader s; token := token s; cache := cache s;
     lite_reader := lite_reader s; country_reader := country_reader s;
     city_reader := city_reader s; stats := stats s;
     cache_file := cache_file s; tick := tick s; trace := trace s |}.

Definition set_cache (f : gmap string record -> gmap string record) (s : State) : State :=
  {| ip_data := ip_data s; ipinfo_token := ipinfo_token s;
     db_lite_reader := db_lite_reader s; token := token s; cache := f (cache s);
     lite_reader := lite_reader s; country_reader := country_reader s;
     city_reader := city_reader s; stats := stats s;
     cache_file := cache_file s; tick := tick s; trace := trace s |}.

Definition set_stats (f : Stats -> Stats) (s : State) : State :=
  {| ip_data := ip_data s; ipinfo_token := ipinfo_token s;
     db_lite_reader := db_lite_reader s; token := token s; cache := cache s;
     lite_reader := lite_reader s; country_reader := country_reader s;
     city_reader := city_reader s; stats := f (stats s);
     cache_file := cache_file s; tick := tick s; trace := trace s |}.

Definition set_cache_file (c : gmap string record) (s : State) : State :=
  {| ip_data := ip_data s; ipinfo_token := ipinfo_token s;
     db_lite_reader := db_lite_reader s; token := token s; cache := cache s;
     lite_reader := lite_reader s; country_reader := country_reader s;
     city_reader := city_reader s; stats := stats s;
     cache_file := c; tick := tick s; trace := trace s |}.

(** One consultation of the world. *)
Definition advance (s : State) : State :=
  {| ip_data := ip_data s; ipinfo_token := ipinfo_token s;
     db_lite_reader := db_lite_reader s; token := token s; cache := cache s;
     lite_reader := lite_reader s; country_reader := country_reader s;
     city_reader := city_reader s; stats := stats s;
     cache_file := cache_file s; tick := S (tick s); trace := trace s |}.

Definition log_event (e : event) (s : State) : State :=
  {| ip_data := ip_data s; ipinfo_token := ipinfo_token s;
     db_lite_reader := db_lite_reader s; token := token s; cache := cache s;
     lite_reader := lite_reader s; country_reader := country_reader s;
     city_reader := city_reader s; stats := stats s;
     cache_file := cache_file s; tick := tick s; trace := e :: trace s |}.

Definition bump_offline_hits (st : Stats) : Stats :=
  {| offline_hits := offline_hits st + 1; online_hits := online_hits st;
     cache_hits := cache_hits st; local_db_hits := local_db_hits st;
     errors := errors st |}.

Definition bump_online_hits (st : Stats) : Stats :=
  {| offline_hits := offline_hits st; online_hits := online_hits st + 1;
     cache_hits := cache_hits st; local_db_hits := local_db_hits st;
     errors := errors st |}.

Definition bump_cache_hits (st : Stats) : Stats :=
  {| offline_hits := offline_hits st; online_hits := online_hits st;
     cache_hits := cache_hits st + 1; local_db_hits := local_db_hits st;
     errors := errors st |}.

Definition bump_local_db_hits (st : Stats) : Stats :=
  {| offline_hits := offline_hits st; online_hits := online_hits st;
     cache_hits := cache_hits st; local_db_hits := local_db_hits st + 1;
     errors := errors st |}.

Definition bump_errors (st : Stats) : Stats :=
  {| offline_hits := offline_hits st; online_hits := online_hits st;
     cache_hits := cache_hits st; local_db_hits := local_db_hits st;
     errors := errors st + 1 |}.

(* ===================================================================== *)
(** * Computations: state and exceptions                              *)
(* ===================================================================== *)

(** The exceptions that can leave a method of the services.  The database
    file is taken to be usable: a statement fails only when one of its
    parameters cannot be bound. *)
Inductive exn : Type :=
  | TypeError
  | OverflowError
  | InterfaceError.             (* sqlite3: a parameter of unsupported type *)

Inductive Res (A : Type) : Type :=
  | Ok (a : A) (s : State)
  | Raise (e : exn) (s : State).

Arguments Ok {A} a s.
Arguments Raise {A} e s.

Definition M (A : Type) : Type := State -> Res A.

Definition ret {A} (a : A) : M A := fun s => Ok a s.

Definition bind {A B} (m : M A) (k : A -> M B) : M B :=
  fun s => match m s with
           | Ok a s' => k a s'
           | Raise e s' => Raise e s'
           end.

Definition raise {A} (e : exn) : M A := fun s => Raise e s.

Definition modify (f : State -> State) : M unit := fun s => Ok tt (f s).

Definition gets {A} (f : State -> A) : M A := fun s => Ok (f s) s.

Declare Scope comp_scope.
Delimit Scope comp_scope with comp.
Notation "'let*' x := m 'in' k" := (bind m (fun x => k))
  (at level 10, x name, m at level 100, k at level 200) : comp_scope.
Notation "m ;; k" := (bind m (fun _ => k))
  (at level 100, k at level 200, right associativity) : comp_scope.
Local Open Scope comp_scope.

(** A configured token: neither [None] nor the empty string. *)
Definition token_set (t : option string) : bool :=
  match t with
  | Some tok => negb (String.eqb tok "")
  | None => false
  end.

Section Services.

Variable env : Env.

(** [datetime.now()]. *)
Definition now : M Z :=
  fun s => Ok (clock env (tick s)) (advance s).

(** SQLite's [CURRENT_TIMESTAMP], one reading per statement. *)
Definition current_timestamp : M Z :=
  fun s => Ok (sql_clock env (tick s)) (advance s).

(** [requests.get] for the address [ip]. *)
Definition requests_get (ip : string) : M http_result :=
  fun s => Ok (http_get env (tick s) ip) (advance (log_event (EvHttp ip) s)).

(** [rd.get(ip)] on an opened offline database. *)
Definition reader_get (rd : reader) (ip : string) : M lookup_result :=
  fun s => Ok (rd ip) (log_event (EvMmdb ip) s).

(** [str(v)]. *)
Definition py_str (v : pyval) : string :=
  match v with
  | VNone => "None"
  | VBool b => if b then "True" else "False"
  | VInt z => str_of_Z z
  | VStr s => s
  | VObj text _ => text
  | VDatetime t => dt_text env t
  end.

End Services.

(** What a service finds under its cache file when it starts: no file, a
    file that cannot be read or is not JSON ([OSError], [JSONDecodeError]),
    or a JSON object of JSON objects, which is what the [_save_cache] of
    both services writes. *)
Inductive cache_file_content : Type :=
  | NoFile
  | Unreadable
  | FileObject (cache_data : gmap string record).

(* ===================================================================== *)
(** * src/ipinfo_service.py                                           *)
(* ===================================================================== *)

Module IPInfoService.

(** [s.startswith(p)]. *)
Definition startswith (p s : string) : bool := String.prefix p s.

(** [IPInfoService._is_private_ip]: anything but four parts is private, and
    the bare [except] turns every error into [True].  Only the first two
    parts are converted. *)
Definition _is_private_ip (ip : string) : bool :=
  let parts := split_dots ip in
  if negb (length parts =? 4)%nat then true
  else
    match parts with
    | a :: b :: _ =>
        match py_int a with
        | None => true
        | Some first_octet =>
            match py_int b with
            | None => true
            | Some second_octet =>
                if first_octet =? 10 then true
                else if (first_octet =? 172) && ((16 <=? second_octet) && (second_octet <=? 31)) then true
                else if (first_octet =? 192) && (second_octet =? 168) then true
                else if first_octet =? 127 then true
                else if startswith "169.254" ip then true
                else false
            end
        end
    | _ => true
    end.

(** ** The service object *)

(** How a write of the cache file ends: the file holds the new content, it
    could not be opened and is as before, or the write broke off and left
    something that is no JSON. *)
Inductive write_outcome : Type :=
  | Written
  | NotOpened
  | Torn.

(** The attributes of an [IPInfoService], its cache file, the position in
    the run and the requests sent so far (most recent first), each with the
    flag that tells whether it went to the Lite URL. *)
Record service : Type := {
  api_token : option string;
  ip_cache : gmap string record;
  ip_cache_file : cache_file_content;
  sv_tick : nat;
  sv_requests : list (bool * string)
}.

(** [datetime.min] and [timedelta(days=7)], in microseconds. *)
Definition datetime_min : Z := - 62135596800 * 1000000.
Definition seven_days : Z := 7 * 86400 * 1000000.

Section Methods.

Variable env : Env.

(** [requests.get] on the Lite URL ([true]) or the regular one. *)
Variable api_get : bool -> nat -> string -> http_result.

(** The outcome of the [n]-th write of the cache file. *)
Variable disk : nat -> write_outcome.

(** [datetime.fromisoformat]; [None] stands for its exceptions. *)
Variable fromisoformat : string -> option Z.

(** [_load_cache], called with what the file holds and the time.  Any
    exception empties the result: a [cached_at] that is no ISO text, or a
    cutoff before [datetime.min]. *)
Definition cached_instant (data : record) : option (option Z) :=
  match data !! "cached_at" with
  | None => None                           (* the entry is skipped *)
  | Some (VStr text) => Some (fromisoformat text)
  | Some _ => Some None                    (* [TypeError] of [fromisoformat] *)
  end.

(** ['cached_at' in data] and [cached_at > cutoff_time]. *)
Definition fresh_entry (cutoff_time : Z) (data : record) : bool :=
  match cached_instant data with
  | Some (Some cached_at) => cutoff_time <? cached_at
  | _ => false
  end.

Definition _load_cache (file : cache_file_content) (t : Z) : gmap string record :=
  match file with
  | NoFile | Unreadable => ∅
  | FileObject cache_data =>
      let cutoff_time := t - seven_days in
      if cutoff_time <? datetime_min then ∅
      else if forallb (fun kv => negb (bool_decide (cached_instant kv.2 = Some None)))
                (map_to_list cache_data)
      then filter (fun kv => fresh_entry cutoff_time kv.2 = true) cache_data
      else ∅
  end.

(** [_save_cache]: every exception is swallowed. *)
Definition _save_cache (sv : service) : service :=
  {| api_token := api_token sv;
     ip_cache := ip_cache sv;
     ip_cache_file :=
       match disk (sv_tick sv) with
       | Written => FileObject (ip_cache sv)
       | NotOpened => ip_cache_file sv
       | Torn => Unreadable
       end;
     sv_tick := S (sv_tick sv);
     sv_requests := sv_requests sv |}.

(** [datetime.now().isoformat()], one reading of the clock. *)
Definition now_iso (sv : service) : string * service :=
  (iso_text env (clock env (sv_tick sv)),
   {| api_token := api_token sv; ip_cache := ip_cache sv;
      ip_cache_file := ip_cache_file sv; sv_tick := S (sv_tick sv);
      sv_requests := sv_requests sv |}).

(** The dictionary of a private or malformed address. *)
Definition private_record (ip cached_at : string) : record :=
  list_to_map
    [ ("ip", VStr ip);
      ("country", VStr "Private/Internal");
      ("region", VStr "Private Network");
      ("city", VStr "Private Network");
      ("org", VStr "Private Network");
      ("postal", VStr "");
      ("timezone", VStr "");
      ("loc", VStr "");
      ("hostname", VStr "");
      ("anycast", VBool false);
      ("is_private", VBool true);
      ("cached_at", VStr cached_at) ].

(** [_get_fallback_info]. *)
Definition fallback_record (ip cached_at : string) : record :=
  list_to_map
    [ ("ip", VStr ip);
      ("country", VStr "Unknown");
      ("region", VStr "Unknown");
      ("city", VStr "Unknown");
      ("org", VStr "Unknown");
      ("postal", VStr "");
      ("timezone", VStr "");
      ("loc", VStr "");
      ("hostname", VStr "");
      ("anycast", VBool false);
      ("is_private", VBool false);
      ("cached_at", VStr cached_at) ].

Definition _get_fallback_info (ip : string) (sv : service) : record * service :=
  let (cached_at, sv) := now_iso sv in
  (fallback_record ip cached_at, sv).

(** The request of [get_ip_info]: the Lite URL when [use_lite] is set and
    there is a token, the regular URL otherwise. *)
Definition send_request (ip : string) (use_lite : bool) (sv : service)
  : http_result * service :=
  let lite := use_lite && token_set (api_token sv) in
  (api_get lite (sv_tick sv) ip,
   {| api_token := api_token sv; ip_cache := ip_cache sv;
      ip_cache_file := ip_cache_file sv; sv_tick := S (sv_tick sv);
      sv_requests := (lite, ip) :: sv_requests sv |}).

(** [get_ip_info].  A body that is no JSON, or a JSON value that is no
    object, raises inside the [try]; the handler answers with the fallback. *)
Definition get_ip_info (ip : string) (use_lite : bool) (sv : service)
  : record * service :=
  if _is_private_ip ip then
    let (cached_at, sv) := now_iso sv in
    (private_record ip cached_at, sv)
  else
    match ip_cache sv !! ip with
    | Some cached => (cached, sv)
    | None =>
        let (response, sv) := send_request ip use_lite sv in
        match response with
        | HttpResponse status_code (BodyDict data) =>
            if status_code =? 200 then
              let data := <["ip" := VStr ip]> data in
              let data := <["is_private" := VBool false]> data in
              let (cached_at, sv) := now_iso sv in
              let data := <["cached_at" := VStr cached_at]> data in
              let sv :=
                {| api_token := api_token sv; ip_cache := <[ip := data]> (ip_cache sv);
                   ip_cache_file := ip_cache_file sv; sv_tick := sv_tick sv;
                   sv_requests := sv_requests sv |} in
              (data, _save_cache sv)
            else _get_fallback_info ip sv
        | HttpResponse _ _ | HttpRaise => _get_fallback_info ip sv
        end
    end.

End Methods.

End IPInfoService.

(* ===================================================================== *)
(** * src/local_ip_database.py                                        *)
(* ===================================================================== *)

Module LocalIPDatabase.

(** [LocalIPDatabase._is_private_ip]: [ValueError] (a part that is not a
    numeral) and [IndexError] (a missing part) both give [False]. *)
Definition _is_private_ip (ip : string) : bool :=
  match map_int (split_dots ip) with
  | None => false
  | Some parts =>
      match range_tests parts with
      | Some b => b
      | None => false
      end
  end.

Section Methods.

Variable env : Env.

(** ** Binding parameters and reading rows *)

(** The range of an SQLite INTEGER. *)
Definition int64 (z : Z) : bool := (- 2 ^ 63 <=? z) && (z <? 2 ^ 63).

(** A parameter bound to a column of TEXT affinity: what the cell holds
    afterwards, or the exception of the binding. *)
Definition bind_text (v : pyval) : exn + pyval :=
  match v with
  | VNone => inr VNone
  | VBool b => inr (VStr (if b then "1" else "0"))
  | VInt z => if int64 z then inr (VStr (str_of_Z z)) else inl OverflowError
  | VStr s => inr (VStr s)
  | VObj _ _ => inl InterfaceError
  | VDatetime t => inr (VStr (dt_text env t))
  end.

(** A parameter bound to a column of INTEGER affinity. *)
Definition bind_integer (v : pyval) : exn + pyval :=
  match v with
  | VNone => inr VNone
  | VBool b => inr (VInt (if b then 1 else 0))
  | VInt z => if int64 z then inr (VInt z) else inl OverflowError
  | VStr s => inr (int_affinity env s)
  | VObj _ _ => inl InterfaceError
  | VDatetime t => inr (int_affinity env (dt_text env t))
  end.

(** [dict(zip(columns, row))] for a row of [ip_data]. *)
Definition row_to_dict (ip : string) (r : row) : record :=
  list_to_map
    [ ("ip", VStr ip);
      ("country", c_country r);
      ("country_code", c_country_code r);
      ("country_name", c_country_name r);
      ("continent", c_continent r);
      ("continent_code", c_continent_code r);
      ("region", c_region r);
      ("city", c_city r);
      ("asn", c_asn r);
      ("as_name", c_as_name r);
      ("as_domain", c_as_domain r);
      ("org", c_org r);
      ("isp", c_isp r);
      ("timezone", c_timezone r);
      ("is_private", c_is_private r);
      ("source", c_source r);
      ("first_seen", VStr (sql_text env (c_first_seen r)));
      ("last_updated", VStr (sql_text env (c_last_updated r)));
      ("query_count", VInt (c_query_count r)) ].

(** The parameters of the INSERT of [_store_ip_data], bound in order; the
    first one that cannot be bound gives the exception. *)
Definition bind_parameters (data : record) : exn + (Z -> Z -> row) :=
  let text k default := bind_text (dict_get data k default) in
  match text "country" (VStr "Unknown") with inl e => inl e | inr country =>
  match text "country_code" (VStr "XX") with inl e => inl e | inr country_code =>
  match text "country_name" (dict_get data "country" (VStr "Unknown")) with inl e => inl e | inr country_name =>
  match text "continent" (VStr "Unknown") with inl e => inl e | inr continent =>
  match text "continent_code" (VStr "XX") with inl e => inl e | inr continent_code =>
  match text "region" (VStr "Unknown") with inl e => inl e | inr region =>
  match text "city" (VStr "Unknown") with inl e => inl e | inr city =>
  match text "asn" (VStr "Unknown") with inl e => inl e | inr asn =>
  match text "as_name" (VStr "Unknown") with inl e => inl e | inr as_name =>
  match text "as_domain" (VStr "unknown") with inl e => inl e | inr as_domain =>
  match text "org" (VStr "Unknown") with inl e => inl e | inr org =>
  match text "isp" (dict_get data "org" (VStr "Unknown")) with inl e => inl e | inr isp =>
  match text "timezone" (VStr "Unknown") with inl e => inl e | inr timezone =>
  match bind_integer (dict_get data "is_private" (VInt 0)) with inl e => inl e | inr is_private =>
  match text "source" (VStr "unknown") with inl e => inl e | inr source =>
  inr (fun stamp count =>
    {| c_country := country; c_country_code := country_code;
       c_country_name := country_name; c_continent := continent;
       c_continent_code := continent_code; c_region := region;
       c_city := city; c_asn := asn; c_as_name := as_name;
       c_as_domain := as_domain; c_org := org; c_isp := isp;
       c_timezone := timezone; c_is_private := is_private;
       c_source := source;
       (* first_seen is not in the column list: its DEFAULT fills it *)
       c_first_seen := stamp;
       c_last_updated := stamp;
       c_query_count := count |})
  end end end end end end end end end end end end end end end.

(** [COALESCE((SELECT query_count FROM ip_data WHERE ip = ?), 0) + 1]. *)
Definition next_query_count (table : gmap string row) (ip : string) : Z :=
  match table !! ip with
  | Some r => c_query_count r
  | None => 0
  end + 1.

(** [_store_ip_data]: INSERT OR REPLACE of the whole row. *)
Definition _store_ip_data (ip : string) (data : record) : M unit :=
  match bind_parameters data with
  | inl e => raise e
  | inr mk =>
      let* stamp := current_timestamp env in
      modify (set_ip_data (fun table => <[ip := mk stamp (next_query_count table ip)]> table))
  end.

(** ** The two outside sources of the store *)

(** The dictionary [_get_mmdb_data] builds from a record [data]. *)
Definition mmdb_record (data : record) : record :=
  list_to_map
    [ ("country", dict_get data "country" (VStr "Unknown"));
      ("country_code", dict_get data "country_code" (VStr "XX"));
      ("continent", dict_get data "continent" (VStr "Unknown"));
      ("continent_code", dict_get data "continent_code" (VStr "XX"));
      ("asn", dict_get data "asn" (VStr "Unknown"));
      ("as_name", dict_get data "as_name" (VStr "Unknown"));
      ("as_domain", dict_get data "as_domain" (VStr "unknown"));
      ("source", VStr "mmdb") ].

(** [_get_mmdb_data].  A truthy record that is not a dictionary has no
    [get]: the [AttributeError] is caught like any other. *)
Definition _get_mmdb_data (ip : string) : M (option record) :=
  let* rd := gets db_lite_reader in
  match rd with
  | None => ret None
  | Some rd =>
      let* data := reader_get rd ip in
      match data with
      | LDict d =>
          if dict_truthy d then ret (Some (mmdb_record d))
          else ret None
      | LNone | LOther _ | LRaise => ret None
      end
  end.

(** The dictionary [_get_ipinfo_data] builds from the JSON object [data]. *)
Definition ipinfo_record (data : record) : record :=
  list_to_map
    [ ("country", dict_get data "country_name" (dict_get data "country" (VStr "Unknown")));
      ("country_code", dict_get data "country" (VStr "XX"));
      ("region", dict_get data "region" (VStr "Unknown"));
      ("city", dict_get data "city" (VStr "Unknown"));
      ("org", dict_get data "org" (VStr "Unknown"));
      ("asn", dict_get data "asn" (VStr "Unknown"));
      ("timezone", dict_get data "timezone" (VStr "Unknown"));
      ("source", VStr "ipinfo_api") ].

(** [_get_ipinfo_data].  A body that is not a JSON object makes one of the
    accesses raise, which is caught. *)
Definition _get_ipinfo_data (ip : string) : M (option record) :=
  let* tok := gets ipinfo_token in
  if negb (token_set tok) then ret None
  else
    let* response := requests_get env ip in
    match response with
    | HttpResponse status_code body =>
        if status_code =? 200 then
          match body with
          | BodyDict data => ret (Some (ipinfo_record data))
          | BodyOther | BodyInvalid => ret None
          end
        else ret None
    | HttpRaise => ret None
    end.

(** ** [get_ip_info] *)

Definition private_info (ip : string) : record :=
  list_to_map
    [ ("ip", VStr ip);
      ("country", VStr "Private");
      ("country_code", VStr "PRIVATE");
      ("country_name", VStr "Private Network");
      ("continent", VStr "Private");
      ("continent_code", VStr "PRIVATE");
      ("region", VStr "Private");
      ("city", VStr "Private Network");
      ("asn", VStr "Private");
      ("as_name", VStr "Private Network");
      ("as_domain", VStr "private");
      ("org", VStr "Private Network");
      ("isp", VStr "Private Network");
      ("timezone", VStr "Unknown");
      ("is_private", VInt 1);
      ("source", VStr "private") ].

Definition default_fields : list (string * pyval) :=
  [ ("country", VStr "Unknown");
    ("country_code", VStr "XX");
    ("country_name", VStr "Unknown");
    ("continent", VStr "Unknown");
    ("continent_code", VStr "XX");
    ("region", VStr "Unknown");
    ("city", VStr "Unknown");
    ("asn", VStr "Unknown");
    ("as_name", VStr "Unknown");
    ("as_domain", VStr "unknown");
    ("org", VStr "Unknown");
    ("isp", VStr "Unknown");
    ("timezone", VStr "Unknown");
    ("source", VStr "unknown") ].

(** [v in ['', None]]. *)
Definition blank (v : pyval) : bool :=
  match v with
  | VStr s => String.eqb s ""
  | VNone => true
  | _ => false
  end.

(** One turn of the loop over [default_fields]. *)
Definition fill_default (ip_info : record) (fd : string * pyval) : record :=
  match ip_info !! fd.1 with
  | Some v => if blank v then <[fd.1 := fd.2]> ip_info else ip_info
  | None => <[fd.1 := fd.2]> ip_info
  end.

(** The derivation of [isp] from [org] or the AS name. *)
Definition derive_isp (ip_info : record) : record :=
  if get_eq ip_info "isp" "Unknown" && negb (get_eq ip_info "org" "Unknown") then
    <["isp" := dict_get ip_info "org" VNone]> ip_info
  else if get_eq ip_info "isp" "Unknown" && negb (get_eq ip_info "as_name" "Unknown") then
    <["isp" := VStr (py_str env (dict_get ip_info "as_name" VNone) ++ " ("
                      ++ py_str env (dict_get ip_info "asn" VNone) ++ ")")]> ip_info
  else ip_info.

(** The row after [UPDATE ip_data SET query_count = query_count + 1,
    last_updated = CURRENT_TIMESTAMP]. *)
Definition touch_row (r : row) (stamp : Z) : row :=
  {| c_country := c_country r; c_country_code := c_country_code r;
     c_country_name := c_country_name r; c_continent := c_continent r;
     c_continent_code := c_continent_code r; c_region := c_region r;
     c_city := c_city r; c_asn := c_asn r; c_as_name := c_as_name r;
     c_as_domain := c_as_domain r; c_org := c_org r; c_isp := c_isp r;
     c_timezone := c_timezone r; c_is_private := c_is_private r;
     c_source := c_source r; c_first_seen := c_first_seen r;
     c_last_updated := stamp;
     c_query_count := c_query_count r + 1 |}.

(** The SELECT of the row and, on a hit, the UPDATE of its counter and of
    [last_updated]; the dictionary is built from the row as it was read. *)
Definition select_and_touch (ip : string) : M (option record) :=
  let* table := gets ip_data in
  match table !! ip with
  | Some r =>
      let* stamp := current_timestamp env in
      modify (set_ip_data (fun table => <[ip := touch_row r stamp]> table)) ;;
      ret (Some (<["from_cache" := VBool true]> (row_to_dict ip r)))
  | None => ret None
  end.

(** The dictionary assembled from what the two sources gave: the merge, the
    defaults, the derived [isp].  Both sources return non-empty dictionaries
    or [None]. *)
Definition merge_sources (ip : string) (mmdb_data ipinfo_data : option record) : record :=
  let ip_info : record := list_to_map [ ("ip", VStr ip); ("is_private", VInt 0) ] in
  let ip_info :=
    match mmdb_data with
    | Some d => dict_update ip_info d
    | None => ip_info
    end in
  match ipinfo_data with
  | Some d =>
      let merged := dict_update ip_info d in
      match mmdb_data with
      | Some _ => <["source" := VStr "mmdb+ipinfo_api"]> merged
      | None => merged
      end
  | None => ip_info
  end.

Definition assemble (ip : string) (mmdb_data ipinfo_data : option record) : record :=
  derive_isp (foldl fill_default (merge_sources ip mmdb_data ipinfo_data) default_fields).

Definition get_ip_info (ip : string) (force_refresh : bool) : M record :=
  if String.eqb ip "" then ret ∅
  else if _is_private_ip ip then
    _store_ip_data ip (private_info ip) ;;
    ret (private_info ip)
  else
    let* hit := (if force_refresh then ret None else select_and_touch ip) in
    match hit with
    | Some result => ret result
    | None =>
        let* mmdb_data := _get_mmdb_data ip in
        let* ipinfo_data := _get_ipinfo_data ip in
        let ip_info := assemble ip mmdb_data ipinfo_data in
        _store_ip_data ip ip_info ;;
        ret ip_info
    end.

End Methods.

(** ** [update_ip_statistics] *)

(** An element of a JSON array, as far as the membership test of an integer
    sees it: a float counts through the integer it equals, if any. *)
Inductive json_elem : Type :=
  | ElemInt (z : Z)
  | ElemBool (b : bool)
  | ElemFloat (whole : option Z)
  | ElemOther.                  (* a string, null, an array or an object *)

(** [status_code == e]. *)
Definition elem_eq_int (status_code : Z) (e : json_elem) : bool :=
  match e with
  | ElemInt z => status_code =? z
  | ElemBool b => status_code =? (if b then 1 else 0)
  | ElemFloat (Some z) => status_code =? z
  | ElemFloat None => false
  | ElemOther => false
  end.

(** What [json.loads] makes of a text. *)
Inductive loads_result : Type :=
  | LoadsRaises                       (* the text is not JSON *)
  | LoadsArray (l : list json_elem)
  | LoadsObject
  | LoadsScalar.                      (* a number, a string, a boolean or null *)

(** The exceptions that leave [update_ip_statistics]. *)
Inductive stat_exn : Type :=
  | StatTypeError
  | StatAttributeError
  | StatOverflowError.

(** A row of table [ip_statistics], in the order of the columns after the
    key [ip]: [total_requests] (1), [error_requests] (2), [first_request]
    (3), [last_request] (4), [unique_status_codes] (5), held as the array
    [json.dumps] wrote.  The columns [reputation_score], [threat_level] and
    [notes] keep their defaults: no statement of the class names them. *)
Record stat_row : Type := {
  st_total_requests : Z;
  st_error_requests : Z;
  st_first_request : pyval;
  st_last_request : pyval;
  st_unique_status_codes : list json_elem
}.

Section Statistics.

Variable env : Env.

(** [json.loads] on a text. *)
Variable json_loads : string -> loads_result.

(** A [datetime] bound to a column declared TIMESTAMP: the text of the
    adapter, under the column's numeric affinity. *)
Definition bind_timestamp (timestamp : Z) : pyval :=
  int_affinity env (dt_text env timestamp).

(** [json.loads(row[4] or '[]')] inside [try: ... except: status_codes = []];
    [row[4]] is the cell of [last_request].  A value that is no list makes
    the statements after the [try] raise. *)
Definition parse_status_codes (cell : pyval) : stat_exn + list json_elem :=
  match (if truthy cell then cell else VStr "[]") with
  | VStr text =>
      match json_loads text with
      | LoadsRaises => inr []
      | LoadsArray l => inr l
      | LoadsObject => inl StatAttributeError
      | LoadsScalar => inl StatTypeError
      end
  | _ => inr []
  end.

Definition update_ip_statistics (table : gmap string stat_row) (ip : string)
    (status_code timestamp : Z) : stat_exn + gmap string stat_row :=
  match table !! ip with
  | Some row =>
      let total_requests := st_total_requests row + 1 in
      let error_requests :=
        st_error_requests row + (if 400 <=? status_code then 1 else 0) in
      match parse_status_codes (st_last_request row) with
      | inl e => inl e
      | inr status_codes =>
          let status_codes :=
            if existsb (elem_eq_int status_code) status_codes then status_codes
            else (status_codes ++ [ElemInt status_code])%list in
          if int64 total_requests && int64 error_requests then
            inr (<[ip := {| st_total_requests := total_requests;
                            st_error_requests := error_requests;
                            st_first_request := st_first_request row;
                            st_last_request := bind_timestamp timestamp;
                            st_unique_status_codes := status_codes |}]> table)
          else inl StatOverflowError
      end
  | None =>
      inr (<[ip := {| st_total_requests := 1;
                      st_error_requests := if 400 <=? status_code then 1 else 0;
                      st_first_request := bind_timestamp timestamp;
                      st_last_request := bind_timestamp timestamp;
                      st_unique_status_codes := [ElemInt status_code] |}]> table)
  end.

End Statistics.

End LocalIPDatabase.

(* ===================================================================== *)
(** * src/enhanced_ipinfo_service.py                                  *)
(* ===================================================================== *)

Module EnhancedIPinfoService.

(** [self.cache_duration = timedelta(days=7)], in microseconds. *)
Definition cache_duration : Z := 7 * 86400 * 1000000.

(** [datetime.min], midnight of 1 January of year 1, counted like the other
    instants from 1 January 1970. *)
Definition datetime_min : Z := - 62135596800 * 1000000.

(** [EnhancedIPinfoService._is_private_ip]: [ValueError] (a part that is
    not a numeral) and [IndexError] (a missing part) both give [False]. *)
Definition _is_private_ip (ip : string) : bool :=
  match map_int (split_dots ip) with
  | None => false
  | Some parts =>
      match range_tests parts with
      | Some b => b
      | None => false
      end
  end.

(** The dictionary [_get_offline_info] returns for a private address. *)
Definition offline_private (ip : string) : record :=
  list_to_map
    [ ("ip", VStr ip);
      ("country", VStr "Private");
      ("country_name", VStr "Private Network");
      ("country_code", VStr "PRIVATE");
      ("region", VStr "Private Network");
      ("city", VStr "Private Network");
      ("org", VStr "Private Network");
      ("asn", VStr "Private");
      ("as_name", VStr "Private Network");
      ("as_domain", VStr "private");
      ("continent", VStr "Private");
      ("continent_code", VStr "PRIVATE");
      ("timezone", VStr "Unknown");
      ("source", VStr "offline_private") ].

(** The fallback dictionary, as written out in [get_ip_info] and twice in
    [bulk_lookup] (there with a [timestamp]). *)
Definition fallback_info (ip : string) : record :=
  list_to_map
    [ ("ip", VStr ip);
      ("country", VStr "Unknown");
      ("country_name", VStr "Unknown");
      ("country_code", VStr "XX");
      ("region", VStr "Unknown");
      ("city", VStr "Unknown");
      ("org", VStr "Unknown");
      ("asn", VStr "Unknown");
      ("as_name", VStr "Unknown");
      ("as_domain", VStr "Unknown");
      ("continent", VStr "Unknown");
      ("continent_code", VStr "XX");
      ("timezone", VStr "Unknown");
      ("source", VStr "fallback") ].

(** The test made on the answer of the store tier, in [get_ip_info] and in
    the first loop of [bulk_lookup]:
    [local_info and local_info.get('country') != 'Unknown']. *)
Definition store_answers (local_info : record) : bool :=
  dict_truthy local_info && negb (get_eq local_info "country" "Unknown").

(** Truth value of a record given by a reader. *)
Definition lookup_truthy (data : lookup_result) : bool :=
  match data with
  | LDict d => dict_truthy d
  | LOther b => b
  | LNone | LRaise => false
  end.

(** Truth value of an [Optional[Dict]]. *)
Definition opt_truthy (o : option record) : bool :=
  match o with
  | Some d => dict_truthy d
  | None => false
  end.

(** [any(k in info and info[k] not in ['Unknown', 'Not Available (Lite DB)']
    for k in keys)]. *)
Definition meaningful (keys : list string) (info : record) : bool :=
  existsb (fun k =>
    match info !! k with
    | Some v => negb (py_eq_str v "Unknown" || py_eq_str v "Not Available (Lite DB)")
    | None => false
    end) keys.

(** Where the [try] block of [_get_offline_info] stands after a step. *)
Inductive flow : Type :=
  | Caught                            (* an exception reached the handler *)
  | Return (result : option record)   (* the block returned *)
  | Next (info : record).             (* the block goes on with [info] *)

(** A [for] loop in the state-and-exception computations. *)
Fixpoint foldM {A B : Type} (f : B -> A -> M B) (l : list A) (b : B) : M B :=
  match l with
  | [] => ret b
  | x :: xs => let* b' := f b x in foldM f xs b'
  end.

Section Methods.

Variable env : Env.

(** [_extract_db_value]. *)
Definition _extract_db_value (data : lookup_result) (key default : string) : pyval :=
  match data with
  | LDict d => VStr (py_str env (dict_get d key (VStr default)))
  | LNone | LOther _ | LRaise => VStr default
  end.

(** The assignments made from a record of the lite database. *)
Definition lite_fields (lite_data : lookup_result) (info : record) : record :=
  let info := <["country" := _extract_db_value lite_data "country" "Unknown"]> info in
  let info := <["country_name" := _extract_db_value lite_data "country" "Unknown"]> info in
  let info := <["country_code" := _extract_db_value lite_data "country_code" "Unknown"]> info in
  let info := <["continent" := _extract_db_value lite_data "continent" "Unknown"]> info in
  let info := <["continent_code" := _extract_db_value lite_data "continent_code" "Unknown"]> info in
  let info := <["asn" := _extract_db_value lite_data "asn" "Unknown"]> info in
  let info := <["as_name" := _extract_db_value lite_data "as_name" "Unknown"]> info in
  let info := <["as_domain" := _extract_db_value lite_data "as_domain" "Unknown"]> info in
  let info :=
    if negb (get_eq info "as_name" "Unknown") then
      <["org" := VStr (py_str env (dict_get info "as_name" VNone) ++ " ("
                        ++ py_str env (dict_get info "asn" VNone) ++ ")")]> info
    else <["org" := VStr "Unknown"]> info in
  let info := <["region" := VStr "Not Available (Lite DB)"]> info in
  let info := <["city" := VStr "Not Available (Lite DB)"]> info in
  <["timezone" := VStr "Unknown"]> info.

Definition country_fields (country_data : lookup_result) (info : record) : record :=
  let info := <["country" := _extract_db_value country_data "country" "Unknown"]> info in
  let info := <["country_name" := _extract_db_value country_data "country_name" "Unknown"]> info in
  <["country_code" := _extract_db_value country_data "country_code" "XX"]> info.

Definition city_fields (city_data : lookup_result) (info : record) : record :=
  let info := <["region" := _extract_db_value city_data "region" "Unknown"]> info in
  let info := <["city" := _extract_db_value city_data "city" "Unknown"]> info in
  <["timezone" := _extract_db_value city_data "timezone" "Unknown"]> info.

(** [if field not in info: info[field] = 'Unknown']. *)
Definition set_if_missing (info : record) (field : string) : record :=
  match info !! field with
  | Some _ => info
  | None => <[field := VStr "Unknown"]> info
  end.

(** The lite database, tried first. *)
Definition lite_step (ip : string) (info : record) : M flow :=
  let* rd := gets lite_reader in
  match rd with
  | Some rd =>
      let* lite_data := reader_get rd ip in
      match lite_data with
      | LRaise => ret Caught
      | _ =>
          if lookup_truthy lite_data then
            let info := lite_fields lite_data info in
            if meaningful ["country"; "asn"; "as_name"] info then ret (Return (Some info))
            else ret (Next info)
          else ret (Next info)
      end
  | None => ret (Next info)
  end.

Definition country_step (ip : string) (info : record) : M flow :=
  let* rd := gets country_reader in
  match rd with
  | Some rd =>
      let* country_data := reader_get rd ip in
      match country_data with
      | LRaise => ret Caught
      | _ => if lookup_truthy country_data then ret (Next (country_fields country_data info))
             else ret (Next info)
      end
  | None => ret (Next info)
  end.

Definition city_step (ip : string) (info : record) : M flow :=
  let* rd := gets city_reader in
  match rd with
  | Some rd =>
      let* city_data := reader_get rd ip in
      match city_data with
      | LRaise => ret Caught
      | _ => if lookup_truthy city_data then ret (Next (city_fields city_data info))
             else ret (Next info)
      end
  | None => ret (Next info)
  end.

(** The body of the [try] block. *)
Definition offline_block (ip : string) (info : record) : M flow :=
  let* f1 := lite_step ip info in
  match f1 with
  | Next info =>
      let* f2 := country_step ip info in
      match f2 with
      | Next info =>
          let* f3 := city_step ip info in
          match f3 with
          | Next info =>
              let info := foldl set_if_missing info
                            ["asn"; "as_name"; "as_domain"; "continent"; "continent_code"] in
              let info := set_if_missing info "region" in
              let info := set_if_missing info "city" in
              let info := set_if_missing info "org" in
              ret (Return (if meaningful ["country"; "city"; "asn"] info
                           then Some info else None))
          | other => ret other
          end
      | other => ret other
      end
  | other => ret other
  end.

(** [_get_offline_info]. *)
Definition _get_offline_info (ip : string) : M (option record) :=
  if _is_private_ip ip then ret (Some (offline_private ip))
  else
    let info : record := list_to_map [ ("ip", VStr ip); ("source", VStr "offline") ] in
    let* f := offline_block ip info in
    match f with
    | Caught => modify (set_stats bump_errors) ;; ret None
    | Return result => ret result
    | Next _ => ret None
    end.

(** [_get_online_info]. Assigning [data['source']] raises when the body is
    not a JSON object; the handler turns that into [None] too. *)
Definition _get_online_info (ip : string) : M (option record) :=
  let* tok := gets token in
  if negb (token_set tok) then ret None
  else
    let* response := requests_get env ip in
    match response with
    | HttpResponse status_code body =>
        if status_code =? 200 then
          match body with
          | BodyDict data => ret (Some (<["source" := VStr "online"]> data))
          | BodyOther | BodyInvalid => ret None
          end
        else ret None
    | HttpRaise => ret None
    end.

(** [_save_cache].  A [datetime] under [timestamp] is written as its ISO
    text; a [datetime] anywhere else makes [json.dump] raise [TypeError],
    which the handler (for [OSError] and [ValueError]) lets through.  A
    failed write is counted and leaves the file as it was. *)
Definition cache_entry_to_save (data : record) : record :=
  match data !! "timestamp" with
  | Some (VDatetime t) => <["timestamp" := VStr (iso_text env t)]> data
  | _ => data
  end.

Definition is_datetime (v : pyval) : bool :=
  match v with
  | VDatetime _ => true
  | _ => false
  end.

Definition json_serializable (entry : record) : bool :=
  forallb (fun kv => negb (is_datetime kv.2)) (map_to_list entry).

Definition _save_cache : M unit :=
  let* c := gets cache in
  let cache_to_save := cache_entry_to_save <$> c in
  if forallb (fun kv => json_serializable kv.2) (map_to_list cache_to_save) then
    fun s =>
      if disk_ok env (tick s) then Ok tt (advance (set_cache_file cache_to_save s))
      else Ok tt (advance (set_stats bump_errors s))
  else raise TypeError.

(** Step 2 of [get_ip_info] and of the first pass of [bulk_lookup]: the
    look in the cache.  [Some] is a hit; after [None] the caller goes on.
    Subtracting anything but a [datetime] from [datetime.now()] raises
    [TypeError]. *)
Definition cache_lookup (ip : string) : M (option record) :=
  let* c := gets cache in
  match c !! ip with
  | Some cached_data =>
      let* t := now env in
      match dict_get cached_data "timestamp" (VDatetime datetime_min) with
      | VDatetime stamp =>
          let cache_age := t - stamp in
          if cache_age <? cache_duration then
            modify (set_stats bump_cache_hits) ;;
            ret (Some cached_data)
          else
            modify (set_cache (delete ip)) ;;
            ret None
      | _ => raise TypeError
      end
  | None => ret None
  end.

(** Step 4 of [get_ip_info]: when the offline lookup gave nothing, or an
    ["offline"] dictionary without [org], the online API is asked and its
    answer is merged over the offline one. *)
Definition consult_online (ip : string) (ip_info : option record) : M (option record) :=
  if negb (opt_truthy ip_info)
     || (match ip_info with
         | Some d => get_eq d "source" "offline" && negb (truthy (dict_get d "org" VNone))
         | None => false
         end)
  then
    let* online_info := _get_online_info ip in
    if opt_truthy online_info then
      if opt_truthy ip_info then
        ret (match ip_info, online_info with
             | Some d, Some o => Some (dict_update d o)
             | _, _ => ip_info
             end)
      else ret online_info
    else ret ip_info
  else ret ip_info.

(** Step 5: the fallback when nothing was found. *)
Definition or_fallback (ip : string) (ip_info : option record) : record :=
  match ip_info with
  | Some d => if dict_truthy d then d else fallback_info ip
  | None => fallback_info ip
  end.

(** Steps 3 to 7 of [get_ip_info]. *)
Definition resolve_lower (ip : string) : M record :=
  (* Step 3 *)
  let* ip_info := _get_offline_info ip in
  (* Step 4 *)
  let* ip_info := consult_online ip ip_info in
  (* Step 5 *)
  let ip_info := or_fallback ip ip_info in
  (* Step 6 *)
  (if dict_truthy ip_info && negb (get_eq ip_info "source" "fallback")
   then LocalIPDatabase._store_ip_data env ip ip_info
   else ret tt) ;;
  (* Step 7 *)
  let* t := now env in
  let ip_info := <["timestamp" := VStr (iso_text env t)]> ip_info in
  modify (set_cache (<[ip := ip_info]>)) ;;
  _save_cache ;;
  ret ip_info.

(** [get_ip_info]. *)
Definition get_ip_info (ip : string) : M record :=
  if String.eqb ip "" then ret ∅
  else
    (* Step 1 *)
    let* local_info := LocalIPDatabase.get_ip_info env ip false in
    if store_answers local_info then
      modify (set_stats bump_local_db_hits) ;;
      ret local_info
    else
      (* Step 2 *)
      let* cached := cache_lookup ip in
      match cached with
      | Some cached_data => ret cached_data
      | None => resolve_lower ip
      end.

(** ** [bulk_lookup] *)

(** The fallback dictionaries of [bulk_lookup], stamped with
    [datetime.now()]. *)
Definition bulk_fallback (ip : string) : M record :=
  let* t := now env in
  ret (<["timestamp" := VDatetime t]> (fallback_info ip)).

(** The body of the first loop: [results] and [online_ips] after one more
    address. *)
Definition first_pass_step (acc : gmap string record * list string) (ip : string)
  : M (gmap string record * list string) :=
  let results := acc.1 in
  let online_ips := acc.2 in
  let* local_info := LocalIPDatabase.get_ip_info env ip false in
  if store_answers local_info then
    modify (set_stats bump_local_db_hits) ;;
    ret (<[ip := local_info]> results, online_ips)
  else
    let* cached := cache_lookup ip in
    match cached with
    | Some cached_data => ret (<[ip := cached_data]> results, online_ips)
    | None =>
        let* offline_info := _get_offline_info ip in
        match offline_info with
        | Some info =>
            if dict_truthy info
               && (get_eq info "source" "offline_private"
                   || negb (py_eq_str (dict_get info "country" (VStr "Unknown")) "Unknown"))
            then
              let* t := now env in
              let info := <["timestamp" := VDatetime t]> info in
              modify (set_stats bump_offline_hits) ;;
              LocalIPDatabase._store_ip_data env ip info ;;
              modify (set_cache (<[ip := info]>)) ;;
              ret (<[ip := info]> results, online_ips)
            else ret (results, (online_ips ++ [ip])%list)
        | None => ret (results, (online_ips ++ [ip])%list)
        end
    end.

(** [fetch_online], the work of one thread of the pool. *)
Definition fetch_online (ip : string) : M (option record) :=
  let* info := _get_online_info ip in
  match info with
  | Some d =>
      if dict_truthy d then
        let* t := now env in
        let d := <["timestamp" := VDatetime t]> d in
        modify (set_stats bump_online_hits) ;;
        LocalIPDatabase._store_ip_data env ip d ;;
        ret (Some d)
      else ret None
  | None => ret None
  end.

(** The second pass. The pool runs [fetch_online] for the addresses of
    [online_ips] concurrently and the main thread handles the results as
    they complete; here the workers run one after the other, in the order
    of submission, each followed by the handling of its result. *)
Definition second_pass_step (results : gmap string record) (ip : string)
  : M (gmap string record) :=
  let* info := fetch_online ip in
  match info with
  | Some d =>
      modify (set_cache (<[ip := d]>)) ;;
      ret (<[ip := d]> results)
  | None =>
      let* fallback := bulk_fallback ip in
      ret (<[ip := fallback]> results)
  end.

(** The last loop: a fallback for every address still without result. *)
Definition fill_step (results : gmap string record) (ip : string)
  : M (gmap string record) :=
  match results !! ip with
  | Some _ => ret results
  | None =>
      let* fallback := bulk_fallback ip in
      ret (<[ip := fallback]> results)
  end.

Definition bulk_lookup (ip_list : list string) (max_workers : Z)
  : M (gmap string record) :=
  match ip_list with
  | [] => ret ∅
  | _ =>
      let* acc := foldM first_pass_step ip_list (∅, []) in
      let results := acc.1 in
      let online_ips := acc.2 in
      let* tok := gets token in
      let* results :=
        (match online_ips with
         | [] => ret results
         | _ => if token_set tok then foldM second_pass_step online_ips results
                else ret results
         end) in
      let* results := foldM fill_step ip_list results in
      _save_cache ;;
      ret results
  end.

(** ** [clear_cache] *)

(** [datetime.max], the last microsecond of year 9999. *)
Definition datetime_max : Z := 253402300799 * 1000000 + 999999.

(** [timedelta(days=n)]: [OverflowError] beyond 999999999 days. *)
Definition timedelta_days (days : Z) : option Z :=
  if Z.abs days <=? 999999999 then Some (days * 86400 * 1000000) else None.

(** [data.get('timestamp', datetime.min)] when it is a [datetime]. *)
Definition entry_stamp (data : record) : option Z :=
  match dict_get data "timestamp" (VDatetime datetime_min) with
  | VDatetime t => Some t
  | _ => None
  end.

(** [data.get('timestamp', datetime.min) < cutoff_date], for an entry whose
    timestamp is a [datetime]. *)
Definition older_than (cutoff_date : Z) (data : record) : bool :=
  match entry_stamp data with
  | Some t => t <? cutoff_date
  | None => false
  end.

(** [clear_cache].  Comparing anything but a [datetime] with the cutoff
    raises [TypeError]; that happens in the loop that collects the keys,
    before any entry is deleted. *)
Definition clear_cache (older_than_days : option Z) : M Z :=
  match older_than_days with
  | None =>
      let* c := gets cache in
      let cleared := Z.of_nat (size c) in
      modify (set_cache (fun _ => ∅)) ;;
      _save_cache ;;
      ret cleared
  | Some days =>
      let* t := now env in
      match timedelta_days days with
      | None => raise OverflowError
      | Some delta =>
          let cutoff_date := t - delta in
          if (cutoff_date <? datetime_min) || (datetime_max <? cutoff_date)
          then raise OverflowError
          else
            let* c := gets cache in
            if forallb (fun kv => bool_decide (is_Some (entry_stamp kv.2))) (map_to_list c)
            then
              let to_remove := filter (fun kv => older_than cutoff_date kv.2 = true) c in
              modify (set_cache (filter (fun kv => ~ (older_than cutoff_date kv.2 = true)))) ;;
              _save_cache ;;
              ret (Z.of_nat (size to_remove))
            else raise TypeError
      end
  end.

End Methods.

(** ** [_load_cache] *)

Section Loading.

(** [datetime.fromisoformat]; [None] stands for its [ValueError]. *)
Variable fromisoformat : string -> option Z.

(** One turn of the loop over the entries: a text under [timestamp] is
    replaced by the [datetime] it denotes; on [ValueError] the loop goes on
    and the entry stays as it was read. *)
Definition load_entry (data : record) : record :=
  match data !! "timestamp" with
  | Some (VStr text) =>
      match fromisoformat text with
      | Some t => <["timestamp" := VDatetime t]> data
      | None => data
      end
  | _ => data
  end.

Definition _load_cache (file : cache_file_content) : M unit :=
  match file with
  | NoFile => ret tt
  | Unreadable =>
      modify (set_cache (fun _ => ∅)) ;;
      modify (set_stats bump_errors)
  | FileObject cache_data =>
      modify (set_cache (fun _ => load_entry <$> cache_data))
  end.

End Loading.

End EnhancedIPinfoService.

(* ===================================================================== *)
(** * Environments and states of the examples                         *)
(* ===================================================================== *)

(** An environment where the network is down and the disk works; instants
    are rendered by their decimal figure. *)
Definition quiet_env : Env :=
  {| clock := fun n => Z.of_nat n * 1000000;
     sql_clock := fun n => Z.of_nat n;
     http_get := fun _ _ => HttpRaise;
     disk_ok := fun _ => true;
     dt_text := str_of_Z;
     iso_text := str_of_Z;
     sql_text := str_of_Z;
     int_affinity := fun s => VStr s |}.

Definition no_stats : Stats :=
  {| offline_hits := 0; online_hits := 0; cache_hits := 0;
     local_db_hits := 0; errors := 0 |}.

(** The two services right after construction, with no database file, no
    cache file and no token. *)
Definition fresh_state : State :=
  {| ip_data := ∅; ipinfo_token := None; db_lite_reader := None;
     token := None; cache := ∅; lite_reader := None;
     country_reader := None; city_reader := None; stats := no_stats;
     cache_file := ∅; tick := 0; trace := [] |}.

(** A row as a lookup of an API-resolved address leaves it. *)
Definition sample_row : row :=
  {| c_country := VStr "US"; c_country_code := VStr "US";
     c_country_name := VStr "US"; c_continent := VStr "Unknown";
     c_continent_code := VStr "XX"; c_region := VStr "California";
     c_city := VStr "Mountain View"; c_asn := VStr "Unknown";
     c_as_name := VStr "Unknown"; c_as_domain := VStr "unknown";
     c_org := VStr "AS15169 Google LLC"; c_isp := VStr "AS15169 Google LLC";
     c_timezone := VStr "America/Los_Angeles"; c_is_private := VInt 0;
     c_source := VStr "online"; c_first_seen := 100; c_last_updated := 250;
     c_query_count := 5 |}.

(** A store that holds [sample_row] for 8.8.8.8, later in the run. *)
Definition stored_state : State :=
  {| ip_data := {[ "8.8.8.8" := sample_row ]}; ipinfo_token := None;
     db_lite_reader := None; token := None; cache := ∅; lite_reader := None;
     country_reader := None; city_reader := None; stats := no_stats;
     cache_file := ∅; tick := 400; trace := [] |}.

(** What a later answer of the API for the same address looks like. *)
Definition sample_data : record :=
  list_to_map
    [ ("ip", VStr "8.8.8.8"); ("country", VStr "US");
      ("city", VStr "Mountain View"); ("org", VStr "AS15169 Google LLC");
      ("source", VStr "online") ].

(** An offline database that knows 8.8.8.8 only. *)
Definition google_reader : reader :=
  fun ip =>
    if String.eqb ip "8.8.8.8" then
      LDict (list_to_map
        [ ("country", VStr "United States"); ("country_code", VStr "US");
          ("continent", VStr "North America"); ("continent_code", VStr "NA");
          ("asn", VStr "AS15169"); ("as_name", VStr "Google LLC");
          ("as_domain", VStr "google.com") ])
    else LNone.

(** The services right after construction when the lite database file is
    there. *)
Definition mmdb_state : State :=
  {| ip_data := ∅; ipinfo_token := None; db_lite_reader := Some google_reader;
     token := None; cache := ∅; lite_reader := Some google_reader;
     country_reader := None; city_reader := None; stats := no_stats;
     cache_file := ∅; tick := 0; trace := [] |}.

(** The fallback record of 8.8.8.8 as a first run of [bulk_lookup] leaves it
    in the cache file and the next start loads it, stamped with [T]. *)
Definition cached_entry (T : Z) : record :=
  <["timestamp" := VDatetime T]> (EnhancedIPinfoService.fallback_info "8.8.8.8").

(** A state whose cache holds that entry, stamped at instant 0, while the
    store is empty.  In [quiet_env] tick [n] is second [n]. *)
Definition cached_state (n : nat) : State :=
  {| ip_data := ∅; ipinfo_token := None; db_lite_reader := None;
     token := None; cache := {[ "8.8.8.8" := cached_entry 0 ]};
     lite_reader := None; country_reader := None; city_reader := None;
     stats := no_stats; cache_file := ∅; tick := n; trace := [] |}.

(** The same cache, one second after the entry was stamped, when the store
    holds [sample_row] for the address. *)
Definition cached_and_stored_state : State :=
  {| ip_data := {[ "8.8.8.8" := sample_row ]}; ipinfo_token := None;
     db_lite_reader := None; token := None;
     cache := {[ "8.8.8.8" := cached_entry 0 ]};
     lite_reader := None; country_reader := None; city_reader := None;
     stats := no_stats; cache_file := ∅; tick := 1; trace := [] |}.

(** An environment where the API answers every request with a body that
    names only the address and an empty city. *)
Definition sparse_api_env : Env :=
  {| clock := fun n => Z.of_nat n * 1000000;
     sql_clock := fun n => Z.of_nat n;
     http_get := fun _ ip =>
       HttpResponse 200 (BodyDict (list_to_map [ ("ip", VStr ip); ("city", VStr "") ]));
     disk_ok := fun _ => true;
     dt_text := str_of_Z;
     iso_text := str_of_Z;
     sql_text := str_of_Z;
     int_affinity := fun s => VStr s |}.

(** The services right after [set_ipinfo_token] on the enhanced service. *)
Definition token_state : State :=
  {| ip_data := ∅; ipinfo_token := None; db_lite_reader := None;
     token := Some "token"; cache := ∅; lite_reader := None;
     country_reader := None; city_reader := None; stats := no_stats;
     cache_file := ∅; tick := 0; trace := [] |}.

(* ===================================================================== *)
(** * Properties of records                                           *)
(* ===================================================================== *)

(** What [LocalIPDatabase.get_ip_info] assembles for a public address when
    neither of its sources gives data. *)
Definition unknown_info (ip : string) : record :=
  list_to_map
    [ ("ip", VStr ip); ("is_private", VInt 0);
      ("country", VStr "Unknown"); ("country_code", VStr "XX");
      ("country_name", VStr "Unknown"); ("continent", VStr "Unknown");
      ("continent_code", VStr "XX"); ("region", VStr "Unknown");
      ("city", VStr "Unknown"); ("asn", VStr "Unknown");
      ("as_name", VStr "Unknown"); ("as_domain", VStr "unknown");
      ("org", VStr "Unknown"); ("isp", VStr "Unknown");
      ("timezone", VStr "Unknown"); ("source", VStr "unknown") ].

(** The row stored for it. *)
Definition unknown_row (stamp count : Z) : row :=
  {| c_country := VStr "Unknown"; c_country_code := VStr "XX";
     c_country_name := VStr "Unknown"; c_continent := VStr "Unknown";
     c_continent_code := VStr "XX"; c_region := VStr "Unknown";
     c_city := VStr "Unknown"; c_asn := VStr "Unknown";
     c_as_name := VStr "Unknown"; c_as_domain := VStr "unknown";
     c_org := VStr "Unknown"; c_isp := VStr "Unknown";
     c_timezone := VStr "Unknown"; c_is_private := VInt 0;
     c_source := VStr "unknown"; c_first_seen := stamp;
     c_last_updated := stamp; c_query_count := count |}.

(** The twelve string fields of a fallback record and their values. *)
Definition unknown_fields : list (string * string) :=
  [ ("country", "Unknown"); ("country_name", "Unknown"); ("country_code", "XX");
    ("region", "Unknown"); ("city", "Unknown"); ("org", "Unknown");
    ("asn", "Unknown"); ("as_name", "Unknown"); ("as_domain", "Unknown");
    ("continent", "Unknown"); ("continent_code", "XX"); ("timezone", "Unknown") ].

Definition all_unknown (r : record) : Prop :=
  Forall (fun kv => r !! kv.1 = Some (VStr kv.2)) unknown_fields.

(** The record [bulk_lookup] gives an address no tier knows. *)
Definition is_bulk_fallback (ip : string) (r : record) : Prop :=
  exists t, r = <["timestamp" := VDatetime t]> (EnhancedIPinfoService.fallback_info ip).

(** The string fields of an IP record. *)
Definition string_fields : list string :=
  [ "country"; "country_code"; "country_name"; "continent"; "continent_code";
    "region"; "city"; "asn"; "as_name"; "as_domain"; "org"; "isp"; "timezone" ].

(** A field that is there and is neither [None] nor the empty string. *)
Definition populated (r : record) (k : string) : Prop :=
  exists v, r !! k = Some v /\ LocalIPDatabase.blank v = false.

(** The tag every dictionary of the offline databases carries. *)
Definition is_offline (info : record) : Prop :=
  info !! "source" = Some (VStr "offline").

Definition flow_offline (f : EnhancedIPinfoService.flow) : Prop :=
  match f with
  | EnhancedIPinfoService.Caught => True
  | EnhancedIPinfoService.Return (Some info) => is_offline info
  | EnhancedIPinfoService.Return None => True
  | EnhancedIPinfoService.Next info => is_offline info
  end.

(** Where the dictionary of the lower tiers comes from. *)
Inductive lower_info (ip : string) (info : record) : Prop :=
  | FromOffline :
      EnhancedIPinfoService._is_private_ip ip = false -> is_offline info ->
      lower_info ip info
  | FromOfflinePrivate :
      EnhancedIPinfoService._is_private_ip ip = true ->
      info = EnhancedIPinfoService.offline_private ip ->
      lower_info ip info
  | FromOnline :
      info !! "source" = Some (VStr "online") -> lower_info ip info.

(** The tags the store tier gives to what it assembles. *)
Definition store_tag (tag : string) : Prop :=
  tag = "unknown" \/ tag = "mmdb" \/ tag = "ipinfo_api" \/ tag = "mmdb+ipinfo_api".

(** The results of the first loop: the private addresses, each with the
    record of the store tier. *)
Definition private_results (ips : list string) (results : gmap string record)
  : gmap string record :=
  foldl (fun res ip =>
           if LocalIPDatabase._is_private_ip ip
           then <[ip := LocalIPDatabase.private_info ip]> res else res)
        results ips.

(* ===================================================================== *)
(** * Relations between states                                        *)
(* ===================================================================== *)

(** The parts of the state that belong to [EnhancedIPinfoService] and the
    configuration of both services: no method of [LocalIPDatabase] touches
    them. *)
Definition service_untouched (s s' : State) : Prop :=
  ipinfo_token s' = ipinfo_token s /\ db_lite_reader s' = db_lite_reader s /\
  token s' = token s /\ cache s' = cache s /\ lite_reader s' = lite_reader s /\
  country_reader s' = country_reader s /\ city_reader s' = city_reader s /\
  stats s' = stats s /\ cache_file s' = cache_file s.

(** What the two outside sources of the store gave, and the state after
    they were consulted. *)
Record sources_consulted (s : State) (mmdb_data ipinfo_data : option record)
    (s2 : State) : Prop := {
  sc_store : ip_data s2 = ip_data s;
  sc_service : service_untouched s s2;
  sc_mmdb_shape :
    mmdb_data = None \/ exists d, mmdb_data = Some (LocalIPDatabase.mmdb_record d);
  sc_ipinfo_shape :
    ipinfo_data = None \/ exists d, ipinfo_data = Some (LocalIPDatabase.ipinfo_record d);
  sc_no_reader : db_lite_reader s = None -> mmdb_data = None;
  sc_no_token : token_set (ipinfo_token s) = false -> ipinfo_data = None;
  sc_quiet :
    db_lite_reader s = None -> token_set (ipinfo_token s) = false -> s2 = s
}.

Inductive local_outcome (env : Env) (ip : string) (s : State) (r : record)
    (s' : State) : Prop :=
  | LocalEmpty :
      ip = "" -> r = ∅ -> s' = s -> local_outcome env ip s r s'
  | LocalPrivate mk :
      ip <> "" -> LocalIPDatabase._is_private_ip ip = true ->
      r = LocalIPDatabase.private_info ip ->
      LocalIPDatabase.bind_parameters env r = inr mk ->
      s' = set_ip_data
             (fun table => <[ip := mk (sql_clock env (tick s))
                                      (LocalIPDatabase.next_query_count table ip)]> table)
             (advance s) ->
      local_outcome env ip s r s'
  | LocalRow row :
      ip <> "" -> LocalIPDatabase._is_private_ip ip = false ->
      ip_data s !! ip = Some row ->
      r = <["from_cache" := VBool true]> (LocalIPDatabase.row_to_dict env ip row) ->
      s' = set_ip_data
             (fun table => <[ip := LocalIPDatabase.touch_row row (sql_clock env (tick s))]> table)
             (advance s) ->
      local_outcome env ip s r s'
  | LocalFresh mmdb_data ipinfo_data s2 mk :
      ip <> "" -> LocalIPDatabase._is_private_ip ip = false ->
      ip_data s !! ip = None ->
      sources_consulted s mmdb_data ipinfo_data s2 ->
      r = LocalIPDatabase.assemble env ip mmdb_data ipinfo_data ->
      LocalIPDatabase.bind_parameters env r = inr mk ->
      s' = set_ip_data
             (fun table => <[ip := mk (sql_clock env (tick s2))
                                      (LocalIPDatabase.next_query_count table ip)]> table)
             (advance s2) ->
      local_outcome env ip s r s'.

(** No token and no database file, on the side of the store and on the side
    of the service. *)
Definition nothing_configured (s : State) : Prop :=
  token_set (token s) = false /\ token_set (ipinfo_token s) = false /\
  db_lite_reader s = None /\ lite_reader s = None /\
  country_reader s = None /\ city_reader s = None.

(** Every row of the store is the row of a private address or has country
    "Unknown". *)
Definition store_unknown (s : State) : Prop :=
  forall ip row, ip_data s !! ip = Some row ->
    LocalIPDatabase._is_private_ip ip = true \/ c_country row = VStr "Unknown".

(** The invariant of the first loop of [bulk_lookup] in that setting. *)
Definition quiet_inv (s : State) : Prop :=
  nothing_configured s /\ cache s = ∅ /\ store_unknown s.

(** The store, the cache and the count of cache hits are as they were. *)
Definition stores_kept (s s' : State) : Prop :=
  ip_data s' = ip_data s /\ cache s' = cache s /\
  cache_hits (stats s') = cache_hits (stats s).

(** Every row tagged "fallback" in [s'] was such a row in [s]. *)
Definition no_fallback_row_added (s s' : State) : Prop :=
  forall ip row, ip_data s' !! ip = Some row -> c_source row = VStr "fallback" ->
    exists row0, ip_data s !! ip = Some row0 /\ c_source row0 = VStr "fallback".

(** Every cache entry tagged "fallback" in [s'] was that entry in [s]. *)
Definition no_fallback_entry_added (s s' : State) : Prop :=
  forall ip e, cache s' !! ip = Some e -> e !! "source" = Some (VStr "fallback") ->
    cache s !! ip = Some e.

(** Both at once, for the steps of [bulk_lookup]. *)
Definition no_fallback_added (s s' : State) : Prop :=
  no_fallback_row_added s s' /\ no_fallback_entry_added s s'.

(** The columns of [ip_data] of TEXT affinity that [_store_ip_data] fills
    from the dictionary. *)
Definition text_columns : list string := string_fields ++ ["source"].

(** [info.get('org')] is there and truthy. *)
Definition org_set (info : record) : Prop :=
  exists v, info !! "org" = Some v /\ truthy v = true.

(** [org] is not there yet, or is truthy. *)
Definition org_sound (info : record) : Prop :=
  forall v, info !! "org" = Some v -> truthy v = true.

Definition flow_org (f : EnhancedIPinfoService.flow) : Prop :=
  match f with
  | EnhancedIPinfoService.Caught => True
  | EnhancedIPinfoService.Return (Some info) => org_set info
  | EnhancedIPinfoService.Return None => True
  | EnhancedIPinfoService.Next info => org_sound info
  end.

(** The services with the lite database file and a token on the enhanced
    service. *)
Definition mmdb_token_state : State :=
  {| ip_data := ∅; ipinfo_token := None; db_lite_reader := None;
     token := Some "token"; cache := ∅; lite_reader := Some google_reader;
     country_reader := None; city_reader := None; stats := no_stats;
     cache_file := ∅; tick := 0; trace := [] |}.

(** An offline database whose lookups raise. *)
Definition broken_reader : reader := fun _ => LRaise.

(** The services when the lite database is broken and the country database
    knows 8.8.8.8. *)
Definition broken_lite_state : State :=
  {| ip_data := ∅; ipinfo_token := None; db_lite_reader := None;
     token := None; cache := ∅; lite_reader := Some broken_reader;
     country_reader := Some google_reader; city_reader := None;
     stats := no_stats; cache_file := ∅; tick := 0; trace := [] |}.

(** The addresses asked of the online API, most recent first. *)
Definition http_calls (tr : list event) : list string :=
  omap (fun e => match e with EvHttp ip => Some ip | EvMmdb _ => None end) tr.

(** Neither service has a token. *)
Definition tokens_unset (s : State) : Prop :=
  token_set (token s) = false /\ token_set (ipinfo_token s) = false.

(** The tokens are as they were and no request was sent. *)
Definition same_requests (s s' : State) : Prop :=
  token s' = token s /\ ipinfo_token s' = ipinfo_token s /\
  http_calls (trace s') = http_calls (trace s).

Definition no_request (s s' : State) : Prop :=
  tokens_unset s -> same_requests s s'.

(** The cutoff of [clear_cache days] called in state [s]. *)
Definition clear_cutoff (env : Env) (days : Z) (s : State) : Z :=
  clock env (tick s) - days * 86400 * 1000000.

(** The number of days and the cutoff are ones [timedelta] and [datetime]
    can hold. *)
Definition cutoff_in_range (env : Env) (days : Z) (s : State) : Prop :=
  Z.abs days <= 999999999 /\
  EnhancedIPinfoService.datetime_min <= clear_cutoff env days s
    <= EnhancedIPinfoService.datetime_max.

(** A [fromisoformat] for the texts of [quiet_env]: it reads the text of
    instant 0 and rejects everything else. *)
Definition zero_iso (text : string) : option Z :=
  if String.eqb text "0" then Some 0 else None.

(** A cache file with an entry whose timestamp is not an ISO text. *)
Definition damaged_file : gmap string record :=
  {[ "8.8.8.8" := <["timestamp" := VStr "yesterday"]>
                    (EnhancedIPinfoService.fallback_info "8.8.8.8") ]}.

(** The counters of every row of [ip_statistics] make sense: at least one
    request, and no more errors than requests. *)
Definition stat_sound (table : gmap string LocalIPDatabase.stat_row) : Prop :=
  forall ip row, table !! ip = Some row ->
    1 <= LocalIPDatabase.st_total_requests row /\
    0 <= LocalIPDatabase.st_error_requests row <= LocalIPDatabase.st_total_requests row.

(** The counters of [ip] before a call: zero when there is no row. *)
Definition requests_so_far (table : gmap string LocalIPDatabase.stat_row) (ip : string)
  : Z * Z :=
  match table !! ip with
  | Some row => (LocalIPDatabase.st_total_requests row, LocalIPDatabase.st_error_requests row)
  | None => (0, 0)
  end.

(** An environment that renders an instant the way the adapter of [sqlite3]
    renders a [datetime] of the first seconds of 2024. *)
Definition log_env : Env :=
  {| clock := fun n => Z.of_nat n * 1000000;
     sql_clock := fun n => Z.of_nat n;
     http_get := fun _ _ => HttpRaise;
     disk_ok := fun _ => true;
     dt_text := fun t => "2024-01-01 00:00:0" ++ str_of_Z t;
     iso_text := fun t => "2024-01-01T00:00:0" ++ str_of_Z t;
     sql_text := fun t => "2024-01-01 00:00:0" ++ str_of_Z t;
     int_affinity := fun s => VStr s |}.

(** A [json.loads] that knows the empty array and rejects the texts of
    [log_env]. *)
Definition array_loads (text : string) : LocalIPDatabase.loads_result :=
  if String.eqb text "[]" then LocalIPDatabase.LoadsArray []
  else LocalIPDatabase.LoadsRaises.

(** The answers of the API that [IPInfoService.get_ip_info] accepts: status
    200 with a JSON object. *)
Definition api_success (response : http_result) : bool :=
  match response with
  | HttpResponse status_code (BodyDict _) => status_code =? 200
  | _ => false
  end.

(** An [IPInfoService] right after construction without token and without
    cache file. *)
Definition fresh_service : IPInfoService.service :=
  {| IPInfoService.api_token := None; IPInfoService.ip_cache := ∅;
     IPInfoService.ip_cache_file := NoFile; IPInfoService.sv_tick := 0;
     IPInfoService.sv_requests := [] |}.

(** An API that answers every request with the country of the address. *)
Definition country_api (lite : bool) (n : nat) (ip : string) : http_result :=
  HttpResponse 200 (BodyDict (list_to_map [ ("ip", VStr ip); ("country", VStr "US") ])).

(** An API that is down. *)
Definition down_api (lite : bool) (n : nat) (ip : string) : http_result := HttpRaise.

(** A disk where every write succeeds. *)
Definition good_disk (n : nat) : IPInfoService.write_outcome := IPInfoService.Written.

(** A cache file of [IPInfoService] with one entry stamped at instant 0 and
    one entry whose [cached_at] is no ISO text. *)
Definition stale_file : gmap string record :=
  {[ "8.8.8.8" := list_to_map [ ("ip", VStr "8.8.8.8"); ("cached_at", VStr "0") ] ]}.

Definition damaged_ipinfo_file : gmap string record :=
  <["1.1.1.1" := list_to_map [ ("ip", VStr "1.1.1.1"); ("cached_at", VStr "soon") ]]>
    stale_file.

(* ===================================================================== *)
(** * Basic facts about the computations                              *)
(* ===================================================================== *)

Lemma bind_ok {A B} (m : M A) (k : A -> M B) s b s' :
  bind m k s = Ok b s' ->
  exists a s1, m s = Ok a s1 /\ k a s1 = Ok b s'.
Proof.
  unfold bind. destruct (m s) as [a s1|e s1]; [eauto | discriminate].
Qed.

Lemma Ok_inj {A} (a b : A) s s' : Ok a s = Ok b s' -> a = b /\ s = s'.
Proof. intros H. now inversion H. Qed.

Lemma bind_ok_intro {A B} (m : M A) (k : A -> M B) s a s1 :
  m s = Ok a s1 -> bind m k s = k a s1.
Proof. intros H. unfold bind. now rewrite H. Qed.

Lemma eqb_empty_false ip : ip <> "" -> String.eqb ip "" = false.
Proof. intros H. now apply String.eqb_neq. Qed.

(** The two tiered services share one classifier. *)
Lemma classifiers_coincide ip :
  EnhancedIPinfoService._is_private_ip ip = LocalIPDatabase._is_private_ip ip.
Proof. reflexivity. Qed.

Lemma private_not_empty ip :
  LocalIPDatabase._is_private_ip ip = true -> ip <> "".
Proof. intros H ->. discriminate H. Qed.

(** ** [_store_ip_data] *)

Lemma store_ip_data_ok env ip data mk s :
  LocalIPDatabase.bind_parameters env data = inr mk ->
  LocalIPDatabase._store_ip_data env ip data s =
    Ok tt (set_ip_data
             (fun table => <[ip := mk (sql_clock env (tick s))
                                      (LocalIPDatabase.next_query_count table ip)]> table)
             (advance s)).
Proof.
  intros H. unfold LocalIPDatabase._store_ip_data. rewrite H. reflexivity.
Qed.

Lemma store_ip_data_inv env ip data s u s' :
  LocalIPDatabase._store_ip_data env ip data s = Ok u s' ->
  exists mk, LocalIPDatabase.bind_parameters env data = inr mk /\
    s' = set_ip_data
           (fun table => <[ip := mk (sql_clock env (tick s))
                                    (LocalIPDatabase.next_query_count table ip)]> table)
           (advance s).
Proof.
  unfold LocalIPDatabase._store_ip_data.
  destruct (LocalIPDatabase.bind_parameters env data) as [e|mk]; [discriminate|].
  intros H. exists mk. split; [reflexivity|].
  unfold bind, current_timestamp, modify in H. now inversion H.
Qed.

(** The timestamps and the counter of the row made from bound parameters. *)
Lemma bind_parameters_row env data mk stamp count :
  LocalIPDatabase.bind_parameters env data = inr mk ->
  c_first_seen (mk stamp count) = stamp /\
  c_last_updated (mk stamp count) = stamp /\
  c_query_count (mk stamp count) = count.
Proof.
  unfold LocalIPDatabase.bind_parameters. intros H.
  repeat match type of H with
         | match ?x with inl _ => _ | inr _ => _ end = _ =>
             destruct x; [discriminate H|]
         end.
  inversion H. subst mk. simpl. auto.
Qed.

(* ===================================================================== *)
(** * The durable store                                               *)
(* ===================================================================== *)

(** C5. The upsert of the store: when the parameters can be bound,
    [_store_ip_data] succeeds and replaces the row of [ip] by the row made
    from [data]; its [query_count] is one more than the count of the row
    that was there ([n + 1], not 1), and 1 when there was no row. The other
    rows are untouched. *)
Theorem upsert_query_count env ip data mk s :
  LocalIPDatabase.bind_parameters env data = inr mk ->
  exists s' r',
    LocalIPDatabase._store_ip_data env ip data s = Ok tt s' /\
    ip_data s' !! ip = Some r' /\
    r' = mk (sql_clock env (tick s)) (c_query_count r') /\
    (forall r n, ip_data s !! ip = Some r -> c_query_count r = n ->
                 c_query_count r' = n + 1) /\
    (ip_data s !! ip = None -> c_query_count r' = 1) /\
    (forall ip', ip' <> ip -> ip_data s' !! ip' = ip_data s !! ip').
Proof.
  intros Hb.
  destruct (bind_parameters_row env data mk (sql_clock env (tick s))
              (LocalIPDatabase.next_query_count (ip_data s) ip) Hb)
    as (_ & _ & Hc).
  eexists _, _. split; [apply store_ip_data_ok; exact Hb|].
  simpl. split; [apply lookup_insert_eq|].
  split; [now rewrite Hc|].
  rewrite Hc. unfold LocalIPDatabase.next_query_count.
  split; [|split].
  - intros r n Hr Hn. rewrite Hr. lia.
  - intros Hr. now rewrite Hr.
  - intros ip' Hne. now apply lookup_insert_ne.
Qed.

Lemma upsert_query_count_witness :
  exists s' r',
    LocalIPDatabase._store_ip_data quiet_env "8.8.8.8" sample_data stored_state = Ok tt s' /\
    ip_data s' !! "8.8.8.8" = Some r' /\
    c_query_count r' = 6.
Proof.
  destruct (upsert_query_count quiet_env "8.8.8.8" sample_data _ stored_state eq_refl)
    as (s' & r' & Hs & Hr & _ & Hn & _).
  exists s', r'. split; [exact Hs|]. split; [exact Hr|].
  apply (Hn sample_row 5); reflexivity.
Defined.

(** C10. A store write for an address that already has a row does not keep
    the row's [first_seen]: the replacing INSERT leaves the column out, so
    the new row carries the [CURRENT_TIMESTAMP] of the statement there, the
    same instant as in [last_updated], whatever the old row held; of the old
    row only the counter is carried over. *)
Theorem upsert_resets_first_seen env ip data mk s r :
  LocalIPDatabase.bind_parameters env data = inr mk ->
  ip_data s !! ip = Some r ->
  exists s' r',
    LocalIPDatabase._store_ip_data env ip data s = Ok tt s' /\
    ip_data s' !! ip = Some r' /\
    c_first_seen r' = sql_clock env (tick s) /\
    c_first_seen r' = c_last_updated r' /\
    c_query_count r' = c_query_count r + 1.
Proof.
  intros Hb Hr.
  destruct (bind_parameters_row env data mk (sql_clock env (tick s))
              (LocalIPDatabase.next_query_count (ip_data s) ip) Hb)
    as (Hf & Hl & Hc).
  eexists _, _. split; [apply store_ip_data_ok; exact Hb|].
  simpl. split; [apply lookup_insert_eq|].
  split; [exact Hf|]. split; [now rewrite Hf, Hl|].
  rewrite Hc. unfold LocalIPDatabase.next_query_count. now rewrite Hr.
Qed.

Lemma upsert_resets_first_seen_witness :
  exists s' r',
    LocalIPDatabase._store_ip_data quiet_env "8.8.8.8" sample_data stored_state = Ok tt s' /\
    ip_data s' !! "8.8.8.8" = Some r' /\
    c_first_seen r' = 400 /\
    c_first_seen r' <> c_first_seen sample_row.
Proof.
  destruct (upsert_resets_first_seen quiet_env "8.8.8.8" sample_data _ stored_state
              sample_row eq_refl eq_refl)
    as (s' & r' & Hs & Hr & Hf & _).
  exists s', r'. split; [exact Hs|]. split; [exact Hr|].
  split; [exact Hf|]. rewrite Hf. discriminate.
Defined.

(* ===================================================================== *)
(** * The private-range classifiers compared                          *)
(* ===================================================================== *)

(** C9. There is a malformed address on which the classifiers disagree:
    on ["abc"] (one part, not a numeral) the classifier of [IPInfoService]
    answers [True], those of the two tiered services answer [False]. *)
Theorem classifiers_disagree_on_malformed :
  exists ip,
    malformed_ipv4 ip = true /\
    IPInfoService._is_private_ip ip = true /\
    EnhancedIPinfoService._is_private_ip ip = false /\
    LocalIPDatabase._is_private_ip ip = false.
Proof. exists "abc". repeat split; reflexivity. Qed.

(** The same happens with numerals only, when an octet is missing. *)
Lemma classifiers_disagree_on_three_octets :
  malformed_ipv4 "1.2.3" = true /\
  IPInfoService._is_private_ip "1.2.3" = true /\
  EnhancedIPinfoService._is_private_ip "1.2.3" = false.
Proof. repeat split; reflexivity. Qed.

(* ===================================================================== *)
(** * Private addresses                                               *)
(* ===================================================================== *)

Lemma private_info_bindable env ip :
  exists mk, LocalIPDatabase.bind_parameters env (LocalIPDatabase.private_info ip) = inr mk.
Proof. eexists. reflexivity. Qed.

Lemma private_info_answers ip :
  EnhancedIPinfoService.store_answers (LocalIPDatabase.private_info ip) = true.
Proof.
  unfold EnhancedIPinfoService.store_answers. apply andb_true_intro. split; [|reflexivity].
  unfold dict_truthy. apply negb_true_iff, bool_decide_eq_false.
  intros H. apply (f_equal (fun m : record => m !! "country")) in H. discriminate H.
Qed.

(** The store's own lookup of a private address: one INSERT OR REPLACE, and
    the synthesized dictionary. *)
Lemma local_get_ip_info_private env ip s :
  LocalIPDatabase._is_private_ip ip = true ->
  exists s',
    LocalIPDatabase.get_ip_info env ip false s = Ok (LocalIPDatabase.private_info ip) s' /\
    trace s' = trace s /\ cache s' = cache s /\ stats s' = stats s.
Proof.
  intros Hp. unfold LocalIPDatabase.get_ip_info.
  rewrite (eqb_empty_false ip (private_not_empty ip Hp)), Hp.
  destruct (private_info_bindable env ip) as [mk Hmk].
  eexists. split.
  - erewrite bind_ok_intro; [|apply store_ip_data_ok; exact Hmk]. reflexivity.
  - repeat split.
Qed.

(** Single-address resolution of a private address: the record of the store
    tier, one more store hit, and the same trace of outside calls. *)
Lemma private_ip_answer env ip s :
  EnhancedIPinfoService._is_private_ip ip = true ->
  exists s',
    EnhancedIPinfoService.get_ip_info env ip s = Ok (LocalIPDatabase.private_info ip) s' /\
    trace s' = trace s.
Proof.
  intros Hp. rewrite classifiers_coincide in Hp.
  destruct (local_get_ip_info_private env ip s Hp) as (s1 & Hl & Ht & _ & _).
  exists (set_stats bump_local_db_hits s1).
  split; [|exact Ht].
  unfold EnhancedIPinfoService.get_ip_info.
  rewrite (eqb_empty_false ip (private_not_empty ip Hp)).
  erewrite bind_ok_intro; [|exact Hl].
  rewrite private_info_answers. reflexivity.
Qed.

(** C1, as the code has it. For every address the classifier recognizes as
    private, single-address resolution returns the record synthesized by the
    store tier: its [source] is ["private"] (not ["offline_private"]), its
    [country] is ["Private"], and no offline database is read and no request
    is sent: the trace of outside calls is unchanged. *)
Theorem private_ip_resolution env ip s :
  EnhancedIPinfoService._is_private_ip ip = true ->
  exists r s',
    EnhancedIPinfoService.get_ip_info env ip s = Ok r s' /\
    r !! "source" = Some (VStr "private") /\
    r !! "country" = Some (VStr "Private") /\
    trace s' = trace s.
Proof.
  intros Hp. destruct (private_ip_answer env ip s Hp) as (s' & H & Ht).
  exists (LocalIPDatabase.private_info ip), s'. repeat split; assumption.
Qed.

Lemma private_ip_resolution_witness :
  EnhancedIPinfoService._is_private_ip "10.1.2.3" = true /\
  exists r s',
    EnhancedIPinfoService.get_ip_info quiet_env "10.1.2.3" fresh_state = Ok r s' /\
    r !! "source" = Some (VStr "private") /\
    r !! "country" = Some (VStr "Private") /\
    trace s' = trace fresh_state.
Proof.
  split; [reflexivity|].
  apply (private_ip_resolution quiet_env "10.1.2.3" fresh_state). reflexivity.
Defined.

(** The four addresses the specification names are recognized. *)
Lemma named_private_addresses :
  Forall (fun ip => EnhancedIPinfoService._is_private_ip ip = true)
    ["10.1.2.3"; "172.20.5.5"; "192.168.1.1"; "127.0.0.1"].
Proof. repeat constructor. Qed.

(** C1 as the specification words it fails: the record returned for
    10.1.2.3 is not tagged ["offline_private"]. *)
Lemma private_source_counterexample :
  exists r s',
    EnhancedIPinfoService.get_ip_info quiet_env "10.1.2.3" fresh_state = Ok r s' /\
    r !! "source" <> Some (VStr "offline_private").
Proof.
  destruct (private_ip_answer quiet_env "10.1.2.3" fresh_state eq_refl) as (s' & H & _).
  exists (LocalIPDatabase.private_info "10.1.2.3"), s'.
  split; [exact H|]. discriminate.
Qed.

(* ===================================================================== *)
(** * A lookup that raises                                            *)
(* ===================================================================== *)

(** C3 at a failing input. With no token and no offline database, the first
    lookup of 8.8.8.8 returns the fallback record and caches it with the ISO
    text of the time under [timestamp]; the second lookup finds the entry,
    subtracts that text from [datetime.now()], and the [TypeError] leaves
    [get_ip_info]. *)
Theorem second_lookup_raises :
  exists r s1 s2,
    EnhancedIPinfoService.get_ip_info quiet_env "8.8.8.8" fresh_state = Ok r s1 /\
    r !! "source" = Some (VStr "fallback") /\
    r !! "timestamp" = Some (VStr (iso_text quiet_env 1000000)) /\
    EnhancedIPinfoService.get_ip_info quiet_env "8.8.8.8" s1 = Raise TypeError s2.
Proof.
  assert (H : match EnhancedIPinfoService.get_ip_info quiet_env "8.8.8.8" fresh_state with
              | Ok r s1 =>
                  bool_decide (r !! "source" = Some (VStr "fallback"))
                  && bool_decide (r !! "timestamp" = Some (VStr (iso_text quiet_env 1000000)))
                  && match EnhancedIPinfoService.get_ip_info quiet_env "8.8.8.8" s1 with
                     | Raise TypeError _ => true
                     | _ => false
                     end
              | Raise _ _ => false
              end = true).
  { vm_compute. reflexivity. }
  destruct (EnhancedIPinfoService.get_ip_info quiet_env "8.8.8.8" fresh_state)
    as [r s1|e s1]; [|discriminate H].
  apply andb_prop in H as [H H3]. apply andb_prop in H as [H1 H2].
  apply bool_decide_eq_true in H1, H2.
  destruct (EnhancedIPinfoService.get_ip_info quiet_env "8.8.8.8" s1)
    as [r2 s2|e s2] eqn:E2; [discriminate H3|].
  destruct e; try discriminate H3.
  exists r, s1, s2. repeat split; assumption.
Qed.

(* ===================================================================== *)
(** * What each step does to the state                                *)
(* ===================================================================== *)

Lemma ret_ok {A} (a b : A) s s' : ret a s = Ok b s' -> b = a /\ s' = s.
Proof. unfold ret. intros H. now inversion H. Qed.

Lemma gets_ok {A} (f : State -> A) a s s' : gets f s = Ok a s' -> a = f s /\ s' = s.
Proof. unfold gets. intros H. now inversion H. Qed.

Lemma modify_ok f u s s' : modify f s = Ok u s' -> s' = f s.
Proof. unfold modify. intros H. now inversion H. Qed.

Lemma now_ok env t s s' : now env s = Ok t s' -> t = clock env (tick s) /\ s' = advance s.
Proof. unfold now. intros H. now inversion H. Qed.

Lemma current_timestamp_ok env t s s' :
  current_timestamp env s = Ok t s' -> t = sql_clock env (tick s) /\ s' = advance s.
Proof. unfold current_timestamp. intros H. now inversion H. Qed.

Lemma requests_get_ok env ip r s s' :
  requests_get env ip s = Ok r s' ->
  r = http_get env (tick s) ip /\ s' = advance (log_event (EvHttp ip) s).
Proof. unfold requests_get. intros H. now inversion H. Qed.

Lemma reader_get_ok rd ip r s s' :
  reader_get rd ip s = Ok r s' -> r = rd ip /\ s' = log_event (EvMmdb ip) s.
Proof. unfold reader_get. intros H. now inversion H. Qed.

(** One step of the inversion of a successful computation. *)
Ltac step_ok H :=
  lazymatch type of H with
  | bind _ _ _ = Ok _ _ =>
      let a := fresh "a" in let s := fresh "s" in let H1 := fresh "Hm" in
      apply bind_ok in H as (a & s & H1 & H)
  | ret _ _ = Ok _ _ => apply ret_ok in H as [? ?]
  | gets _ _ = Ok _ _ => apply gets_ok in H as [? ?]
  | modify _ _ = Ok _ _ => apply modify_ok in H
  | now _ _ = Ok _ _ => apply now_ok in H as [? ?]
  | current_timestamp _ _ = Ok _ _ => apply current_timestamp_ok in H as [? ?]
  | requests_get _ _ _ = Ok _ _ => apply requests_get_ok in H as [? ?]
  | reader_get _ _ _ = Ok _ _ => apply reader_get_ok in H as [? ?]
  | raise _ _ = Ok _ _ => discriminate H
  end.

Lemma service_untouched_refl s : service_untouched s s.
Proof. repeat split. Qed.

Lemma service_untouched_trans s1 s2 s3 :
  service_untouched s1 s2 -> service_untouched s2 s3 -> service_untouched s1 s3.
Proof.
  unfold service_untouched. intros H1 H2.
  destruct H1 as (?&?&?&?&?&?&?&?&?), H2 as (?&?&?&?&?&?&?&?&?).
  repeat split; congruence.
Qed.

Lemma store_ip_data_untouched env ip data s u s' :
  LocalIPDatabase._store_ip_data env ip data s = Ok u s' -> service_untouched s s'.
Proof.
  intros H. apply store_ip_data_inv in H as (mk & _ & ->). repeat split.
Qed.

Lemma select_and_touch_hit env ip r s :
  ip_data s !! ip = Some r ->
  LocalIPDatabase.select_and_touch env ip s =
    Ok (Some (<["from_cache" := VBool true]> (LocalIPDatabase.row_to_dict env ip r)))
       (set_ip_data (fun table => <[ip := LocalIPDatabase.touch_row r (sql_clock env (tick s))]> table)
                    (advance s)).
Proof.
  intros H. unfold LocalIPDatabase.select_and_touch, bind, gets. rewrite H. reflexivity.
Qed.

Lemma select_and_touch_miss env ip s :
  ip_data s !! ip = None ->
  LocalIPDatabase.select_and_touch env ip s = Ok None s.
Proof.
  intros H. unfold LocalIPDatabase.select_and_touch, bind, gets. rewrite H. reflexivity.
Qed.

(** Unfolding of the primitive steps, for computations short enough to be
    followed branch by branch. *)
Ltac unfold_steps H :=
  unfold bind, ret, gets, modify, raise, now, current_timestamp,
    requests_get, reader_get in H.

Lemma get_mmdb_data_inv ip o s s' :
  LocalIPDatabase._get_mmdb_data ip s = Ok o s' ->
  (db_lite_reader s = None /\ o = None /\ s' = s) \/
  (exists rd, db_lite_reader s = Some rd /\ s' = log_event (EvMmdb ip) s /\
     (o = None \/ exists d, o = Some (LocalIPDatabase.mmdb_record d))).
Proof.
  unfold LocalIPDatabase._get_mmdb_data. intros H. unfold_steps H.
  destruct (db_lite_reader s) as [rd|]; [right|left].
  - exists rd. split; [reflexivity|].
    destruct (rd ip) as [| |d|b]; try (inversion H; now auto).
    destruct (dict_truthy d); inversion H; eauto.
  - now inversion H.
Qed.

Lemma get_ipinfo_data_inv env ip o s s' :
  LocalIPDatabase._get_ipinfo_data env ip s = Ok o s' ->
  (token_set (ipinfo_token s) = false /\ o = None /\ s' = s) \/
  (token_set (ipinfo_token s) = true /\ s' = advance (log_event (EvHttp ip) s) /\
     (o = None \/ exists d, o = Some (LocalIPDatabase.ipinfo_record d))).
Proof.
  unfold LocalIPDatabase._get_ipinfo_data. intros H. unfold_steps H.
  destruct (token_set (ipinfo_token s)); simpl in H; [right|left].
  - split; [reflexivity|].
    destruct (http_get env (tick s) ip) as [|code body]; [inversion H; now auto|].
    destruct (code =? 200); [|inversion H; now auto].
    destruct body; inversion H; eauto.
  - now inversion H.
Qed.

(** ** [LocalIPDatabase.get_ip_info], branch by branch *)

Lemma service_untouched_log e s : service_untouched s (log_event e s).
Proof. repeat split. Qed.

Lemma service_untouched_advance s : service_untouched s (advance s).
Proof. repeat split. Qed.

Lemma sources_consulted_intro env ip s mmdb_data s1 ipinfo_data s2 :
  LocalIPDatabase._get_mmdb_data ip s = Ok mmdb_data s1 ->
  LocalIPDatabase._get_ipinfo_data env ip s1 = Ok ipinfo_data s2 ->
  sources_consulted s mmdb_data ipinfo_data s2.
Proof.
  intros H1 H2.
  apply get_mmdb_data_inv in H1. apply get_ipinfo_data_inv in H2.
  destruct H1 as [(Hrd & -> & ->)|(rd & Hrd & -> & Hm)];
    destruct H2 as [(Htk & -> & ->)|(Htk & -> & Hi)];
    simpl in Htk; constructor; simpl;
    try reflexivity; try (repeat split; fail); auto; try congruence.
Qed.

Lemma local_get_ip_info_inv env ip s r s' :
  LocalIPDatabase.get_ip_info env ip false s = Ok r s' ->
  local_outcome env ip s r s'.
Proof.
  unfold LocalIPDatabase.get_ip_info. intros H.
  destruct (String.eqb ip "") eqn:He.
  { apply String.eqb_eq in He. step_ok H. now apply LocalEmpty. }
  apply String.eqb_neq in He.
  destruct (LocalIPDatabase._is_private_ip ip) eqn:Hp.
  { apply bind_ok in H as (u & s1 & Hst & H). step_ok H. subst.
    apply store_ip_data_inv in Hst as (mk & Hmk & ->).
    now apply (LocalPrivate _ _ _ _ _ mk). }
  apply bind_ok in H as (hit & s1 & Hsel & H).
  destruct (ip_data s !! ip) as [row|] eqn:Hrow.
  - rewrite (select_and_touch_hit env ip row s Hrow) in Hsel.
    apply Ok_inj in Hsel as [<- <-]. step_ok H. subst.
    now apply (LocalRow _ _ _ _ _ row).
  - rewrite (select_and_touch_miss env ip s Hrow) in Hsel.
    apply Ok_inj in Hsel as [<- <-].
    apply bind_ok in H as (mmdb_data & s2 & Hmm & H).
    apply bind_ok in H as (ipinfo_data & s3 & Hii & H).
    apply bind_ok in H as (u & s4 & Hst & H).
    step_ok H. subst.
    apply store_ip_data_inv in Hst as (mk & Hmk & ->).
    eapply LocalFresh; eauto.
    eapply sources_consulted_intro; eauto.
Qed.

Lemma local_get_ip_info_untouched env ip s r s' :
  LocalIPDatabase.get_ip_info env ip false s = Ok r s' -> service_untouched s s'.
Proof.
  intros H. apply local_get_ip_info_inv in H.
  destruct H as [? ? ->|mk ? ? ? ? ->|row ? ? ? ? ->|m i s2 mk ? ? ? Hsc ? ? ->].
  - apply service_untouched_refl.
  - repeat split.
  - repeat split.
  - eapply service_untouched_trans; [apply (sc_service _ _ _ _ Hsc)|]. repeat split.
Qed.

Lemma local_get_ip_info_other_rows env ip s r s' ip' :
  LocalIPDatabase.get_ip_info env ip false s = Ok r s' ->
  ip' <> ip -> ip_data s' !! ip' = ip_data s !! ip'.
Proof.
  intros H Hne. apply local_get_ip_info_inv in H.
  destruct H as [? ? ->|mk ? ? ? ? ->|row ? ? ? ? ->|m i s2 mk ? ? ? Hsc ? ? ->];
    simpl; try reflexivity; rewrite lookup_insert_ne by congruence; try reflexivity.
  now rewrite (sc_store _ _ _ _ Hsc).
Qed.

Lemma dict_truthy_lookup (d : record) k v : d !! k = Some v -> dict_truthy d = true.
Proof.
  intros H. unfold dict_truthy. apply negb_true_iff, bool_decide_eq_false.
  intros ->. rewrite lookup_empty in H. discriminate H.
Qed.

(** ** A store hit *)

Lemma row_dict_country env ip row :
  (<["from_cache" := VBool true]> (LocalIPDatabase.row_to_dict env ip row)) !! "country"
  = Some (c_country row).
Proof. reflexivity. Qed.

Lemma local_row_hit env ip s row :
  ip <> "" -> LocalIPDatabase._is_private_ip ip = false ->
  ip_data s !! ip = Some row ->
  LocalIPDatabase.get_ip_info env ip false s =
    Ok (<["from_cache" := VBool true]> (LocalIPDatabase.row_to_dict env ip row))
       (set_ip_data
          (fun table => <[ip := LocalIPDatabase.touch_row row (sql_clock env (tick s))]> table)
          (advance s)).
Proof.
  intros He Hp Hrow. unfold LocalIPDatabase.get_ip_info.
  rewrite (eqb_empty_false ip He), Hp.
  erewrite bind_ok_intro; [|apply select_and_touch_hit; exact Hrow]. reflexivity.
Qed.

Lemma enhanced_store_hit env ip s row :
  ip <> "" -> LocalIPDatabase._is_private_ip ip = false ->
  ip_data s !! ip = Some row ->
  py_eq_str (c_country row) "Unknown" = false ->
  EnhancedIPinfoService.get_ip_info env ip s =
    Ok (<["from_cache" := VBool true]> (LocalIPDatabase.row_to_dict env ip row))
       (set_stats bump_local_db_hits
          (set_ip_data
             (fun table => <[ip := LocalIPDatabase.touch_row row (sql_clock env (tick s))]> table)
             (advance s))).
Proof.
  intros He Hp Hrow Hc. unfold EnhancedIPinfoService.get_ip_info.
  rewrite (eqb_empty_false ip He).
  erewrite bind_ok_intro; [|exact (local_row_hit env ip s row He Hp Hrow)].
  unfold EnhancedIPinfoService.store_answers.
  rewrite (dict_truthy_lookup _ _ _ (row_dict_country env ip row)).
  unfold get_eq. rewrite row_dict_country, Hc. reflexivity.
Qed.

(** C4, as the code has it. For a public address whose row in the store has
    a known country, two resolutions in a row are both answered from the
    row. The second record has the [query_count] of the first plus one and,
    as [last_updated], the time of the first resolution; every other field
    is the same in both. *)
Theorem store_hit_twice env ip s row :
  ip <> "" -> EnhancedIPinfoService._is_private_ip ip = false ->
  ip_data s !! ip = Some row ->
  py_eq_str (c_country row) "Unknown" = false ->
  exists r1 s1 r2 s2,
    EnhancedIPinfoService.get_ip_info env ip s = Ok r1 s1 /\
    EnhancedIPinfoService.get_ip_info env ip s1 = Ok r2 s2 /\
    r1 !! "query_count" = Some (VInt (c_query_count row)) /\
    r2 !! "query_count" = Some (VInt (c_query_count row + 1)) /\
    r1 !! "last_updated" = Some (VStr (sql_text env (c_last_updated row))) /\
    r2 !! "last_updated" = Some (VStr (sql_text env (sql_clock env (tick s)))) /\
    (forall k, k <> "query_count" -> k <> "last_updated" -> r2 !! k = r1 !! k).
Proof.
  intros He Hp Hrow Hc. rewrite classifiers_coincide in Hp.
  eexists _, _, _, _.
  split; [apply enhanced_store_hit; eassumption|].
  split.
  { apply (enhanced_store_hit env ip _
             (LocalIPDatabase.touch_row row (sql_clock env (tick s))) He Hp);
      [simpl; apply lookup_insert_eq | exact Hc]. }
  repeat split.
  intros k Hq Hl.
  replace (<["from_cache" := VBool true]>
             (LocalIPDatabase.row_to_dict env ip
                (LocalIPDatabase.touch_row row (sql_clock env (tick s)))))
    with (<["query_count" := VInt (c_query_count row + 1)]>
            (<["last_updated" := VStr (sql_text env (sql_clock env (tick s)))]>
               (<["from_cache" := VBool true]> (LocalIPDatabase.row_to_dict env ip row))))
    by reflexivity.
  rewrite !lookup_insert_ne by congruence. reflexivity.
Qed.

Lemma store_hit_twice_witness :
  exists r1 s1 r2 s2,
    EnhancedIPinfoService.get_ip_info quiet_env "8.8.8.8" stored_state = Ok r1 s1 /\
    EnhancedIPinfoService.get_ip_info quiet_env "8.8.8.8" s1 = Ok r2 s2 /\
    r1 !! "query_count" = Some (VInt 5) /\
    r2 !! "query_count" = Some (VInt 6) /\
    r1 !! "last_updated" = Some (VStr (sql_text quiet_env 250)) /\
    r2 !! "last_updated" = Some (VStr (sql_text quiet_env 400)) /\
    (forall k, k <> "query_count" -> k <> "last_updated" -> r2 !! k = r1 !! k).
Proof.
  apply (store_hit_twice quiet_env "8.8.8.8" stored_state sample_row);
    [discriminate | reflexivity | reflexivity | reflexivity].
Defined.

(** C4 as the specification words it fails on the first two resolutions of
    a public address: the first record is the dictionary just assembled,
    without [query_count]; the second is the row read back, with
    [query_count], [first_seen], [last_updated] and [from_cache]. *)
Lemma first_two_resolutions_counterexample :
  exists r1 s1 r2 s2,
    EnhancedIPinfoService.get_ip_info quiet_env "8.8.8.8" mmdb_state = Ok r1 s1 /\
    EnhancedIPinfoService.get_ip_info quiet_env "8.8.8.8" s1 = Ok r2 s2 /\
    r1 !! "query_count" = None /\
    r2 !! "query_count" = Some (VInt 1) /\
    r1 !! "from_cache" = None /\
    r2 !! "from_cache" = Some (VBool true).
Proof.
  assert (H : match EnhancedIPinfoService.get_ip_info quiet_env "8.8.8.8" mmdb_state with
              | Ok r1 s1 =>
                  match EnhancedIPinfoService.get_ip_info quiet_env "8.8.8.8" s1 with
                  | Ok r2 _ =>
                      bool_decide (r1 !! "query_count" = None)
                      && bool_decide (r2 !! "query_count" = Some (VInt 1))
                      && bool_decide (r1 !! "from_cache" = None)
                      && bool_decide (r2 !! "from_cache" = Some (VBool true))
                  | Raise _ _ => false
                  end
              | Raise _ _ => false
              end = true).
  { vm_compute. reflexivity. }
  destruct (EnhancedIPinfoService.get_ip_info quiet_env "8.8.8.8" mmdb_state)
    as [r1 s1|e s1]; [|discriminate H].
  destruct (EnhancedIPinfoService.get_ip_info quiet_env "8.8.8.8" s1)
    as [r2 s2|e s2] eqn:E2; [|discriminate H].
  repeat (apply andb_prop in H as [H ?]).
  repeat match goal with
         | B : bool_decide _ = true |- _ => apply bool_decide_eq_true in B
         end.
  exists r1, s1, r2, s2.
  repeat split; assumption.
Qed.

(* ===================================================================== *)
(** * The ephemeral cache                                             *)
(* ===================================================================== *)

Lemma cache_lookup_miss env ip s :
  cache s !! ip = None ->
  EnhancedIPinfoService.cache_lookup env ip s = Ok None s.
Proof.
  intros H. unfold EnhancedIPinfoService.cache_lookup, bind, gets.
  rewrite H. reflexivity.
Qed.

Lemma cache_lookup_fresh env ip s cached_data T :
  cache s !! ip = Some cached_data ->
  cached_data !! "timestamp" = Some (VDatetime T) ->
  clock env (tick s) - T < EnhancedIPinfoService.cache_duration ->
  EnhancedIPinfoService.cache_lookup env ip s =
    Ok (Some cached_data) (set_stats bump_cache_hits (advance s)).
Proof.
  intros H HT Hage.
  unfold EnhancedIPinfoService.cache_lookup, bind, gets, now, dict_get.
  rewrite H, HT.
  apply Z.ltb_lt in Hage. rewrite Hage. reflexivity.
Qed.

Lemma cache_lookup_expired env ip s cached_data T :
  cache s !! ip = Some cached_data ->
  cached_data !! "timestamp" = Some (VDatetime T) ->
  EnhancedIPinfoService.cache_duration <= clock env (tick s) - T ->
  EnhancedIPinfoService.cache_lookup env ip s =
    Ok None (set_cache (delete ip) (advance s)).
Proof.
  intros H HT Hage.
  unfold EnhancedIPinfoService.cache_lookup, bind, gets, now, dict_get.
  rewrite H, HT.
  apply Z.ltb_ge in Hage. rewrite Hage. reflexivity.
Qed.

(** An entry whose [timestamp] is not a [datetime] makes the look in the
    cache raise. *)
Lemma cache_lookup_text_stamp env ip s cached_data text :
  cache s !! ip = Some cached_data ->
  cached_data !! "timestamp" = Some (VStr text) ->
  EnhancedIPinfoService.cache_lookup env ip s = Raise TypeError (advance s).
Proof.
  intros H HT.
  unfold EnhancedIPinfoService.cache_lookup, bind, gets, now, dict_get.
  rewrite H, HT. reflexivity.
Qed.

(* ===================================================================== *)
(** * The store tier when nothing is known                            *)
(* ===================================================================== *)

Lemma assemble_nothing env ip :
  LocalIPDatabase.assemble env ip None None = unknown_info ip.
Proof. reflexivity. Qed.

Lemma unknown_info_bound env ip :
  LocalIPDatabase.bind_parameters env (unknown_info ip) = inr unknown_row.
Proof. reflexivity. Qed.

Lemma unknown_info_no_answer ip :
  EnhancedIPinfoService.store_answers (unknown_info ip) = false.
Proof.
  unfold EnhancedIPinfoService.store_answers.
  replace (get_eq (unknown_info ip) "country" "Unknown") with true by reflexivity.
  apply andb_false_r.
Qed.

Lemma get_mmdb_data_no_reader ip s :
  db_lite_reader s = None -> LocalIPDatabase._get_mmdb_data ip s = Ok None s.
Proof.
  intros H. unfold LocalIPDatabase._get_mmdb_data, bind, gets. rewrite H. reflexivity.
Qed.

Lemma get_ipinfo_data_no_token env ip s :
  token_set (ipinfo_token s) = false ->
  LocalIPDatabase._get_ipinfo_data env ip s = Ok None s.
Proof.
  intros H. unfold LocalIPDatabase._get_ipinfo_data, bind, gets. rewrite H. reflexivity.
Qed.

(** A public address that is not in the store, with no database and no
    token on the side of the store: the all-unknown dictionary is stored
    and returned. *)
Lemma local_unknown env ip s :
  ip <> "" -> LocalIPDatabase._is_private_ip ip = false ->
  ip_data s !! ip = None ->
  db_lite_reader s = None -> token_set (ipinfo_token s) = false ->
  LocalIPDatabase.get_ip_info env ip false s =
    Ok (unknown_info ip)
       (set_ip_data
          (fun table => <[ip := unknown_row (sql_clock env (tick s))
                                    (LocalIPDatabase.next_query_count table ip)]> table)
          (advance s)).
Proof.
  intros He Hp Hrow Hrd Htk. unfold LocalIPDatabase.get_ip_info.
  rewrite (eqb_empty_false ip He), Hp.
  erewrite bind_ok_intro; [|apply select_and_touch_miss; exact Hrow].
  cbv beta iota.
  erewrite bind_ok_intro; [|apply get_mmdb_data_no_reader; exact Hrd].
  erewrite bind_ok_intro; [|apply get_ipinfo_data_no_token; exact Htk].
  rewrite assemble_nothing. cbv beta zeta.
  erewrite bind_ok_intro; [|apply store_ip_data_ok; apply unknown_info_bound].
  reflexivity.
Qed.

(** A row with country "Unknown": the store tier returns it, and that is no
    answer. *)
Lemma row_dict_no_answer env ip row :
  c_country row = VStr "Unknown" ->
  EnhancedIPinfoService.store_answers
    (<["from_cache" := VBool true]> (LocalIPDatabase.row_to_dict env ip row)) = false.
Proof.
  intros H. unfold EnhancedIPinfoService.store_answers, get_eq.
  rewrite row_dict_country, H. apply andb_false_r.
Qed.

(* ===================================================================== *)
(** * The lower tiers when nothing is configured                      *)
(* ===================================================================== *)

Lemma nothing_configured_untouched s s' :
  service_untouched s s' -> nothing_configured s -> nothing_configured s'.
Proof.
  unfold service_untouched, nothing_configured.
  intros (H1&H2&H3&H4&H5&H6&H7&H8&H9) (?&?&?&?&?&?).
  rewrite H1, H2, H3, H5, H6, H7. repeat split; assumption.
Qed.

Lemma get_offline_info_nothing env ip s :
  EnhancedIPinfoService._is_private_ip ip = false ->
  lite_reader s = None -> country_reader s = None -> city_reader s = None ->
  EnhancedIPinfoService._get_offline_info env ip s = Ok None s.
Proof.
  intros Hp H1 H2 H3.
  unfold EnhancedIPinfoService._get_offline_info. rewrite Hp.
  unfold EnhancedIPinfoService.offline_block, EnhancedIPinfoService.lite_step,
    EnhancedIPinfoService.country_step, EnhancedIPinfoService.city_step,
    bind, gets, ret.
  rewrite H1, H2, H3. reflexivity.
Qed.

Lemma get_online_info_no_token env ip s :
  token_set (token s) = false ->
  EnhancedIPinfoService._get_online_info env ip s = Ok None s.
Proof.
  intros H. unfold EnhancedIPinfoService._get_online_info, bind, gets.
  rewrite H. reflexivity.
Qed.

Lemma save_empty_cache env s :
  cache s = ∅ ->
  exists s', EnhancedIPinfoService._save_cache env s = Ok tt s' /\
             cache s' = ∅ /\ ip_data s' = ip_data s.
Proof.
  intros H. unfold EnhancedIPinfoService._save_cache, bind, gets.
  rewrite H, fmap_empty, map_to_list_empty. simpl.
  destruct (disk_ok env (tick s)); eexists; (split; [reflexivity|]); simpl; auto.
Qed.

(* ===================================================================== *)
(** * Bulk resolution when every tier is empty                        *)
(* ===================================================================== *)

Lemma local_preserves_store_unknown env ip s r s' :
  nothing_configured s -> store_unknown s ->
  LocalIPDatabase.get_ip_info env ip false s = Ok r s' ->
  store_unknown s'.
Proof.
  intros (_ & Htk & Hrd & _) Hst H. apply local_get_ip_info_inv in H.
  destruct H as [? ? ->|mk ? Hp ? ? ->|row ? ? Hrow ? ->|m i s2 mk ? ? ? Hsc Hr Hmk ->];
    [exact Hst | | |]; intros ip' row' Hl; simpl in Hl;
    destruct (decide (ip = ip')) as [<-|Hne];
    try (rewrite lookup_insert_ne in Hl by exact Hne).
  - now left.
  - now apply (Hst ip' row').
  - rewrite lookup_insert_eq in Hl. injection Hl as <-.
    destruct (Hst ip row Hrow) as [Hp|Hc]; [now left | now right].
  - now apply (Hst ip' row').
  - rewrite lookup_insert_eq in Hl. injection Hl as <-. right.
    rewrite (sc_no_reader _ _ _ _ Hsc Hrd), (sc_no_token _ _ _ _ Hsc Htk) in Hr.
    rewrite assemble_nothing in Hr. subst r.
    rewrite unknown_info_bound in Hmk. injection Hmk as <-. reflexivity.
  - rewrite (sc_store _ _ _ _ Hsc) in Hl. now apply (Hst ip' row').
Qed.

Lemma local_preserves_quiet_inv env ip s r s' :
  quiet_inv s ->
  LocalIPDatabase.get_ip_info env ip false s = Ok r s' ->
  quiet_inv s'.
Proof.
  intros (Hn & Hc & Hst) H.
  pose proof (local_get_ip_info_untouched env ip s r s' H) as Hu.
  split; [exact (nothing_configured_untouched s s' Hu Hn)|].
  split; [|exact (local_preserves_store_unknown env ip s r s' Hn Hst H)].
  destruct Hu as (_ & _ & _ & Hcache & _). now rewrite Hcache.
Qed.

(** The store tier on a public address, in that setting: it returns, and
    what it returns is no answer. *)
Lemma local_no_answer env ip s :
  quiet_inv s -> LocalIPDatabase._is_private_ip ip = false ->
  exists r s',
    LocalIPDatabase.get_ip_info env ip false s = Ok r s' /\
    EnhancedIPinfoService.store_answers r = false.
Proof.
  intros ((_ & Htk & Hrd & _) & _ & Hst) Hp.
  destruct (String.eqb ip "") eqn:He.
  { apply String.eqb_eq in He. subst ip. eexists _, _. split; reflexivity. }
  apply String.eqb_neq in He.
  destruct (ip_data s !! ip) as [row|] eqn:Hrow.
  - eexists _, _. split; [apply (local_row_hit env ip s row He Hp Hrow)|].
    apply row_dict_no_answer.
    destruct (Hst ip row Hrow) as [Hp'|Hc]; [congruence | exact Hc].
  - eexists _, _. split; [apply (local_unknown env ip s He Hp Hrow Hrd Htk)|].
    apply unknown_info_no_answer.
Qed.

Lemma first_pass_step_private env acc ip s :
  quiet_inv s -> LocalIPDatabase._is_private_ip ip = true ->
  exists s',
    EnhancedIPinfoService.first_pass_step env acc ip s =
      Ok (<[ip := LocalIPDatabase.private_info ip]> acc.1, acc.2) s' /\
    quiet_inv s'.
Proof.
  intros Hinv Hp.
  destruct (local_get_ip_info_private env ip s Hp) as (s1 & Hl & _).
  pose proof (local_preserves_quiet_inv env ip s _ s1 Hinv Hl) as Hinv1.
  exists (set_stats bump_local_db_hits s1). split.
  - unfold EnhancedIPinfoService.first_pass_step.
    erewrite bind_ok_intro; [|exact Hl].
    rewrite private_info_answers. reflexivity.
  - exact Hinv1.
Qed.

Lemma first_pass_step_public env acc ip s :
  quiet_inv s -> LocalIPDatabase._is_private_ip ip = false ->
  exists s',
    EnhancedIPinfoService.first_pass_step env acc ip s =
      Ok (acc.1, (acc.2 ++ [ip])%list) s' /\
    quiet_inv s'.
Proof.
  intros Hinv Hp.
  destruct (local_no_answer env ip s Hinv Hp) as (r & s1 & Hl & Hna).
  pose proof (local_preserves_quiet_inv env ip s r s1 Hinv Hl) as Hinv1.
  exists s1. split; [|exact Hinv1].
  destruct Hinv1 as ((_ & _ & _ & H1 & H2 & H3) & Hc & _).
  unfold EnhancedIPinfoService.first_pass_step.
  erewrite bind_ok_intro; [|exact Hl]. rewrite Hna.
  erewrite bind_ok_intro;
    [|apply cache_lookup_miss; rewrite Hc; apply lookup_empty].
  cbv beta iota.
  erewrite bind_ok_intro;
    [|apply (get_offline_info_nothing env ip s1 Hp H1 H2 H3)].
  reflexivity.
Qed.

Lemma first_pass_quiet env ips : forall acc s,
  quiet_inv s ->
  exists online_ips s',
    EnhancedIPinfoService.foldM (EnhancedIPinfoService.first_pass_step env) ips acc s =
      Ok (private_results ips acc.1, online_ips) s' /\
    quiet_inv s'.
Proof.
  induction ips as [|ip ips IH]; intros acc s Hinv.
  - exists acc.2, s. split; [|exact Hinv]. now destruct acc.
  - simpl. destruct (LocalIPDatabase._is_private_ip ip) eqn:Hp.
    + destruct (first_pass_step_private env acc ip s Hinv Hp) as (s1 & Hs & Hinv1).
      destruct (IH (<[ip := LocalIPDatabase.private_info ip]> acc.1, acc.2) s1 Hinv1)
        as (on & s' & Hf & Hinv').
      exists on, s'. split; [|exact Hinv'].
      erewrite bind_ok_intro; [|exact Hs]. exact Hf.
    + destruct (first_pass_step_public env acc ip s Hinv Hp) as (s1 & Hs & Hinv1).
      destruct (IH (acc.1, (acc.2 ++ [ip])%list) s1 Hinv1) as (on & s' & Hf & Hinv').
      exists on, s'. split; [|exact Hinv'].
      erewrite bind_ok_intro; [|exact Hs]. exact Hf.
Qed.

Lemma private_results_lookup ips : forall results ip,
  private_results ips results !! ip =
    if bool_decide (ip ∈ ips) && LocalIPDatabase._is_private_ip ip
    then Some (LocalIPDatabase.private_info ip)
    else results !! ip.
Proof.
  induction ips as [|x ips IH]; intros results ip.
  - unfold private_results. cbn [foldl].
    rewrite bool_decide_eq_false_2 by apply not_elem_of_nil. reflexivity.
  - unfold private_results in *. cbn [foldl]. rewrite IH.
    destruct (decide (ip = x)) as [->|Hne].
    + rewrite (bool_decide_eq_true_2 (x ∈ x :: ips)) by apply list_elem_of_here.
      destruct (LocalIPDatabase._is_private_ip x) eqn:Hp.
      * rewrite lookup_insert_eq. now destruct (bool_decide (x ∈ ips)).
      * now rewrite !andb_false_r.
    + assert (Hiff : bool_decide (ip ∈ x :: ips) = bool_decide (ip ∈ ips)).
      { apply bool_decide_ext. rewrite elem_of_cons. tauto. }
      rewrite Hiff.
      destruct (LocalIPDatabase._is_private_ip x);
        [rewrite lookup_insert_ne by congruence|]; reflexivity.
Qed.

Lemma bulk_fallback_ok env ip s :
  EnhancedIPinfoService.bulk_fallback env ip s =
    Ok (<["timestamp" := VDatetime (clock env (tick s))]>
          (EnhancedIPinfoService.fallback_info ip))
       (advance s).
Proof. reflexivity. Qed.

(** The last loop of [bulk_lookup]: what had a result keeps it; every other
    listed address gets the fallback record; nothing else is added. *)
Lemma fill_pass env ips : forall results s,
  exists res s',
    EnhancedIPinfoService.foldM (EnhancedIPinfoService.fill_step env) ips results s
      = Ok res s' /\
    cache s' = cache s /\ ip_data s' = ip_data s /\
    (forall ip r, results !! ip = Some r -> res !! ip = Some r) /\
    (forall ip, results !! ip = None -> ip ∈ ips ->
       exists t, res !! ip =
         Some (<["timestamp" := VDatetime t]> (EnhancedIPinfoService.fallback_info ip))) /\
    (forall ip, results !! ip = None -> ip ∉ ips -> res !! ip = None).
Proof.
  induction ips as [|x ips IH]; intros results s.
  - exists results, s. repeat split; auto.
    intros ip _ Hin. now apply not_elem_of_nil in Hin.
  - cbn [EnhancedIPinfoService.foldM].
    unfold EnhancedIPinfoService.fill_step at 1.
    destruct (results !! x) as [rx|] eqn:Hx.
    + destruct (IH results s) as (res & s' & Hf & Hc & Hd & Hkeep & Hnew & Habs).
      exists res, s'. split; [exact Hf|]. repeat split; auto.
      * intros ip Hn Hin. apply elem_of_cons in Hin as [->|Hin]; [congruence|auto].
      * intros ip Hn Hin. apply Habs; [exact Hn|].
        intros Hin'. apply Hin. now apply list_elem_of_further.
    + set (fb := <["timestamp" := VDatetime (clock env (tick s))]>
                   (EnhancedIPinfoService.fallback_info x)).
      destruct (IH (<[x := fb]> results) (advance s))
        as (res & s' & Hf & Hc & Hd & Hkeep & Hnew & Habs).
      exists res, s'. split.
      { unfold bind at 1. unfold bind at 1. rewrite bulk_fallback_ok.
        unfold ret at 1. exact Hf. }
      split; [exact Hc|]. split; [exact Hd|]. repeat split.
      * intros ip r Hr. apply Hkeep.
        rewrite lookup_insert_ne; [exact Hr | congruence].
      * intros ip Hn Hin. destruct (decide (ip = x)) as [->|Hne].
        -- exists (clock env (tick s)). apply Hkeep. apply lookup_insert_eq.
        -- apply Hnew; [rewrite lookup_insert_ne; [exact Hn | congruence]|].
           apply elem_of_cons in Hin as [->|Hin]; [congruence | exact Hin].
      * intros ip Hn Hin. apply Habs.
        -- rewrite lookup_insert_ne; [exact Hn|].
           intros ->. apply Hin. apply list_elem_of_here.
        -- intros Hin'. apply Hin. now apply list_elem_of_further.
Qed.

Lemma bulk_fallback_fields ip r :
  is_bulk_fallback ip r ->
  r !! "ip" = Some (VStr ip) /\ r !! "source" = Some (VStr "fallback") /\
  all_unknown r /\ r !! "isp" = None.
Proof.
  intros [t ->]. split; [reflexivity|]. split; [reflexivity|].
  split; [|reflexivity]. repeat constructor.
Qed.

(** Bulk resolution with nothing configured, an empty store and an empty
    cache. *)
Lemma bulk_lookup_quiet env ips max_workers s :
  nothing_configured s -> ip_data s = ∅ -> cache s = ∅ ->
  exists res s',
    EnhancedIPinfoService.bulk_lookup env ips max_workers s = Ok res s' /\
    (forall ip, is_Some (res !! ip) <-> ip ∈ ips) /\
    (forall ip, ip ∈ ips -> LocalIPDatabase._is_private_ip ip = false ->
       exists r, res !! ip = Some r /\ is_bulk_fallback ip r) /\
    (forall ip, ip ∈ ips -> LocalIPDatabase._is_private_ip ip = true ->
       res !! ip = Some (LocalIPDatabase.private_info ip)).
Proof.
  intros Hn Hst Hc.
  destruct ips as [|ip0 ips0].
  { exists ∅, s. split; [reflexivity|]. repeat split.
    - intros [r Hr]. rewrite lookup_empty in Hr. discriminate Hr.
    - intros Hin. now apply not_elem_of_nil in Hin.
    - intros ip Hin. now apply not_elem_of_nil in Hin.
    - intros ip Hin. now apply not_elem_of_nil in Hin. }
  set (ips := ip0 :: ips0).
  assert (Hinv : quiet_inv s).
  { split; [exact Hn|]. split; [exact Hc|].
    intros ip row Hl. rewrite Hst, lookup_empty in Hl. discriminate Hl. }
  destruct (first_pass_quiet env ips (∅, []) s Hinv)
    as (online_ips & s1 & Hfirst & (Hn1 & Hc1 & _)).
  cbn [fst] in Hfirst.
  destruct (fill_pass env ips (private_results ips ∅) s1)
    as (res & s2 & Hfill & Hc2 & _ & Hkeep & Hnew & Habs).
  destruct (save_empty_cache env s2) as (s3 & Hsave & _);
    [now rewrite Hc2, Hc1|].
  exists res, s3. split.
  { unfold EnhancedIPinfoService.bulk_lookup.
    cbv beta iota delta [ips]. fold ips.
    erewrite bind_ok_intro; [|exact Hfirst]. cbn [fst snd].
    unfold bind at 1. unfold gets at 1.
    assert (Hsecond :
      (match online_ips with
       | [] => ret (private_results ips ∅)
       | _ :: _ =>
           if token_set (token s1)
           then EnhancedIPinfoService.foldM
                  (EnhancedIPinfoService.second_pass_step env) online_ips
                  (private_results ips ∅)
           else ret (private_results ips ∅)
       end) s1 = Ok (private_results ips ∅) s1).
    { destruct Hn1 as (Htok & _). rewrite Htok. now destruct online_ips. }
    erewrite bind_ok_intro; [|exact Hsecond].
    erewrite bind_ok_intro; [|exact Hfill].
    erewrite bind_ok_intro; [|exact Hsave]. reflexivity. }
  assert (Hpr : forall ip,
    private_results ips ∅ !! ip =
      if bool_decide (ip ∈ ips) && LocalIPDatabase._is_private_ip ip
      then Some (LocalIPDatabase.private_info ip) else None).
  { intros ip. rewrite private_results_lookup, lookup_empty. reflexivity. }
  repeat split.
  - intros [r Hr]. destruct (decide (ip ∈ ips)) as [Hin|Hin]; [exact Hin|].
    assert (Hnone : private_results ips ∅ !! ip = None).
    { rewrite Hpr, (bool_decide_eq_false_2 _ Hin). reflexivity. }
    rewrite (Habs ip Hnone Hin) in Hr. discriminate Hr.
  - intros Hin. destruct (private_results ips ∅ !! ip) as [r|] eqn:Hr.
    + exists r. now apply Hkeep.
    + destruct (Hnew ip Hr Hin) as [t Ht]. eauto.
  - intros ip Hin Hp.
    assert (Hnone : private_results ips ∅ !! ip = None).
    { rewrite Hpr, Hp, andb_false_r. reflexivity. }
    destruct (Hnew ip Hnone Hin) as [t Ht].
    eexists. split; [exact Ht|]. now exists t.
  - intros ip Hin Hp. apply Hkeep.
    rewrite Hpr, Hp, (bool_decide_eq_true_2 _ Hin). reflexivity.
Qed.

(** C6, as the code has it. With no token, no offline database, an empty
    store and an empty cache, bulk resolution of any list returns a map whose
    keys are exactly the addresses of the list. An address that is not
    private maps to the fallback record: its own [ip], source "fallback",
    the twelve string fields "Unknown" or "XX", and no [isp] field. A private
    address maps to the private-network record of the store tier. *)
Theorem bulk_total_fallback env ips max_workers s :
  nothing_configured s -> ip_data s = ∅ -> cache s = ∅ ->
  exists res s',
    EnhancedIPinfoService.bulk_lookup env ips max_workers s = Ok res s' /\
    dom res = list_to_set ips /\
    (forall ip, ip ∈ ips -> EnhancedIPinfoService._is_private_ip ip = false ->
       exists r, res !! ip = Some r /\
         r !! "ip" = Some (VStr ip) /\ r !! "source" = Some (VStr "fallback") /\
         all_unknown r /\ r !! "isp" = None) /\
    (forall ip, ip ∈ ips -> EnhancedIPinfoService._is_private_ip ip = true ->
       res !! ip = Some (LocalIPDatabase.private_info ip)).
Proof.
  intros Hn Hst Hc.
  destruct (bulk_lookup_quiet env ips max_workers s Hn Hst Hc)
    as (res & s' & Hb & Hdom & Hpub & Hpriv).
  exists res, s'. split; [exact Hb|]. split; [|split].
  - apply set_eq. intros ip.
    rewrite elem_of_dom, elem_of_list_to_set. apply Hdom.
  - intros ip Hin Hp. destruct (Hpub ip Hin Hp) as (r & Hr & Hfb).
    exists r. split; [exact Hr|]. now apply bulk_fallback_fields.
  - exact Hpriv.
Qed.

Lemma fresh_state_nothing_configured : nothing_configured fresh_state.
Proof. repeat split. Qed.

Lemma bulk_total_fallback_witness :
  exists res s',
    EnhancedIPinfoService.bulk_lookup quiet_env
      ["8.8.8.8"; "1.1.1.1"; "8.8.8.8"; ""] 10 fresh_state = Ok res s' /\
    dom res = list_to_set ["8.8.8.8"; "1.1.1.1"; "8.8.8.8"; ""] /\
    exists r, res !! "1.1.1.1" = Some r /\ all_unknown r.
Proof.
  destruct (bulk_total_fallback quiet_env ["8.8.8.8"; "1.1.1.1"; "8.8.8.8"; ""] 10
              fresh_state fresh_state_nothing_configured eq_refl eq_refl)
    as (res & s' & Hb & Hdom & Hpub & _).
  exists res, s'. split; [exact Hb|]. split; [exact Hdom|].
  destruct (Hpub "1.1.1.1") as (r & Hr & _ & _ & Hall & _).
  - apply list_elem_of_further, list_elem_of_here.
  - reflexivity.
  - exists r. split; assumption.
Defined.

(** C6 as the specification words it fails on a private address: its record
    is not the all-unknown one. *)
Lemma bulk_private_counterexample :
  exists res s' r,
    EnhancedIPinfoService.bulk_lookup quiet_env ["10.1.2.3"] 10 fresh_state = Ok res s' /\
    res !! "10.1.2.3" = Some r /\
    r !! "country" = Some (VStr "Private") /\
    ~ all_unknown r.
Proof.
  destruct (bulk_lookup_quiet quiet_env ["10.1.2.3"] 10 fresh_state
              fresh_state_nothing_configured eq_refl eq_refl)
    as (res & s' & Hb & _ & _ & Hpriv).
  exists res, s', (LocalIPDatabase.private_info "10.1.2.3").
  split; [exact Hb|].
  split; [apply Hpriv; [apply list_elem_of_here | reflexivity]|].
  split; [reflexivity|].
  intros Hall. apply Forall_cons in Hall as [Hcountry _].
  discriminate Hcountry.
Qed.

(* ===================================================================== *)
(** * Populated fields                                                *)
(* ===================================================================== *)

Lemma fill_default_keeps r fd k :
  populated r k -> populated (LocalIPDatabase.fill_default r fd) k.
Proof.
  intros (v & Hv & Hb). unfold LocalIPDatabase.fill_default.
  destruct (decide (fd.1 = k)) as [<-|Hne].
  - rewrite Hv, Hb. now exists v.
  - exists v. split; [|exact Hb].
    destruct (r !! fd.1) as [w|]; [destruct (LocalIPDatabase.blank w)|];
      try rewrite lookup_insert_ne by exact Hne; exact Hv.
Qed.

Lemma fill_default_sets r k dv :
  LocalIPDatabase.blank dv = false ->
  populated (LocalIPDatabase.fill_default r (k, dv)) k.
Proof.
  intros Hdv. unfold LocalIPDatabase.fill_default. cbn [fst snd].
  destruct (r !! k) as [w|] eqn:Hw.
  - destruct (LocalIPDatabase.blank w) eqn:Hb.
    + exists dv. now rewrite lookup_insert_eq.
    + now exists w.
  - exists dv. now rewrite lookup_insert_eq.
Qed.

Lemma fill_defaults_populated fds : forall r k,
  populated r k \/ (exists dv, (k, dv) ∈ fds /\ LocalIPDatabase.blank dv = false) ->
  populated (foldl LocalIPDatabase.fill_default r fds) k.
Proof.
  induction fds as [|fd fds IH]; intros r k H; cbn [foldl].
  - destruct H as [H|(dv & Hin & _)]; [exact H|].
    now apply not_elem_of_nil in Hin.
  - apply IH. destruct H as [H|(dv & Hin & Hb)].
    + left. now apply fill_default_keeps.
    + apply elem_of_cons in Hin as [<-|Hin].
      * left. now apply fill_default_sets.
      * right. eauto.
Qed.

Lemma default_fields_cover k :
  k ∈ string_fields ->
  exists dv, (k, dv) ∈ LocalIPDatabase.default_fields /\ LocalIPDatabase.blank dv = false.
Proof.
  unfold string_fields. rewrite !elem_of_cons, elem_of_nil.
  intros H.
  unfold LocalIPDatabase.default_fields.
  repeat (destruct H as [->|H];
          [eexists; split;
           [solve [repeat (apply list_elem_of_here || apply list_elem_of_further)]
           |reflexivity]|]).
  contradiction.
Qed.

Lemma text_in_brackets_not_empty a b :
  String.eqb (a ++ " (" ++ b ++ ")")%string "" = false.
Proof. destruct a; reflexivity. Qed.

Lemma derive_isp_populated env r :
  Forall (populated r) string_fields ->
  Forall (populated (LocalIPDatabase.derive_isp env r)) string_fields.
Proof.
  intros Hall. rewrite Forall_forall in *. intros k Hin.
  unfold LocalIPDatabase.derive_isp.
  destruct (get_eq r "isp" "Unknown" && negb (get_eq r "org" "Unknown")) eqn:H1.
  - destruct (decide (k = "isp")) as [->|Hne].
    + destruct (Hall "org") as (v & Hv & Hb).
      { unfold string_fields. rewrite !elem_of_cons. tauto. }
      exists v. rewrite lookup_insert_eq. unfold dict_get. now rewrite Hv.
    + destruct (Hall k Hin) as (v & Hv & Hb). exists v.
      rewrite lookup_insert_ne by congruence. auto.
  - destruct (get_eq r "isp" "Unknown" && negb (get_eq r "as_name" "Unknown")).
    + destruct (decide (k = "isp")) as [->|Hne].
      * eexists. rewrite lookup_insert_eq. split; [reflexivity|].
        apply text_in_brackets_not_empty.
      * destruct (Hall k Hin) as (v & Hv & Hb). exists v.
        rewrite lookup_insert_ne by congruence. auto.
    + now apply Hall.
Qed.

(** Whatever the two sources gave, the dictionary the store tier assembles
    has the thirteen string fields populated. *)
Lemma assemble_populated env ip mmdb_data ipinfo_data :
  Forall (populated (LocalIPDatabase.assemble env ip mmdb_data ipinfo_data)) string_fields.
Proof.
  unfold LocalIPDatabase.assemble. apply derive_isp_populated.
  rewrite Forall_forall. intros k Hin.
  apply fill_defaults_populated. right. now apply default_fields_cover.
Qed.

Lemma private_info_populated ip :
  Forall (populated (LocalIPDatabase.private_info ip)) string_fields.
Proof. repeat constructor; eexists; split; reflexivity. Qed.

(* ===================================================================== *)
(** * The offline and the online tier                                 *)
(* ===================================================================== *)

Lemma stores_kept_refl s : stores_kept s s.
Proof. repeat split. Qed.

Lemma stores_kept_trans s1 s2 s3 :
  stores_kept s1 s2 -> stores_kept s2 s3 -> stores_kept s1 s3.
Proof. intros (H1 & H2 & H3) (H4 & H5 & H6). repeat split; congruence. Qed.

Lemma lite_fields_source env data info :
  EnhancedIPinfoService.lite_fields env data info !! "source" = info !! "source".
Proof.
  unfold EnhancedIPinfoService.lite_fields. cbv zeta.
  match goal with |- context [if ?c then _ else _] => destruct c end;
    rewrite !lookup_insert_ne by discriminate; reflexivity.
Qed.

Lemma country_fields_source env data info :
  EnhancedIPinfoService.country_fields env data info !! "source" = info !! "source".
Proof.
  unfold EnhancedIPinfoService.country_fields. cbv zeta.
  rewrite !lookup_insert_ne by discriminate. reflexivity.
Qed.

Lemma city_fields_source env data info :
  EnhancedIPinfoService.city_fields env data info !! "source" = info !! "source".
Proof.
  unfold EnhancedIPinfoService.city_fields. cbv zeta.
  rewrite !lookup_insert_ne by discriminate. reflexivity.
Qed.

Lemma set_if_missing_source info field :
  field <> "source" ->
  EnhancedIPinfoService.set_if_missing info field !! "source" = info !! "source".
Proof.
  intros Hne. unfold EnhancedIPinfoService.set_if_missing.
  destruct (info !! field); [reflexivity|].
  now rewrite lookup_insert_ne.
Qed.

Lemma lite_step_inv env ip info s f s' :
  is_offline info ->
  EnhancedIPinfoService.lite_step env ip info s = Ok f s' ->
  stores_kept s s' /\ flow_offline f.
Proof.
  intros Hoff H. unfold EnhancedIPinfoService.lite_step in H. unfold_steps H.
  destruct (lite_reader s) as [rd|].
  - destruct (rd ip) as [| |d|b];
      repeat match type of H with
             | context [if ?c then _ else _] => destruct c
             end;
      apply Ok_inj in H as [<- <-]; (split; [repeat split|]);
      cbn [flow_offline]; unfold is_offline;
      try rewrite lite_fields_source; try exact Hoff; exact I.
  - apply Ok_inj in H as [<- <-]. split; [apply stores_kept_refl | exact Hoff].
Qed.

Lemma country_step_inv env ip info s f s' :
  is_offline info ->
  EnhancedIPinfoService.country_step env ip info s = Ok f s' ->
  stores_kept s s' /\ flow_offline f.
Proof.
  intros Hoff H. unfold EnhancedIPinfoService.country_step in H. unfold_steps H.
  destruct (country_reader s) as [rd|].
  - destruct (rd ip) as [| |d|b];
      repeat match type of H with
             | context [if ?c then _ else _] => destruct c
             end;
      apply Ok_inj in H as [<- <-]; (split; [repeat split|]);
      cbn [flow_offline]; unfold is_offline;
      try rewrite country_fields_source; try exact Hoff; exact I.
  - apply Ok_inj in H as [<- <-]. split; [apply stores_kept_refl | exact Hoff].
Qed.

Lemma city_step_inv env ip info s f s' :
  is_offline info ->
  EnhancedIPinfoService.city_step env ip info s = Ok f s' ->
  stores_kept s s' /\ flow_offline f.
Proof.
  intros Hoff H. unfold EnhancedIPinfoService.city_step in H. unfold_steps H.
  destruct (city_reader s) as [rd|].
  - destruct (rd ip) as [| |d|b];
      repeat match type of H with
             | context [if ?c then _ else _] => destruct c
             end;
      apply Ok_inj in H as [<- <-]; (split; [repeat split|]);
      cbn [flow_offline]; unfold is_offline;
      try rewrite city_fields_source; try exact Hoff; exact I.
  - apply Ok_inj in H as [<- <-]. split; [apply stores_kept_refl | exact Hoff].
Qed.

Lemma offline_block_inv env ip info s f s' :
  is_offline info ->
  EnhancedIPinfoService.offline_block env ip info s = Ok f s' ->
  stores_kept s s' /\ flow_offline f.
Proof.
  intros Hoff H. unfold EnhancedIPinfoService.offline_block in H.
  apply bind_ok in H as (f1 & s1 & H1 & H).
  apply (lite_step_inv env ip info s f1 s1 Hoff) in H1 as [K1 F1].
  destruct f1 as [|o1|info1];
    [apply ret_ok in H as [-> ->]; split; [exact K1 | exact F1] ..|].
  apply bind_ok in H as (f2 & s2 & H2 & H).
  apply (country_step_inv env ip info1 s1 f2 s2 F1) in H2 as [K2 F2].
  pose proof (stores_kept_trans _ _ _ K1 K2) as K12.
  destruct f2 as [|o2|info2];
    [apply ret_ok in H as [-> ->]; split; [exact K12 | exact F2] ..|].
  apply bind_ok in H as (f3 & s3 & H3 & H).
  apply (city_step_inv env ip info2 s2 f3 s3 F2) in H3 as [K3 F3].
  pose proof (stores_kept_trans _ _ _ K12 K3) as K123.
  destruct f3 as [|o3|info3];
    [apply ret_ok in H as [-> ->]; split; [exact K123 | exact F3] ..|].
  step_ok H. subst. split; [exact K123|].
  cbn [flow_offline].
  match goal with |- context [if ?c then _ else _] => destruct c end; [|exact I].
  unfold is_offline. cbn [foldl].
  rewrite !set_if_missing_source by discriminate. exact F3.
Qed.

(** [_get_offline_info]: the store and the cache are not touched, and a
    dictionary it returns is tagged ["offline_private"] for a private address
    and ["offline"] otherwise. *)
Lemma get_offline_info_inv env ip s o s' :
  EnhancedIPinfoService._get_offline_info env ip s = Ok o s' ->
  stores_kept s s' /\
  (o = None \/
   (EnhancedIPinfoService._is_private_ip ip = true /\
    o = Some (EnhancedIPinfoService.offline_private ip)) \/
   (EnhancedIPinfoService._is_private_ip ip = false /\
    exists info, o = Some info /\ is_offline info)).
Proof.
  unfold EnhancedIPinfoService._get_offline_info. intros H.
  destruct (EnhancedIPinfoService._is_private_ip ip) eqn:Hp.
  { step_ok H. subst. split; [apply stores_kept_refl|]. right. left. now split. }
  apply bind_ok in H as (f & s1 & Hb & H).
  apply offline_block_inv in Hb as [K F]; [|reflexivity].
  destruct f as [|[info|]|info].
  - apply bind_ok in H as (u & s2 & Hm & H). step_ok H. step_ok Hm. subst.
    split; [|now left]. destruct K as (K1 & K2 & K3). repeat split; simpl; assumption.
  - step_ok H. subst. split; [exact K|]. right. right. split; [reflexivity|].
    exists info. now split.
  - step_ok H. subst. split; [exact K|]. now left.
  - step_ok H. subst. split; [exact K|]. now left.
Qed.

(** [_get_online_info]: the store and the cache are not touched, and a
    dictionary it returns is tagged ["online"]. *)
Lemma get_online_info_inv env ip s o s' :
  EnhancedIPinfoService._get_online_info env ip s = Ok o s' ->
  stores_kept s s' /\
  (o = None \/ exists data, o = Some (<["source" := VStr "online"]> data)).
Proof.
  unfold EnhancedIPinfoService._get_online_info. intros H. unfold_steps H.
  destruct (token_set (token s)); simpl in H.
  - destruct (http_get env (tick s) ip) as [|code body].
    + apply Ok_inj in H as [<- <-]. split; [repeat split | now left].
    + destruct (code =? 200); [destruct body|];
        apply Ok_inj in H as [<- <-]; (split; [repeat split|]); eauto.
  - apply Ok_inj in H as [<- <-]. split; [apply stores_kept_refl | now left].
Qed.

(** [_save_cache] writes the file and counts its failures; nothing else. *)
Lemma save_cache_inv env s u s' :
  EnhancedIPinfoService._save_cache env s = Ok u s' -> stores_kept s s'.
Proof.
  unfold EnhancedIPinfoService._save_cache. intros H. unfold_steps H.
  match type of H with context [if ?c then _ else _] => destruct c end;
    [|discriminate H].
  destruct (disk_ok env (tick s)); apply Ok_inj in H as [_ <-]; repeat split.
Qed.

(* ===================================================================== *)
(** * The lower tiers of single-address resolution                    *)
(* ===================================================================== *)

Lemma lower_info_source ip info :
  lower_info ip info ->
  exists tag, info !! "source" = Some (VStr tag) /\ tag <> "fallback".
Proof.
  intros [Hp H|Hp ->|H].
  - exists "offline". split; [exact H | discriminate].
  - exists "offline_private". split; [reflexivity | discriminate].
  - exists "online". split; [exact H | discriminate].
Qed.

Lemma online_dict_truthy (data : record) :
  dict_truthy (<["source" := VStr "online"]> data) = true.
Proof. apply (dict_truthy_lookup _ "source" (VStr "online")), lookup_insert_eq. Qed.

(** Step 4. *)
Lemma consult_online_inv env ip off s cand s' :
  (off = None \/ exists info, off = Some info /\ lower_info ip info) ->
  EnhancedIPinfoService.consult_online env ip off s = Ok cand s' ->
  stores_kept s s' /\
  (cand = None \/ exists info, cand = Some info /\ lower_info ip info).
Proof.
  intros Hoff H. unfold EnhancedIPinfoService.consult_online in H.
  match type of H with context [if ?c then _ else _] => destruct c end.
  - apply bind_ok in H as (online & s1 & Hon & H).
    apply get_online_info_inv in Hon as [K [->|[data ->]]].
    + cbn [EnhancedIPinfoService.opt_truthy] in H.
      apply ret_ok in H as [-> ->]. now split.
    + cbn [EnhancedIPinfoService.opt_truthy] in H.
      rewrite online_dict_truthy in H.
      destruct off as [d|]; cbn [EnhancedIPinfoService.opt_truthy] in H.
      * destruct (dict_truthy d); apply ret_ok in H as [-> ->];
          (split; [exact K|]); right.
        -- eexists. split; [reflexivity|]. apply FromOnline.
           unfold dict_update. apply lookup_union_Some_l, lookup_insert_eq.
        -- eexists. split; [reflexivity|]. apply FromOnline, lookup_insert_eq.
      * apply ret_ok in H as [-> ->]. split; [exact K|]. right.
        eexists. split; [reflexivity|]. apply FromOnline, lookup_insert_eq.
  - apply ret_ok in H as [-> ->]. split; [apply stores_kept_refl | exact Hoff].
Qed.

(** Steps 3 to 7: the record is the dictionary of the lower tiers, or the
    fallback, with the ISO text of the time under [timestamp]; it is put in
    the cache under [ip]; the store is written only when the dictionary is
    not the fallback. *)
Lemma resolve_lower_inv env ip s r s' :
  EnhancedIPinfoService.resolve_lower env ip s = Ok r s' ->
  exists info t,
    r = <["timestamp" := VStr (iso_text env t)]> info /\
    cache s' = <[ip := r]> (cache s) /\
    cache_hits (stats s') = cache_hits (stats s) /\
    ((info = EnhancedIPinfoService.fallback_info ip /\ ip_data s' = ip_data s) \/
     (lower_info ip info /\
      exists mk stamp,
        LocalIPDatabase.bind_parameters env info = inr mk /\
        ip_data s' =
          <[ip := mk stamp (LocalIPDatabase.next_query_count (ip_data s) ip)]> (ip_data s))).
Proof.
  intros H. unfold EnhancedIPinfoService.resolve_lower in H.
  apply bind_ok in H as (off & s1 & Hoff & H).
  apply get_offline_info_inv in Hoff as [K1 Hshape].
  apply bind_ok in H as (cand & s2 & Hcand & H).
  apply (consult_online_inv env ip off s1 cand s2) in Hcand as [K2 Hcand].
  2:{ destruct Hshape as [->|[[Hp ->]|[Hp (info & -> & Hi)]]];
        [now left | right; eexists; split; [reflexivity|] ..].
      - now apply FromOfflinePrivate.
      - now apply FromOffline. }
  pose proof (stores_kept_trans _ _ _ K1 K2) as (Kd & Kc & Kh).
  cbv zeta in H.
  apply bind_ok in H as (u & s3 & Hstore & H).
  apply bind_ok in H as (t & s4 & Hnow & H).
  apply now_ok in Hnow as [-> ->].
  apply bind_ok in H as (u2 & s5 & Hmod & H).
  apply modify_ok in Hmod. subst s5.
  apply bind_ok in H as (u3 & s6 & Hsave & H).
  apply save_cache_inv in Hsave as (Sd & Sc & Sh).
  apply ret_ok in H as [-> ->].
  exists (EnhancedIPinfoService.or_fallback ip cand), (clock env (tick s3)).
  split; [reflexivity|].
  destruct Hcand as [->|(info & -> & Hlow)].
  - cbn [EnhancedIPinfoService.or_fallback] in *.
    replace (get_eq (EnhancedIPinfoService.fallback_info ip) "source" "fallback")
      with true in Hstore by reflexivity.
    rewrite andb_false_r in Hstore. apply ret_ok in Hstore as [_ ->].
    split; [rewrite Sc; simpl; now rewrite Kc|].
    split; [rewrite Sh; simpl; exact Kh|].
    left. split; [reflexivity|]. rewrite Sd. simpl. exact Kd.
  - destruct (lower_info_source ip info Hlow) as (tag & Htag & Hne).
    assert (Htr : dict_truthy info = true) by exact (dict_truthy_lookup _ _ _ Htag).
    assert (Hor : EnhancedIPinfoService.or_fallback ip (Some info) = info).
    { unfold EnhancedIPinfoService.or_fallback. now rewrite Htr. }
    rewrite Hor in *.
    assert (Hnf : get_eq info "source" "fallback" = false).
    { unfold get_eq. rewrite Htag. cbn [py_eq_str]. now apply String.eqb_neq. }
    rewrite Htr, Hnf in Hstore. cbn [negb andb] in Hstore.
    apply store_ip_data_inv in Hstore as (mk & Hmk & ->).
    split; [rewrite Sc; simpl; now rewrite Kc|].
    split; [rewrite Sh; simpl; exact Kh|].
    right. split; [exact Hlow|].
    exists mk, (sql_clock env (tick s2)). split; [exact Hmk|].
    rewrite Sd. simpl. now rewrite Kd.
Qed.

Lemma cache_lookup_inv env ip s o s' :
  EnhancedIPinfoService.cache_lookup env ip s = Ok o s' ->
  ip_data s' = ip_data s /\
  ((cache s !! ip = None /\ o = None /\ s' = s) \/
   (exists d, cache s !! ip = Some d /\ o = Some d /\ cache s' = cache s) \/
   (exists d, cache s !! ip = Some d /\ o = None /\ cache s' = delete ip (cache s))).
Proof.
  unfold EnhancedIPinfoService.cache_lookup. intros H. unfold_steps H.
  destruct (cache s !! ip) as [d|] eqn:Hd.
  - destruct (dict_get d "timestamp" (VDatetime EnhancedIPinfoService.datetime_min));
      try discriminate H.
    match type of H with context [if ?c then _ else _] => destruct c end;
      apply Ok_inj in H as [<- <-]; (split; [reflexivity|]); right; [left|right];
      exists d; auto.
  - apply Ok_inj in H as [<- <-]. split; [reflexivity|]. left. auto.
Qed.

(* ===================================================================== *)
(** * The fields of a returned record                                 *)
(* ===================================================================== *)

Lemma stamped_fallback_fields env ip t :
  let r := <["timestamp" := VStr (iso_text env t)]> (EnhancedIPinfoService.fallback_info ip) in
  all_unknown r /\ r !! "isp" = None /\ r !! "source" = Some (VStr "fallback").
Proof. cbv zeta. split; [repeat constructor | split; reflexivity]. Qed.

(** What single-address resolution returns for an address that is in neither
    the store nor the cache. *)
Lemma first_resolution_record env ip s r s' :
  ip <> "" -> ip_data s !! ip = None -> cache s !! ip = None ->
  EnhancedIPinfoService.get_ip_info env ip s = Ok r s' ->
  Forall (populated r) string_fields \/
  (all_unknown r /\ r !! "isp" = None /\ r !! "source" = Some (VStr "fallback")) \/
  r !! "source" = Some (VStr "offline") \/
  r !! "source" = Some (VStr "online").
Proof.
  intros He Hrow Hcache H.
  unfold EnhancedIPinfoService.get_ip_info in H.
  rewrite (eqb_empty_false ip He) in H.
  apply bind_ok in H as (local_info & s1 & Hl & H).
  pose proof (local_get_ip_info_untouched env ip s local_info s1 Hl)
    as (_ & _ & _ & Hc1 & _).
  apply local_get_ip_info_inv in Hl.
  assert (Hshape : Forall (populated local_info) string_fields /\
                   LocalIPDatabase._is_private_ip ip
                   = EnhancedIPinfoService.store_answers local_info
                     && LocalIPDatabase._is_private_ip ip).
  { destruct Hl as [? ? ?|mk _ Hp -> _ _|row _ _ Hr _ _|m i s2 mk _ Hp _ _ -> _ _].
    - contradiction.
    - split; [apply private_info_populated|].
      now rewrite private_info_answers, Hp.
    - congruence.
    - split; [apply assemble_populated|]. rewrite Hp. now rewrite andb_false_r. }
  destruct Hshape as [Hpop Hpriv].
  destruct (EnhancedIPinfoService.store_answers local_info) eqn:Hans.
  { apply bind_ok in H as (u & s2 & _ & H). apply ret_ok in H as [-> _].
    now left. }
  cbn [andb] in Hpriv.
  apply bind_ok in H as (cached & s2 & Hcl & H).
  apply cache_lookup_inv in Hcl as [_ [(_ & -> & ->)|[(d & Hd & _)|(d & Hd & _)]]];
    [|rewrite Hc1 in Hd; congruence ..].
  apply resolve_lower_inv in H as (info & t & -> & _ & _ & [[-> _]|[Hlow _]]).
  - right. left. apply stamped_fallback_fields.
  - right. right.
    destruct Hlow as [_ Hoff| Hp' _ |Hon].
    + left. rewrite lookup_insert_ne by discriminate. exact Hoff.
    + rewrite classifiers_coincide in Hp'. congruence.
    + right. rewrite lookup_insert_ne by discriminate. exact Hon.
Qed.

(** C2, as the code has it. For a non-empty address that is in neither the
    store nor the cache, the record single-address resolution returns is of
    one of three kinds. Either all thirteen string fields are there, none
    empty or null (the records the store tier makes, with "Unknown", "XX"
    or "unknown" in place of what its sources did not give). Or it is the
    fallback record: twelve string fields, "Unknown" or "XX", and no [isp].
    Or it is tagged "offline" or "online" and carries what that tier
    supplied. *)
Theorem first_resolution_fields env ip s r s' :
  ip <> "" -> ip_data s !! ip = None -> cache s !! ip = None ->
  EnhancedIPinfoService.get_ip_info env ip s = Ok r s' ->
  Forall (populated r) string_fields \/
  (all_unknown r /\ r !! "isp" = None /\ r !! "source" = Some (VStr "fallback")) \/
  r !! "source" = Some (VStr "offline") \/
  r !! "source" = Some (VStr "online").
Proof. exact (first_resolution_record env ip s r s'). Qed.

Lemma first_resolution_fields_witness :
  exists r s',
    EnhancedIPinfoService.get_ip_info quiet_env "8.8.8.8" mmdb_state = Ok r s' /\
    (Forall (populated r) string_fields \/
     (all_unknown r /\ r !! "isp" = None /\ r !! "source" = Some (VStr "fallback")) \/
     r !! "source" = Some (VStr "offline") \/
     r !! "source" = Some (VStr "online")).
Proof.
  assert (H : match EnhancedIPinfoService.get_ip_info quiet_env "8.8.8.8" mmdb_state with
              | Ok _ _ => true
              | Raise _ _ => false
              end = true).
  { vm_compute. reflexivity. }
  destruct (EnhancedIPinfoService.get_ip_info quiet_env "8.8.8.8" mmdb_state)
    as [r s'|e s'] eqn:E; [|discriminate H].
  exists r, s'. split; [reflexivity|].
  apply (first_resolution_fields quiet_env "8.8.8.8" mmdb_state r s');
    [discriminate | reflexivity | reflexivity | exact E].
Defined.

(** C2 as the specification words it fails twice: the fallback record has
    no [isp] field, and the answer of the API is returned as it came, here
    without [country] and with an empty [city]. *)
Lemma unpopulated_fields_counterexample :
  (exists r s',
     EnhancedIPinfoService.get_ip_info quiet_env "8.8.8.8" fresh_state = Ok r s' /\
     r !! "isp" = None) /\
  (exists r s',
     EnhancedIPinfoService.get_ip_info sparse_api_env "8.8.8.8" token_state = Ok r s' /\
     r !! "country" = None /\ r !! "city" = Some (VStr "")).
Proof.
  split.
  - assert (H : match EnhancedIPinfoService.get_ip_info quiet_env "8.8.8.8" fresh_state with
                | Ok r _ => bool_decide (r !! "isp" = None)
                | Raise _ _ => false
                end = true).
    { vm_compute. reflexivity. }
    destruct (EnhancedIPinfoService.get_ip_info quiet_env "8.8.8.8" fresh_state)
      as [r s'|e s']; [|discriminate H].
    apply bool_decide_eq_true in H. exists r, s'. split; [reflexivity | exact H].
  - assert (H : match EnhancedIPinfoService.get_ip_info sparse_api_env "8.8.8.8" token_state with
                | Ok r _ => bool_decide (r !! "country" = None)
                            && bool_decide (r !! "city" = Some (VStr ""))
                | Raise _ _ => false
                end = true).
    { vm_compute. reflexivity. }
    destruct (EnhancedIPinfoService.get_ip_info sparse_api_env "8.8.8.8" token_state)
      as [r s'|e s']; [|discriminate H].
    apply andb_prop in H as [H1 H2].
    apply bool_decide_eq_true in H1, H2.
    exists r, s'. split; [reflexivity|]. split; assumption.
Qed.

(* ===================================================================== *)
(** * The provenance tag of what is written to the store              *)
(* ===================================================================== *)

Lemma bind_parameters_source env data mk tag stamp count :
  LocalIPDatabase.bind_parameters env data = inr mk ->
  data !! "source" = Some (VStr tag) ->
  c_source (mk stamp count) = VStr tag.
Proof.
  unfold LocalIPDatabase.bind_parameters. intros H Hs.
  repeat match type of H with
         | match ?x with inl _ => _ | inr _ => _ end = _ =>
             let E := fresh "E" in destruct x eqn:E; [discriminate H|]
         end.
  inversion H. subst mk. simpl.
  match goal with
  | E : LocalIPDatabase.bind_text env (dict_get data "source" _) = inr _ |- _ =>
      unfold dict_get in E; rewrite Hs in E; simpl in E; now injection E as <-
  end.
Qed.

Lemma fill_default_keeps_value r fd k v :
  r !! k = Some v -> LocalIPDatabase.blank v = false ->
  LocalIPDatabase.fill_default r fd !! k = Some v.
Proof.
  intros Hv Hb. unfold LocalIPDatabase.fill_default.
  destruct (decide (fd.1 = k)) as [<-|Hne].
  - now rewrite Hv, Hb.
  - destruct (r !! fd.1) as [w|]; [destruct (LocalIPDatabase.blank w)|];
      try rewrite lookup_insert_ne by exact Hne; exact Hv.
Qed.

Lemma fill_defaults_keep_value fds : forall r k v,
  r !! k = Some v -> LocalIPDatabase.blank v = false ->
  foldl LocalIPDatabase.fill_default r fds !! k = Some v.
Proof.
  induction fds as [|fd fds IH]; intros r k v Hv Hb; cbn [foldl]; [exact Hv|].
  apply IH; [|exact Hb]. now apply fill_default_keeps_value.
Qed.

Lemma derive_isp_source env r :
  LocalIPDatabase.derive_isp env r !! "source" = r !! "source".
Proof.
  unfold LocalIPDatabase.derive_isp.
  repeat match goal with |- context [if ?c then _ else _] => destruct c end;
    try rewrite lookup_insert_ne by discriminate; reflexivity.
Qed.

Lemma store_tag_not_fallback tag : store_tag tag -> tag <> "fallback".
Proof. intros [->|[->|[->| ->]]]; discriminate. Qed.

Lemma assemble_source env ip mmdb_data ipinfo_data :
  (mmdb_data = None \/ exists d, mmdb_data = Some (LocalIPDatabase.mmdb_record d)) ->
  (ipinfo_data = None \/ exists d, ipinfo_data = Some (LocalIPDatabase.ipinfo_record d)) ->
  exists tag,
    LocalIPDatabase.assemble env ip mmdb_data ipinfo_data !! "source" = Some (VStr tag) /\
    store_tag tag.
Proof.
  intros Hm Hi.
  destruct Hm as [->|[d ->]], Hi as [->|[d' ->]].
  - exists "unknown". rewrite assemble_nothing. split; [reflexivity | now left].
  - exists "ipinfo_api". split; [|right; right; now left].
    unfold LocalIPDatabase.assemble. rewrite derive_isp_source.
    apply fill_defaults_keep_value; [|reflexivity].
    unfold LocalIPDatabase.merge_sources, dict_update. cbv zeta.
    now apply lookup_union_Some_l.
  - exists "mmdb". split; [|right; now left].
    unfold LocalIPDatabase.assemble. rewrite derive_isp_source.
    apply fill_defaults_keep_value; [|reflexivity].
    unfold LocalIPDatabase.merge_sources, dict_update. cbv zeta.
    now apply lookup_union_Some_l.
  - exists "mmdb+ipinfo_api". split; [|right; right; now right].
    unfold LocalIPDatabase.assemble. rewrite derive_isp_source.
    apply fill_defaults_keep_value; [|reflexivity].
    unfold LocalIPDatabase.merge_sources. cbv zeta.
    apply lookup_insert_eq.
Qed.

(** ** No fallback row, no fallback entry *)

Lemma no_fallback_row_added_refl s : no_fallback_row_added s s.
Proof. intros ip row H1 H2. eauto. Qed.

Lemma no_fallback_row_added_trans s1 s2 s3 :
  no_fallback_row_added s1 s2 -> no_fallback_row_added s2 s3 ->
  no_fallback_row_added s1 s3.
Proof.
  intros H12 H23 ip row Hr Hs.
  destruct (H23 ip row Hr Hs) as (row2 & Hr2 & Hs2). eauto.
Qed.

Lemma no_fallback_entry_added_refl s : no_fallback_entry_added s s.
Proof. intros ip e H1 H2. exact H1. Qed.

Lemma no_fallback_entry_added_trans s1 s2 s3 :
  no_fallback_entry_added s1 s2 -> no_fallback_entry_added s2 s3 ->
  no_fallback_entry_added s1 s3.
Proof. intros H12 H23 ip e He Hs. eauto. Qed.

Lemma stores_kept_no_row s s' : stores_kept s s' -> no_fallback_row_added s s'.
Proof. intros [Hd _] ip row Hr Hs. rewrite Hd in Hr. eauto. Qed.

Lemma stores_kept_no_entry s s' : stores_kept s s' -> no_fallback_entry_added s s'.
Proof. intros (_ & Hc & _) ip e He Hs. now rewrite Hc in He. Qed.

(** Writing a dictionary with another tag adds no fallback row. *)
Lemma store_ip_data_no_row env ip data tag s u s' :
  data !! "source" = Some (VStr tag) -> tag <> "fallback" ->
  LocalIPDatabase._store_ip_data env ip data s = Ok u s' ->
  no_fallback_row_added s s' /\ cache s' = cache s.
Proof.
  intros Htag Hne H. apply store_ip_data_inv in H as (mk & Hmk & ->).
  split; [|reflexivity]. intros ip' row Hr Hs. simpl in Hr.
  destruct (decide (ip = ip')) as [<-|Hd].
  - rewrite lookup_insert_eq in Hr. injection Hr as <-.
    rewrite (bind_parameters_source env data mk tag _ _ Hmk Htag) in Hs.
    congruence.
  - rewrite lookup_insert_ne in Hr by exact Hd. eauto.
Qed.

(** The store tier adds no fallback row. *)
Lemma local_get_ip_info_no_row env ip s r s' :
  LocalIPDatabase.get_ip_info env ip false s = Ok r s' ->
  no_fallback_row_added s s'.
Proof.
  intros H. apply local_get_ip_info_inv in H.
  destruct H as [? ? ->|mk ? Hp -> Hmk ->|row ? ? Hrow ? ->|m i s2 mk ? ? ? Hsc -> Hmk ->].
  - apply no_fallback_row_added_refl.
  - intros ip' row Hr Hs. simpl in Hr.
    destruct (decide (ip = ip')) as [<-|Hd].
    + rewrite lookup_insert_eq in Hr. injection Hr as <-.
      rewrite (bind_parameters_source env _ mk "private" _ _ Hmk eq_refl) in Hs.
      discriminate Hs.
    + rewrite lookup_insert_ne in Hr by exact Hd. eauto.
  - intros ip' row' Hr Hs. simpl in Hr.
    destruct (decide (ip = ip')) as [<-|Hd].
    + rewrite lookup_insert_eq in Hr. injection Hr as <-. eauto.
    + rewrite lookup_insert_ne in Hr by exact Hd. eauto.
  - destruct (assemble_source env ip m i (sc_mmdb_shape _ _ _ _ Hsc)
                (sc_ipinfo_shape _ _ _ _ Hsc)) as (tag & Htag & Hst).
    intros ip' row Hr Hs. simpl in Hr.
    destruct (decide (ip = ip')) as [<-|Hd].
    + rewrite lookup_insert_eq in Hr. injection Hr as <-.
      rewrite (bind_parameters_source env _ mk tag _ _ Hmk Htag) in Hs.
      apply store_tag_not_fallback in Hst. congruence.
    + rewrite lookup_insert_ne in Hr by exact Hd.
      rewrite (sc_store _ _ _ _ Hsc) in Hr. eauto.
Qed.

Lemma no_fallback_added_refl s : no_fallback_added s s.
Proof. split; [apply no_fallback_row_added_refl | apply no_fallback_entry_added_refl]. Qed.

Lemma no_fallback_added_trans s1 s2 s3 :
  no_fallback_added s1 s2 -> no_fallback_added s2 s3 -> no_fallback_added s1 s3.
Proof.
  intros [R1 E1] [R2 E2]. split.
  - eapply no_fallback_row_added_trans; eassumption.
  - eapply no_fallback_entry_added_trans; eassumption.
Qed.

Lemma stores_kept_no_fallback s s' : stores_kept s s' -> no_fallback_added s s'.
Proof. intros K. split; [now apply stores_kept_no_row | now apply stores_kept_no_entry]. Qed.

Lemma same_stores_no_fallback s s' :
  ip_data s' = ip_data s -> cache s' = cache s -> no_fallback_added s s'.
Proof.
  intros Hd Hc. split.
  - intros ip row Hr Hs. rewrite Hd in Hr. eauto.
  - intros ip e He _. now rewrite Hc in He.
Qed.

Lemma cache_delete_no_fallback ip s s' :
  ip_data s' = ip_data s -> cache s' = delete ip (cache s) ->
  no_fallback_added s s'.
Proof.
  intros Hd Hc. split.
  - intros ip' row Hr Hs. rewrite Hd in Hr. eauto.
  - intros ip' e He _. rewrite Hc in He.
    apply lookup_delete_Some in He as [_ He]. exact He.
Qed.

Lemma cache_insert_no_fallback ip e tag s s' :
  e !! "source" = Some (VStr tag) -> tag <> "fallback" ->
  ip_data s' = ip_data s -> cache s' = <[ip := e]> (cache s) ->
  no_fallback_added s s'.
Proof.
  intros Htag Hne Hd Hc. split.
  - intros ip' row Hr Hs. rewrite Hd in Hr. eauto.
  - intros ip' e' He Hs. rewrite Hc in He.
    destruct (decide (ip = ip')) as [<-|Hn].
    + rewrite lookup_insert_eq in He. injection He as <-. congruence.
    + now rewrite lookup_insert_ne in He by exact Hn.
Qed.

Lemma store_ip_data_no_fallback env ip data tag s u s' :
  data !! "source" = Some (VStr tag) -> tag <> "fallback" ->
  LocalIPDatabase._store_ip_data env ip data s = Ok u s' ->
  no_fallback_added s s'.
Proof.
  intros Htag Hne H.
  destruct (store_ip_data_no_row env ip data tag s u s' Htag Hne H) as [Hr Hc].
  split; [exact Hr|]. intros ip' e He _. now rewrite Hc in He.
Qed.

Lemma local_get_ip_info_no_fallback env ip s r s' :
  LocalIPDatabase.get_ip_info env ip false s = Ok r s' ->
  no_fallback_added s s'.
Proof.
  intros H. split; [exact (local_get_ip_info_no_row env ip s r s' H)|].
  destruct (local_get_ip_info_untouched env ip s r s' H) as (_ & _ & _ & Hc & _).
  intros ip' e He _. now rewrite Hc in He.
Qed.

Lemma cache_lookup_no_fallback env ip s o s' :
  EnhancedIPinfoService.cache_lookup env ip s = Ok o s' ->
  no_fallback_added s s'.
Proof.
  intros H. apply cache_lookup_inv in H
    as [Hd [(_ & _ & ->)|[(d & _ & _ & Hc)|(d & _ & _ & Hc)]]].
  - apply no_fallback_added_refl.
  - now apply same_stores_no_fallback.
  - now apply (cache_delete_no_fallback ip).
Qed.

Lemma foldM_related {A B} (R : State -> State -> Prop) (f : B -> A -> M B) :
  (forall s, R s s) ->
  (forall s1 s2 s3, R s1 s2 -> R s2 s3 -> R s1 s3) ->
  (forall b x s b' s', f b x s = Ok b' s' -> R s s') ->
  forall l b s b' s',
    EnhancedIPinfoService.foldM f l b s = Ok b' s' -> R s s'.
Proof.
  intros Hrefl Htrans Hstep. induction l as [|x l IH]; intros b s b' s' H.
  - apply ret_ok in H as [_ ->]. apply Hrefl.
  - cbn [EnhancedIPinfoService.foldM] in H.
    apply bind_ok in H as (b1 & s1 & H1 & H).
    eapply Htrans; [exact (Hstep _ _ _ _ _ H1) | exact (IH _ _ _ _ H)].
Qed.

Lemma stamped_source (info : record) v tag :
  info !! "source" = Some (VStr tag) ->
  (<["timestamp" := v]> info) !! "source" = Some (VStr tag).
Proof. intros H. now rewrite lookup_insert_ne by discriminate. Qed.

(** The first loop of [bulk_lookup]. *)
Lemma first_pass_step_no_fallback env acc ip s acc' s' :
  EnhancedIPinfoService.first_pass_step env acc ip s = Ok acc' s' ->
  no_fallback_added s s'.
Proof.
  intros H. unfold EnhancedIPinfoService.first_pass_step in H. cbv zeta in H.
  apply bind_ok in H as (local_info & s1 & Hl & H).
  apply local_get_ip_info_no_fallback in Hl.
  eapply no_fallback_added_trans; [exact Hl|]. clear Hl.
  destruct (EnhancedIPinfoService.store_answers local_info).
  { apply bind_ok in H as (u & s2 & Hm & H).
    apply modify_ok in Hm. apply ret_ok in H as [_ ->]. subst s2.
    now apply same_stores_no_fallback. }
  apply bind_ok in H as (cached & s2 & Hcl & H).
  apply cache_lookup_no_fallback in Hcl.
  eapply no_fallback_added_trans; [exact Hcl|]. clear Hcl.
  destruct cached as [d|].
  { apply ret_ok in H as [_ ->]. apply no_fallback_added_refl. }
  apply bind_ok in H as (off & s3 & Hoff & H).
  apply get_offline_info_inv in Hoff as [K Hshape].
  eapply no_fallback_added_trans; [exact (stores_kept_no_fallback _ _ K)|]. clear K.
  destruct off as [info|]; [|apply ret_ok in H as [_ ->]; apply no_fallback_added_refl].
  match type of H with context [if ?c then _ else _] => destruct c end;
    [|apply ret_ok in H as [_ ->]; apply no_fallback_added_refl].
  assert (Htag : exists tag, info !! "source" = Some (VStr tag) /\ tag <> "fallback").
  { destruct Hshape as [Hn|[[_ Hi]|[_ (i & Hi & Hoff)]]]; [discriminate Hn| |].
    - injection Hi as ->. exists "offline_private". split; [reflexivity | discriminate].
    - injection Hi as ->. exists "offline". split; [exact Hoff | discriminate]. }
  destruct Htag as (tag & Htag & Hne).
  apply bind_ok in H as (t & s4 & Hnow & H). apply now_ok in Hnow as [-> ->].
  apply bind_ok in H as (u & s5 & Hm & H). apply modify_ok in Hm. subst s5.
  apply bind_ok in H as (u2 & s6 & Hst & H).
  apply (store_ip_data_no_fallback env ip _ tag) in Hst;
    [|now apply stamped_source | exact Hne].
  apply bind_ok in H as (u3 & s7 & Hm & H). apply modify_ok in Hm. subst s7.
  apply ret_ok in H as [_ ->].
  eapply no_fallback_added_trans;
    [apply same_stores_no_fallback; reflexivity|].
  eapply no_fallback_added_trans; [exact Hst|].
  eapply (cache_insert_no_fallback ip _ tag);
    [apply stamped_source; exact Htag | exact Hne | reflexivity | reflexivity].
Qed.

(** The second loop. *)
Lemma second_pass_step_no_fallback env results ip s results' s' :
  EnhancedIPinfoService.second_pass_step env results ip s = Ok results' s' ->
  no_fallback_added s s'.
Proof.
  intros H. unfold EnhancedIPinfoService.second_pass_step in H.
  apply bind_ok in H as (fetched & s1 & Hf & H).
  unfold EnhancedIPinfoService.fetch_online in Hf.
  apply bind_ok in Hf as (online & s0 & Hon & Hf).
  apply get_online_info_inv in Hon as [K Hshape].
  eapply no_fallback_added_trans; [exact (stores_kept_no_fallback _ _ K)|]. clear K.
  destruct Hshape as [->|[data ->]].
  - apply ret_ok in Hf as [-> ->].
    apply bind_ok in H as (fb & s2 & Hfb & H).
    rewrite bulk_fallback_ok in Hfb. apply Ok_inj in Hfb as [_ <-].
    apply ret_ok in H as [_ ->]. now apply same_stores_no_fallback.
  - rewrite online_dict_truthy in Hf.
    apply bind_ok in Hf as (t & s2 & Hnow & Hf). apply now_ok in Hnow as [-> ->].
    apply bind_ok in Hf as (u & s3 & Hm & Hf). apply modify_ok in Hm. subst s3.
    apply bind_ok in Hf as (u2 & s4 & Hst & Hf).
    apply (store_ip_data_no_fallback env ip _ "online") in Hst;
      [|apply stamped_source, lookup_insert_eq | discriminate].
    apply ret_ok in Hf as [-> ->].
    apply bind_ok in H as (u3 & s5 & Hm & H). apply modify_ok in Hm. subst s5.
    apply ret_ok in H as [_ ->].
    eapply no_fallback_added_trans;
      [apply same_stores_no_fallback; reflexivity|].
    eapply no_fallback_added_trans; [exact Hst|].
    eapply (cache_insert_no_fallback ip _ "online");
      [apply stamped_source, lookup_insert_eq | discriminate | reflexivity | reflexivity].
Qed.

(** The last loop. *)
Lemma fill_step_no_fallback env results ip s results' s' :
  EnhancedIPinfoService.fill_step env results ip s = Ok results' s' ->
  no_fallback_added s s'.
Proof.
  intros H. unfold EnhancedIPinfoService.fill_step in H.
  destruct (results !! ip).
  - apply ret_ok in H as [_ ->]. apply no_fallback_added_refl.
  - apply bind_ok in H as (fb & s2 & Hfb & H).
    rewrite bulk_fallback_ok in Hfb. apply Ok_inj in Hfb as [_ <-].
    apply ret_ok in H as [_ ->]. now apply same_stores_no_fallback.
Qed.

(** Bulk resolution adds no row tagged "fallback" to the store and no entry
    tagged "fallback" to the cache. *)
Lemma bulk_lookup_no_fallback env ips max_workers s res s' :
  EnhancedIPinfoService.bulk_lookup env ips max_workers s = Ok res s' ->
  no_fallback_added s s'.
Proof.
  intros H. unfold EnhancedIPinfoService.bulk_lookup in H.
  destruct ips as [|ip0 ips0].
  { apply ret_ok in H as [_ ->]. apply no_fallback_added_refl. }
  apply bind_ok in H as (acc & s1 & H1 & H).
  apply (foldM_related no_fallback_added _ no_fallback_added_refl
           no_fallback_added_trans (first_pass_step_no_fallback env)) in H1.
  eapply no_fallback_added_trans; [exact H1|]. clear H1.
  cbv zeta in H.
  apply bind_ok in H as (tok & s2 & Hg & H). apply gets_ok in Hg as [-> ->].
  apply bind_ok in H as (results & s3 & H2 & H).
  assert (K2 : no_fallback_added s1 s3).
  { destruct acc.2 as [|x l]; [apply ret_ok in H2 as [_ ->]; apply no_fallback_added_refl|].
    destruct (token_set (token s1));
      [|apply ret_ok in H2 as [_ ->]; apply no_fallback_added_refl].
    exact (foldM_related no_fallback_added _ no_fallback_added_refl
             no_fallback_added_trans (second_pass_step_no_fallback env) _ _ _ _ _ H2). }
  eapply no_fallback_added_trans; [exact K2|]. clear K2 H2.
  apply bind_ok in H as (results' & s4 & H3 & H).
  apply (foldM_related no_fallback_added _ no_fallback_added_refl
           no_fallback_added_trans (fill_step_no_fallback env)) in H3.
  eapply no_fallback_added_trans; [exact H3|]. clear H3.
  apply bind_ok in H as (u & s5 & Hsave & H).
  apply save_cache_inv in Hsave. apply ret_ok in H as [_ ->].
  now apply stores_kept_no_fallback.
Qed.

(* ===================================================================== *)
(** * Fallback records, the store and the cache                       *)
(* ===================================================================== *)

(** Single-address resolution that ends with a record tagged "fallback". *)
Lemma single_fallback env ip s r s' :
  EnhancedIPinfoService.get_ip_info env ip s = Ok r s' ->
  r !! "source" = Some (VStr "fallback") ->
  no_fallback_row_added s s' /\
  exists local_info s1,
    LocalIPDatabase.get_ip_info env ip false s = Ok local_info s1 /\
    ip_data s' = ip_data s1 /\
    (r = local_info \/ cache s' !! ip = Some r).
Proof.
  intros H Hsrc. unfold EnhancedIPinfoService.get_ip_info in H.
  destruct (String.eqb ip "").
  { apply ret_ok in H as [-> _]. rewrite lookup_empty in Hsrc. discriminate Hsrc. }
  apply bind_ok in H as (local_info & s1 & Hl & H).
  pose proof (local_get_ip_info_no_row env ip s local_info s1 Hl) as Hrows.
  assert (Hdone : ip_data s' = ip_data s1 /\
                  (r = local_info \/ cache s' !! ip = Some r)).
  { destruct (EnhancedIPinfoService.store_answers local_info).
    { apply bind_ok in H as (u & s2 & Hm & H).
      apply modify_ok in Hm. apply ret_ok in H as [-> ->]. subst s2.
      split; [reflexivity | now left]. }
    apply bind_ok in H as (cached & s2 & Hcl & H).
    apply cache_lookup_inv in Hcl as [Hd Hcases].
    destruct cached as [d|].
    { apply ret_ok in H as [-> ->]. split; [exact Hd|]. right.
      destruct Hcases as [(_ & Hn & _)|[(d' & Hd' & Heq & Hc)|(d' & _ & Hn & _)]];
        [discriminate Hn | | discriminate Hn].
      injection Heq as ->. now rewrite Hc. }
    apply resolve_lower_inv in H as (info & t & Hr & Hc & _ & [[-> Hst]|[Hlow _]]).
    - split; [now rewrite Hst|]. right. rewrite Hc. apply lookup_insert_eq.
    - destruct (lower_info_source ip info Hlow) as (tag & Htag & Hne).
      subst r. rewrite (stamped_source _ _ _ Htag) in Hsrc. congruence. }
  destruct Hdone as [Hd Hc]. split.
  - eapply no_fallback_row_added_trans; [exact Hrows|].
    intros ip' row Hr Hs. rewrite Hd in Hr. eauto.
  - exists local_info, s1. auto.
Qed.

(** C8, as the code has it. Single-address resolution that returns a record
    tagged "fallback" adds no row tagged "fallback" to the store: the store
    is as the store tier's own lookup of the address left it (that lookup
    inserts the row of a new address, or counts the query on its row), and
    the record, unless it is that row's, is in the cache afterwards. Bulk
    resolution adds no row tagged "fallback" to the store either. *)
Theorem fallback_not_stored env :
  (forall ip s r s',
     EnhancedIPinfoService.get_ip_info env ip s = Ok r s' ->
     r !! "source" = Some (VStr "fallback") ->
     no_fallback_row_added s s' /\
     exists local_info s1,
       LocalIPDatabase.get_ip_info env ip false s = Ok local_info s1 /\
       ip_data s' = ip_data s1 /\
       (r = local_info \/ cache s' !! ip = Some r)) /\
  (forall ips max_workers s res s',
     EnhancedIPinfoService.bulk_lookup env ips max_workers s = Ok res s' ->
     no_fallback_row_added s s').
Proof.
  split.
  - exact (single_fallback env).
  - intros ips max_workers s res s' H.
    exact (proj1 (bulk_lookup_no_fallback env ips max_workers s res s' H)).
Qed.

Lemma fallback_not_stored_witness :
  exists r s',
    EnhancedIPinfoService.get_ip_info quiet_env "8.8.8.8" fresh_state = Ok r s' /\
    r !! "source" = Some (VStr "fallback") /\
    no_fallback_row_added fresh_state s' /\
    cache s' !! "8.8.8.8" = Some r.
Proof.
  assert (H : match EnhancedIPinfoService.get_ip_info quiet_env "8.8.8.8" fresh_state with
              | Ok r s' =>
                  bool_decide (r !! "source" = Some (VStr "fallback"))
                  && bool_decide (r <> unknown_info "8.8.8.8")
              | Raise _ _ => false
              end = true).
  { vm_compute. reflexivity. }
  destruct (EnhancedIPinfoService.get_ip_info quiet_env "8.8.8.8" fresh_state)
    as [r s'|e s'] eqn:E; [|discriminate H].
  apply andb_prop in H as [Hsrc Hne].
  apply bool_decide_eq_true in Hsrc, Hne.
  destruct (proj1 (fallback_not_stored quiet_env) "8.8.8.8" fresh_state r s' E Hsrc)
    as (Hrows & local_info & s1 & Hl & _ & Hc).
  exists r, s'. split; [reflexivity|]. split; [exact Hsrc|]. split; [exact Hrows|].
  destruct Hc as [Hc|Hc]; [|exact Hc].
  exfalso. apply Hne. subst r.
  rewrite (local_unknown quiet_env "8.8.8.8" fresh_state) in Hl;
    [|discriminate | reflexivity ..].
  now apply Ok_inj in Hl as [<- _].
Defined.

(** C8 as the specification words it fails twice. The single resolution
    that ends in the fallback record leaves a row for the address in the
    store, which was empty. And the fallback record of a bulk resolution is
    not in the cache afterwards. *)
Lemma fallback_store_and_cache_counterexample :
  (exists r s',
     EnhancedIPinfoService.get_ip_info quiet_env "8.8.8.8" fresh_state = Ok r s' /\
     r !! "source" = Some (VStr "fallback") /\
     ip_data fresh_state !! "8.8.8.8" = None /\
     is_Some (ip_data s' !! "8.8.8.8")) /\
  (exists res s' r,
     EnhancedIPinfoService.bulk_lookup quiet_env ["8.8.8.8"] 10 fresh_state = Ok res s' /\
     res !! "8.8.8.8" = Some r /\
     r !! "source" = Some (VStr "fallback") /\
     cache s' !! "8.8.8.8" = None).
Proof.
  split.
  - assert (H : match EnhancedIPinfoService.get_ip_info quiet_env "8.8.8.8" fresh_state with
                | Ok r s' =>
                    bool_decide (r !! "source" = Some (VStr "fallback"))
                    && match ip_data s' !! "8.8.8.8" with
                       | Some _ => true
                       | None => false
                       end
                | Raise _ _ => false
                end = true).
    { vm_compute. reflexivity. }
    destruct (EnhancedIPinfoService.get_ip_info quiet_env "8.8.8.8" fresh_state)
      as [r s'|e s']; [|discriminate H].
    apply andb_prop in H as [Hsrc Hrow]. apply bool_decide_eq_true in Hsrc.
    exists r, s'. split; [reflexivity|]. split; [exact Hsrc|].
    split; [reflexivity|].
    destruct (ip_data s' !! "8.8.8.8") as [row|]; [now exists row | discriminate Hrow].
  - assert (H : match EnhancedIPinfoService.bulk_lookup quiet_env ["8.8.8.8"] 10 fresh_state with
                | Ok res s' =>
                    match res !! "8.8.8.8" with
                    | Some r => bool_decide (r !! "source" = Some (VStr "fallback"))
                    | None => false
                    end
                    && bool_decide (cache s' !! "8.8.8.8" = None)
                | Raise _ _ => false
                end = true).
    { vm_compute. reflexivity. }
    destruct (EnhancedIPinfoService.bulk_lookup quiet_env ["8.8.8.8"] 10 fresh_state)
      as [res s'|e s']; [|discriminate H].
    apply andb_prop in H as [Hres Hc]. apply bool_decide_eq_true in Hc.
    destruct (res !! "8.8.8.8") as [r|] eqn:Hr; [|discriminate Hres].
    apply bool_decide_eq_true in Hres.
    exists res, s', r. split; [reflexivity|]. repeat split; assumption.
Qed.

(* ===================================================================== *)
(** * The time to live of a cache entry                               *)
(* ===================================================================== *)

(** C7, as the code has it. Take a cache entry of [ip] whose [timestamp]
    is the datetime [T], and let the store tier, asked first, not answer
    (its record is empty or has country "Unknown"). With [t] the time read
    when the cache is looked at: if [t - T] is less than seven days the
    lookup returns the cached entry, counts a cache hit and leaves the
    cache as it is; if [t - T] is seven days or more the entry is removed
    from the cache and the result is that of the lower tiers, run from the
    state without the entry. A returned lookup has counted a cache hit if
    and only if [t - T] is less than seven days. *)
Theorem cache_ttl_boundary env ip s local_info s1 cached_data T :
  ip <> "" ->
  LocalIPDatabase.get_ip_info env ip false s = Ok local_info s1 ->
  EnhancedIPinfoService.store_answers local_info = false ->
  cache s !! ip = Some cached_data ->
  cached_data !! "timestamp" = Some (VDatetime T) ->
  (clock env (tick s1) - T < EnhancedIPinfoService.cache_duration ->
     EnhancedIPinfoService.get_ip_info env ip s =
       Ok cached_data (set_stats bump_cache_hits (advance s1)) /\
     cache (set_stats bump_cache_hits (advance s1)) = cache s) /\
  (EnhancedIPinfoService.cache_duration <= clock env (tick s1) - T ->
     EnhancedIPinfoService.get_ip_info env ip s =
       EnhancedIPinfoService.resolve_lower env ip (set_cache (delete ip) (advance s1)) /\
     cache (set_cache (delete ip) (advance s1)) = delete ip (cache s)) /\
  (forall r s',
     EnhancedIPinfoService.get_ip_info env ip s = Ok r s' ->
     (cache_hits (stats s') = cache_hits (stats s) + 1 <->
      clock env (tick s1) - T < EnhancedIPinfoService.cache_duration)).
Proof.
  intros He Hl Hna Hc HT.
  pose proof (local_get_ip_info_untouched env ip s local_info s1 Hl)
    as (_ & _ & _ & Hcache & _ & _ & _ & Hstats & _).
  assert (Hc1 : cache s1 !! ip = Some cached_data) by now rewrite Hcache.
  assert (Hfresh :
    clock env (tick s1) - T < EnhancedIPinfoService.cache_duration ->
    EnhancedIPinfoService.get_ip_info env ip s =
      Ok cached_data (set_stats bump_cache_hits (advance s1))).
  { intros Hage. unfold EnhancedIPinfoService.get_ip_info.
    rewrite (eqb_empty_false ip He).
    erewrite bind_ok_intro; [|exact Hl]. rewrite Hna.
    erewrite bind_ok_intro; [|exact (cache_lookup_fresh env ip s1 _ T Hc1 HT Hage)].
    reflexivity. }
  assert (Hexpired :
    EnhancedIPinfoService.cache_duration <= clock env (tick s1) - T ->
    EnhancedIPinfoService.get_ip_info env ip s =
      EnhancedIPinfoService.resolve_lower env ip (set_cache (delete ip) (advance s1))).
  { intros Hage. unfold EnhancedIPinfoService.get_ip_info.
    rewrite (eqb_empty_false ip He).
    erewrite bind_ok_intro; [|exact Hl]. rewrite Hna.
    erewrite bind_ok_intro; [|exact (cache_lookup_expired env ip s1 _ T Hc1 HT Hage)].
    reflexivity. }
  split; [|split].
  - intros Hage. split; [exact (Hfresh Hage) | exact Hcache].
  - intros Hage. split; [exact (Hexpired Hage) | simpl; now rewrite Hcache].
  - intros r s' Hget.
    destruct (Z.lt_ge_cases (clock env (tick s1) - T) EnhancedIPinfoService.cache_duration)
      as [Hage|Hage].
    + rewrite (Hfresh Hage) in Hget. apply Ok_inj in Hget as [_ <-].
      split; [intros _; exact Hage|]. intros _. simpl. now rewrite Hstats.
    + rewrite (Hexpired Hage) in Hget.
      apply resolve_lower_inv in Hget as (info & t & _ & _ & Hh & _).
      simpl in Hh. rewrite Hstats in Hh. split; intros; lia.
Qed.

Lemma cache_ttl_boundary_witness :
  exists s',
    EnhancedIPinfoService.get_ip_info quiet_env "8.8.8.8" (cached_state 10)
      = Ok (cached_entry 0) s' /\
    cache s' = cache (cached_state 10).
Proof.
  eexists.
  refine (proj1 (cache_ttl_boundary quiet_env "8.8.8.8" (cached_state 10) _ _
                   (cached_entry 0) 0 _ _ _ _ _) _).
  - discriminate.
  - apply local_unknown; [discriminate | reflexivity ..].
  - apply unknown_info_no_answer.
  - reflexivity.
  - reflexivity.
  - vm_compute. reflexivity.
Defined.

(** C7 as the specification words it fails: an entry one second old is not
    served from the cache when the store has a row with a known country for
    the address; the answer is the row, and no cache hit is counted. *)
Lemma fresh_entry_not_served_counterexample :
  cache cached_and_stored_state !! "8.8.8.8" = Some (cached_entry 0) /\
  clock quiet_env 1 - 0 < EnhancedIPinfoService.cache_duration /\
  exists r s',
    EnhancedIPinfoService.get_ip_info quiet_env "8.8.8.8" cached_and_stored_state = Ok r s' /\
    r <> cached_entry 0 /\
    r !! "country" = Some (VStr "US") /\
    cache_hits (stats s') = 0.
Proof.
  split; [reflexivity|]. split; [reflexivity|].
  eexists _, _. split.
  - apply (enhanced_store_hit quiet_env "8.8.8.8" cached_and_stored_state sample_row);
      [discriminate | reflexivity ..].
  - split; [|split; reflexivity].
    intros H. apply (f_equal (fun m : record => m !! "country")) in H.
    discriminate H.
Qed.

(* ===================================================================== *)
(** * More on the private-range classifiers                           *)
(* ===================================================================== *)

Lemma map_int_length parts : forall zs,
  map_int parts = Some zs -> length zs = length parts.
Proof.
  induction parts as [|p ps IH]; intros zs H; simpl in H.
  - injection H as <-. reflexivity.
  - destruct (py_int p); [|discriminate H].
    destruct (map_int ps) as [zs'|]; [|discriminate H].
    injection H as <-. simpl. f_equal. now apply IH.
Qed.

(** The chain of range tests as one boolean, when both parts are there. *)
Lemma range_tests_two p0 p1 rest :
  range_tests (p0 :: p1 :: rest) =
    Some ((p0 =? 10)
          || ((p0 =? 172) && ((16 <=? p1) && (p1 <=? 31)))
          || ((p0 =? 192) && (p1 =? 168))
          || (p0 =? 127)).
Proof.
  unfold range_tests. cbn.
  destruct (p0 =? 10); [reflexivity|].
  destruct (p0 =? 172) eqn:H172; cbn.
  - destruct ((16 <=? p1) && (p1 <=? 31)); [reflexivity|].
    apply Z.eqb_eq in H172. subst p0. reflexivity.
  - destruct (p0 =? 192); cbn; [|now destruct (p0 =? 127)].
    destruct (p1 =? 168); [reflexivity|]. now destruct (p0 =? 127).
Qed.

(** X1. The classifier of the tiered services, told in terms of the converted
    parts: private means that every part is a numeral and the first part is
    10 or 127, or is 172 with a second part from 16 to 31, or is 192 with
    second part 168.  Neither the number of parts nor the range of a part
    is looked at. *)
Theorem private_ranges_characterised ip :
  EnhancedIPinfoService._is_private_ip ip = true <->
  exists parts p0,
    map_int (split_dots ip) = Some parts /\ parts !! 0%nat = Some p0 /\
    (p0 = 10 \/ p0 = 127 \/
     (p0 = 172 /\ exists p1, parts !! 1%nat = Some p1 /\ 16 <= p1 <= 31) \/
     (p0 = 192 /\ parts !! 1%nat = Some 168)).
Proof.
  unfold EnhancedIPinfoService._is_private_ip. split.
  - destruct (map_int (split_dots ip)) as [parts|]; [|discriminate].
    destruct parts as [|p0 rest]; [discriminate|].
    intros H. exists (p0 :: rest), p0. split; [reflexivity|]. split; [reflexivity|].
    destruct rest as [|p1 rest].
    + unfold range_tests in H. cbn in H.
      destruct (p0 =? 10) eqn:H10; [apply Z.eqb_eq in H10; now left|].
      destruct (p0 =? 172); [discriminate H|]. cbn in H.
      destruct (p0 =? 192); [discriminate H|]. cbn in H.
      destruct (p0 =? 127) eqn:H127; [apply Z.eqb_eq in H127; auto | discriminate H].
    + rewrite range_tests_two in H.
      apply orb_prop in H as [H|H]; [|apply Z.eqb_eq in H; auto].
      apply orb_prop in H as [H|H].
      * apply orb_prop in H as [H|H]; [apply Z.eqb_eq in H; auto|].
        apply andb_prop in H as [H1 H2]. apply andb_prop in H2 as [H2 H3].
        apply Z.eqb_eq in H1. apply Z.leb_le in H2, H3.
        right. right. left. split; [exact H1|]. exists p1. split; [reflexivity | lia].
      * apply andb_prop in H as [H1 H2]. apply Z.eqb_eq in H1, H2. subst p1.
        right. right. right. now split.
  - intros (parts & p0 & -> & H0 & Hcase).
    destruct parts as [|q0 rest]; [discriminate H0|].
    cbn in H0. injection H0 as ->.
    destruct rest as [|p1 rest].
    + destruct Hcase as [->|[->|[[_ (p1 & H1 & _)]|[_ H1]]]];
        try reflexivity; discriminate H1.
    + rewrite range_tests_two.
      destruct Hcase as [->|[->|[[-> (q1 & H1 & Hr)]|[-> H1]]]];
        try reflexivity; cbn in H1.
      * injection H1 as <-.
        replace (16 <=? p1) with true by (symmetry; apply Z.leb_le; lia).
        replace (p1 <=? 31) with true by (symmetry; apply Z.leb_le; lia).
        reflexivity.
      * injection H1 as ->. reflexivity.
Qed.

(** On an address of four parts that are all numerals, the classifier of
    [IPInfoService] answers as the one of the tiered services does, except
    that it also takes the addresses starting with 169.254 for private. *)
Lemma classifiers_on_quads ip parts :
  map_int (split_dots ip) = Some parts -> length parts = 4%nat ->
  IPInfoService._is_private_ip ip =
    EnhancedIPinfoService._is_private_ip ip || IPInfoService.startswith "169.254" ip.
Proof.
  intros Hm Hlen.
  unfold IPInfoService._is_private_ip, EnhancedIPinfoService._is_private_ip.
  pose proof (map_int_length _ _ Hm) as Hl. rewrite Hlen in Hl.
  rewrite Hm.
  destruct (split_dots ip) as [|a [|b [|c [|d [|e sp]]]]]; try discriminate Hl.
  cbn [length Nat.eqb negb].
  simpl in Hm.
  destruct (py_int a) as [p0|]; [|discriminate Hm].
  destruct (py_int b) as [p1|]; [|discriminate Hm].
  destruct (py_int c) as [p2|]; [|discriminate Hm].
  destruct (py_int d) as [p3|]; [|discriminate Hm].
  injection Hm as <-. rewrite range_tests_two.
  destruct (p0 =? 10); [reflexivity|].
  destruct ((p0 =? 172) && ((16 <=? p1) && (p1 <=? 31))); [reflexivity|].
  destruct ((p0 =? 192) && (p1 =? 168)); [reflexivity|].
  destruct (p0 =? 127); [reflexivity|].
  cbn. now destruct (IPInfoService.startswith "169.254" ip).
Qed.

(** X2. Whatever the classifier of the tiered services takes for private, the
    classifier of [IPInfoService] takes for private too. *)
Theorem enhanced_private_is_ipinfo_private ip :
  EnhancedIPinfoService._is_private_ip ip = true ->
  IPInfoService._is_private_ip ip = true.
Proof.
  intros H.
  destruct (map_int (split_dots ip)) as [parts|] eqn:Hm.
  - destruct (decide (length parts = 4%nat)) as [Hlen|Hlen].
    + rewrite (classifiers_on_quads ip parts Hm Hlen), H. reflexivity.
    + unfold IPInfoService._is_private_ip.
      rewrite <- (map_int_length _ _ Hm).
      apply Nat.eqb_neq in Hlen. now rewrite Hlen.
  - unfold EnhancedIPinfoService._is_private_ip in H. rewrite Hm in H. discriminate H.
Qed.

Lemma enhanced_private_is_ipinfo_private_witness :
  EnhancedIPinfoService._is_private_ip "10" = true /\
  IPInfoService._is_private_ip "10" = true.
Proof.
  split; [reflexivity|].
  apply (enhanced_private_is_ipinfo_private "10"). reflexivity.
Defined.

(** X3. On an address of four numerals the two classifiers differ only on the
    link-local prefix. *)
Theorem classifiers_agree_on_quads ip parts :
  map_int (split_dots ip) = Some parts -> length parts = 4%nat ->
  IPInfoService.startswith "169.254" ip = false ->
  IPInfoService._is_private_ip ip = EnhancedIPinfoService._is_private_ip ip.
Proof.
  intros Hm Hlen Hpre.
  rewrite (classifiers_on_quads ip parts Hm Hlen), Hpre. apply orb_false_r.
Qed.

Lemma classifiers_agree_on_quads_witness :
  IPInfoService._is_private_ip "8.8.8.8" = EnhancedIPinfoService._is_private_ip "8.8.8.8".
Proof.
  apply (classifiers_agree_on_quads "8.8.8.8" [8; 8; 8; 8]); reflexivity.
Defined.

(* ===================================================================== *)
(** * More on the durable store                                       *)
(* ===================================================================== *)

(** A text bound by [_store_ip_data] is the text the row dictionary shows. *)
Lemma bind_parameters_text env data mk stamp count ip k v :
  LocalIPDatabase.bind_parameters env data = inr mk ->
  k ∈ text_columns -> data !! k = Some (VStr v) ->
  (<["from_cache" := VBool true]>
     (LocalIPDatabase.row_to_dict env ip (mk stamp count))) !! k = Some (VStr v).
Proof.
  intros H Hin Hk. unfold text_columns, string_fields in Hin. cbn [app] in Hin.
  unfold LocalIPDatabase.bind_parameters, dict_get in H.
  repeat (apply elem_of_cons in Hin as [->|Hin]);
    [..|apply elem_of_nil in Hin; contradiction];
    rewrite !Hk in H; cbv beta iota delta [LocalIPDatabase.bind_text] in H;
    repeat match type of H with
           | match ?x with inl _ => _ | inr _ => _ end = _ =>
               destruct x; [discriminate H|]
           end;
    inversion H; subst mk; reflexivity.
Qed.

(** X4. Writing and reading back. After [_store_ip_data] wrote a dictionary for
    a public address, [get_ip_info] answers from the row without asking the
    MMDB file or the API: the record is marked [from_cache], every text
    column of the dictionary shows the text that was written, and
    [query_count] is the count the write computed. *)
Theorem store_then_get env ip data mk s :
  ip <> "" -> LocalIPDatabase._is_private_ip ip = false ->
  LocalIPDatabase.bind_parameters env data = inr mk ->
  exists s1 r s2,
    LocalIPDatabase._store_ip_data env ip data s = Ok tt s1 /\
    LocalIPDatabase.get_ip_info env ip false s1 = Ok r s2 /\
    trace s2 = trace s /\
    r !! "from_cache" = Some (VBool true) /\
    r !! "query_count" = Some (VInt (LocalIPDatabase.next_query_count (ip_data s) ip)) /\
    (forall k v, k ∈ text_columns -> data !! k = Some (VStr v) ->
                 r !! k = Some (VStr v)).
Proof.
  intros He Hp Hb.
  set (stamp := sql_clock env (tick s)).
  set (count := LocalIPDatabase.next_query_count (ip_data s) ip).
  eexists _, _, _. split; [apply store_ip_data_ok; exact Hb|].
  split.
  { apply local_row_hit; [exact He | exact Hp |]. simpl. apply lookup_insert_eq. }
  split; [reflexivity|]. split; [reflexivity|]. split.
  - destruct (bind_parameters_row env data mk stamp count Hb) as (_ & _ & Hc).
    fold stamp count. rewrite <- Hc at 2. reflexivity.
  - intros k v Hin Hk. exact (bind_parameters_text env data mk _ _ ip k v Hb Hin Hk).
Qed.

Lemma store_then_get_witness :
  exists s1 r s2,
    LocalIPDatabase._store_ip_data quiet_env "8.8.8.8" sample_data stored_state = Ok tt s1 /\
    LocalIPDatabase.get_ip_info quiet_env "8.8.8.8" false s1 = Ok r s2 /\
    r !! "city" = Some (VStr "Mountain View") /\
    r !! "query_count" = Some (VInt 6).
Proof.
  assert (He : "8.8.8.8" <> "") by discriminate.
  destruct (store_then_get quiet_env "8.8.8.8" sample_data _ stored_state
              He eq_refl eq_refl)
    as (s1 & r & s2 & H1 & H2 & _ & _ & Hq & Hk).
  exists s1, r, s2. split; [exact H1|]. split; [exact H2|]. split.
  - apply Hk; [|reflexivity].
    unfold text_columns, string_fields. cbn [app]. rewrite !elem_of_cons. tauto.
  - exact Hq.
Defined.

(** X5. A forced refresh while neither the MMDB file nor a token is there: the
    stored row is not read, the all-unknown dictionary is returned, and the
    row of the address, whatever it held, is replaced by the all-unknown
    row; of the old row only the query count is carried over. *)
Theorem force_refresh_discards_row env ip s r :
  ip <> "" -> LocalIPDatabase._is_private_ip ip = false ->
  db_lite_reader s = None -> token_set (ipinfo_token s) = false ->
  ip_data s !! ip = Some r ->
  exists s',
    LocalIPDatabase.get_ip_info env ip true s = Ok (unknown_info ip) s' /\
    ip_data s' !! ip
      = Some (unknown_row (sql_clock env (tick s)) (c_query_count r + 1)) /\
    trace s' = trace s.
Proof.
  intros He Hp Hrd Htk Hrow. eexists. split.
  - unfold LocalIPDatabase.get_ip_info.
    rewrite (eqb_empty_false ip He), Hp.
    erewrite bind_ok_intro; [|reflexivity].
    cbv beta iota.
    erewrite bind_ok_intro; [|apply get_mmdb_data_no_reader; exact Hrd].
    erewrite bind_ok_intro; [|apply get_ipinfo_data_no_token; exact Htk].
    rewrite assemble_nothing. cbv beta zeta.
    erewrite bind_ok_intro; [|apply store_ip_data_ok; apply unknown_info_bound].
    reflexivity.
  - split; [|reflexivity]. simpl. rewrite lookup_insert_eq.
    unfold LocalIPDatabase.next_query_count. now rewrite Hrow.
Qed.

Lemma force_refresh_discards_row_witness :
  exists s',
    LocalIPDatabase.get_ip_info quiet_env "8.8.8.8" true stored_state
      = Ok (unknown_info "8.8.8.8") s' /\
    ip_data s' !! "8.8.8.8" = Some (unknown_row 400 6).
Proof.
  assert (He : "8.8.8.8" <> "") by discriminate.
  destruct (force_refresh_discards_row quiet_env "8.8.8.8" stored_state sample_row
              He eq_refl eq_refl eq_refl eq_refl) as (s' & H1 & H2 & _).
  exists s'. split; [exact H1 | exact H2].
Defined.

(* ===================================================================== *)
(** * More on the offline tier                                        *)
(* ===================================================================== *)

Lemma lite_fields_org env data info :
  org_set (EnhancedIPinfoService.lite_fields env data info).
Proof.
  unfold EnhancedIPinfoService.lite_fields, org_set. cbv zeta.
  match goal with |- context [if ?c then _ else _] => destruct c end;
    eexists; rewrite !lookup_insert_ne by discriminate;
    rewrite lookup_insert_eq; (split; [reflexivity|]); cbn [truthy].
  - now rewrite text_in_brackets_not_empty.
  - reflexivity.
Qed.

Lemma org_set_sound info : org_set info -> org_sound info.
Proof. intros (v & Hv & Ht) w Hw. congruence. Qed.

Lemma country_fields_org env data info :
  EnhancedIPinfoService.country_fields env data info !! "org" = info !! "org".
Proof.
  unfold EnhancedIPinfoService.country_fields. cbv zeta.
  rewrite !lookup_insert_ne by discriminate. reflexivity.
Qed.

Lemma city_fields_org env data info :
  EnhancedIPinfoService.city_fields env data info !! "org" = info !! "org".
Proof.
  unfold EnhancedIPinfoService.city_fields. cbv zeta.
  rewrite !lookup_insert_ne by discriminate. reflexivity.
Qed.

Lemma set_if_missing_org info field :
  field <> "org" ->
  EnhancedIPinfoService.set_if_missing info field !! "org" = info !! "org".
Proof.
  intros Hne. unfold EnhancedIPinfoService.set_if_missing.
  destruct (info !! field); [reflexivity|].
  now rewrite lookup_insert_ne.
Qed.

Lemma set_org_if_missing info :
  org_sound info -> org_set (EnhancedIPinfoService.set_if_missing info "org").
Proof.
  intros Hs. unfold EnhancedIPinfoService.set_if_missing, org_set.
  destruct (info !! "org") as [v|] eqn:Hv.
  - exists v. split; [exact Hv | now apply Hs].
  - exists (VStr "Unknown"). split; [apply lookup_insert_eq | reflexivity].
Qed.

Lemma lite_step_org env ip info s f s' :
  org_sound info ->
  EnhancedIPinfoService.lite_step env ip info s = Ok f s' -> flow_org f.
Proof.
  intros Hs H. unfold EnhancedIPinfoService.lite_step in H. unfold_steps H.
  destruct (lite_reader s) as [rd|].
  - destruct (rd ip) as [| |d|b];
      repeat match type of H with
             | context [if ?c then _ else _] => destruct c
             end;
      apply Ok_inj in H as [<- _]; cbn [flow_org];
      try exact I; try exact Hs;
      try apply lite_fields_org; apply org_set_sound, lite_fields_org.
  - apply Ok_inj in H as [<- _]. exact Hs.
Qed.

Lemma country_step_org env ip info s f s' :
  org_sound info ->
  EnhancedIPinfoService.country_step env ip info s = Ok f s' -> flow_org f.
Proof.
  intros Hs H. unfold EnhancedIPinfoService.country_step in H. unfold_steps H.
  destruct (country_reader s) as [rd|].
  - destruct (rd ip) as [| |d|b];
      repeat match type of H with
             | context [if ?c then _ else _] => destruct c
             end;
      apply Ok_inj in H as [<- _]; cbn [flow_org];
      try exact I; try exact Hs;
      intros v; rewrite country_fields_org; apply Hs.
  - apply Ok_inj in H as [<- _]. exact Hs.
Qed.

Lemma city_step_org env ip info s f s' :
  org_sound info ->
  EnhancedIPinfoService.city_step env ip info s = Ok f s' -> flow_org f.
Proof.
  intros Hs H. unfold EnhancedIPinfoService.city_step in H. unfold_steps H.
  destruct (city_reader s) as [rd|].
  - destruct (rd ip) as [| |d|b];
      repeat match type of H with
             | context [if ?c then _ else _] => destruct c
             end;
      apply Ok_inj in H as [<- _]; cbn [flow_org];
      try exact I; try exact Hs;
      intros v; rewrite city_fields_org; apply Hs.
  - apply Ok_inj in H as [<- _]. exact Hs.
Qed.

Lemma offline_block_org env ip info s f s' :
  org_sound info ->
  EnhancedIPinfoService.offline_block env ip info s = Ok f s' -> flow_org f.
Proof.
  intros Hs H. unfold EnhancedIPinfoService.offline_block in H.
  apply bind_ok in H as (f1 & s1 & H1 & H).
  apply (lite_step_org env ip info s f1 s1 Hs) in H1.
  destruct f1 as [|o1|info1];
    [apply ret_ok in H as [-> _]; exact H1 ..|].
  apply bind_ok in H as (f2 & s2 & H2 & H).
  apply (country_step_org env ip info1 s1 f2 s2 H1) in H2.
  destruct f2 as [|o2|info2];
    [apply ret_ok in H as [-> _]; exact H2 ..|].
  apply bind_ok in H as (f3 & s3 & H3 & H).
  apply (city_step_org env ip info2 s2 f3 s3 H2) in H3.
  destruct f3 as [|o3|info3];
    [apply ret_ok in H as [-> _]; exact H3 ..|].
  apply ret_ok in H as [-> _]. cbn [flow_org].
  match goal with |- context [if ?c then _ else _] => destruct c end; [|exact I].
  apply set_org_if_missing. intros v. cbn [foldl].
  rewrite !set_if_missing_org by discriminate. apply H3.
Qed.

(** Every dictionary [_get_offline_info] returns carries a truthy [org]. *)
Lemma get_offline_info_org env ip s info s' :
  EnhancedIPinfoService._get_offline_info env ip s = Ok (Some info) s' ->
  org_set info.
Proof.
  unfold EnhancedIPinfoService._get_offline_info. intros H.
  destruct (EnhancedIPinfoService._is_private_ip ip).
  { apply ret_ok in H as [H _]. injection H as ->.
    exists (VStr "Private Network"). split; reflexivity. }
  apply bind_ok in H as (f & s1 & Hb & H).
  apply offline_block_org in Hb; [|intros v Hv; discriminate Hv].
  destruct f as [|[info'|]|info'].
  - apply bind_ok in H as (u & s2 & _ & H). apply ret_ok in H as [H _]. discriminate H.
  - apply ret_ok in H as [H _]. injection H as ->. exact Hb.
  - apply ret_ok in H as [H _]. discriminate H.
  - apply ret_ok in H as [H _]. discriminate H.
Qed.

(** X6. Step 4 of [get_ip_info] after an offline answer. Whenever
    [_get_offline_info] returns a dictionary, the online API is not asked
    and nothing is merged: the dictionary goes on as it is, with or without
    a token. *)
Theorem offline_answer_skips_online env ip s info s1 :
  EnhancedIPinfoService._get_offline_info env ip s = Ok (Some info) s1 ->
  EnhancedIPinfoService.consult_online env ip (Some info) s1 = Ok (Some info) s1.
Proof.
  intros H.
  destruct (get_offline_info_org env ip s info s1 H) as (v & Hv & Ht).
  unfold EnhancedIPinfoService.consult_online.
  cbn [EnhancedIPinfoService.opt_truthy].
  rewrite (dict_truthy_lookup info "org" v Hv).
  unfold dict_get. rewrite Hv, Ht.
  rewrite andb_false_r. reflexivity.
Qed.

Lemma offline_answer_skips_online_witness :
  match EnhancedIPinfoService._get_offline_info sparse_api_env "8.8.8.8" mmdb_token_state with
  | Ok (Some info) s1 =>
      EnhancedIPinfoService.consult_online sparse_api_env "8.8.8.8" (Some info) s1
        = Ok (Some info) s1
  | _ => False
  end.
Proof.
  assert (H : match EnhancedIPinfoService._get_offline_info sparse_api_env "8.8.8.8"
                      mmdb_token_state with
              | Ok (Some _) _ => true
              | _ => false
              end = true).
  { vm_compute. reflexivity. }
  destruct (EnhancedIPinfoService._get_offline_info sparse_api_env "8.8.8.8"
              mmdb_token_state) as [[info|] s1|e s1] eqn:E; try discriminate H.
  exact (offline_answer_skips_online sparse_api_env "8.8.8.8" mmdb_token_state info s1 E).
Defined.

(** X7. An offline database that raises. When the lookup in the lite database
    raises, [_get_offline_info] returns [None] and counts one error; the
    country and city databases are not asked. *)
Theorem offline_reader_failure env ip s rd :
  EnhancedIPinfoService._is_private_ip ip = false ->
  lite_reader s = Some rd -> rd ip = LRaise ->
  EnhancedIPinfoService._get_offline_info env ip s
    = Ok None (set_stats bump_errors (log_event (EvMmdb ip) s)).
Proof.
  intros Hp Hrd Hr.
  unfold EnhancedIPinfoService._get_offline_info. rewrite Hp.
  unfold EnhancedIPinfoService.offline_block, EnhancedIPinfoService.lite_step.
  unfold bind, gets, reader_get. rewrite Hrd, Hr. reflexivity.
Qed.

Lemma offline_reader_failure_witness :
  exists s',
    EnhancedIPinfoService._get_offline_info quiet_env "8.8.8.8" broken_lite_state
      = Ok None s' /\
    errors (stats s') = 1 /\ trace s' = [EvMmdb "8.8.8.8"].
Proof.
  eexists. split.
  - apply (offline_reader_failure quiet_env "8.8.8.8" broken_lite_state broken_reader);
      reflexivity.
  - split; reflexivity.
Defined.

(* ===================================================================== *)
(** * Without a token no request is sent                              *)
(* ===================================================================== *)

Lemma same_requests_refl s : same_requests s s.
Proof. repeat split. Qed.

Lemma same_requests_trans s1 s2 s3 :
  same_requests s1 s2 -> same_requests s2 s3 -> same_requests s1 s3.
Proof. intros (H1 & H2 & H3) (H4 & H5 & H6). repeat split; congruence. Qed.

Lemma no_request_refl s : no_request s s.
Proof. intros _. apply same_requests_refl. Qed.

Lemma tokens_unset_kept s s' : tokens_unset s -> same_requests s s' -> tokens_unset s'.
Proof. intros [H1 H2] (H3 & H4 & _). split; congruence. Qed.

Lemma no_request_trans s1 s2 s3 :
  no_request s1 s2 -> no_request s2 s3 -> no_request s1 s3.
Proof.
  intros H12 H23 Hu. pose proof (H12 Hu) as K.
  eapply same_requests_trans; [exact K|]. apply H23.
  now apply (tokens_unset_kept s1).
Qed.

Lemma store_ip_data_same_requests env ip data s u s' :
  LocalIPDatabase._store_ip_data env ip data s = Ok u s' -> same_requests s s'.
Proof.
  intros H. apply store_ip_data_inv in H as (mk & _ & ->). repeat split.
Qed.

Lemma local_get_ip_info_no_request env ip s r s' :
  LocalIPDatabase.get_ip_info env ip false s = Ok r s' -> no_request s s'.
Proof.
  unfold LocalIPDatabase.get_ip_info. intros H [_ Htk].
  destruct (String.eqb ip "").
  { apply ret_ok in H as [_ ->]. apply same_requests_refl. }
  destruct (LocalIPDatabase._is_private_ip ip).
  { apply bind_ok in H as (u & s1 & Hst & H). apply ret_ok in H as [_ ->].
    exact (store_ip_data_same_requests _ _ _ _ _ _ Hst). }
  apply bind_ok in H as (hit & s1 & Hsel & H).
  destruct (ip_data s !! ip) as [row|] eqn:Hrow.
  - rewrite (select_and_touch_hit env ip row s Hrow) in Hsel.
    apply Ok_inj in Hsel as [<- <-]. apply ret_ok in H as [_ ->]. repeat split.
  - rewrite (select_and_touch_miss env ip s Hrow) in Hsel.
    apply Ok_inj in Hsel as [<- <-].
    apply bind_ok in H as (mmdb_data & s2 & Hmm & H).
    apply bind_ok in H as (ipinfo_data & s3 & Hii & H).
    apply bind_ok in H as (u & s4 & Hst & H).
    apply ret_ok in H as [_ ->].
    apply store_ip_data_same_requests in Hst.
    eapply same_requests_trans; [|exact Hst].
    apply get_mmdb_data_inv in Hmm. apply get_ipinfo_data_inv in Hii.
    destruct Hmm as [(_ & _ & ->)|(rd & _ & -> & _)];
      destruct Hii as [(_ & _ & ->)|(Htk' & _)];
      try (simpl in Htk'; congruence); repeat split.
Qed.

Lemma cache_lookup_same_requests env ip s o s' :
  EnhancedIPinfoService.cache_lookup env ip s = Ok o s' -> same_requests s s'.
Proof.
  unfold EnhancedIPinfoService.cache_lookup. intros H. unfold_steps H.
  destruct (cache s !! ip) as [d|].
  - destruct (dict_get d "timestamp" (VDatetime EnhancedIPinfoService.datetime_min));
      try discriminate H.
    match type of H with context [if ?c then _ else _] => destruct c end;
      apply Ok_inj in H as [_ <-]; repeat split.
  - apply Ok_inj in H as [_ <-]. apply same_requests_refl.
Qed.

Lemma lite_step_same_requests env ip info s f s' :
  EnhancedIPinfoService.lite_step env ip info s = Ok f s' -> same_requests s s'.
Proof.
  intros H. unfold EnhancedIPinfoService.lite_step in H. unfold_steps H.
  destruct (lite_reader s) as [rd|].
  - destruct (rd ip) as [| |d|b];
      repeat match type of H with
             | context [if ?c then _ else _] => destruct c
             end;
      apply Ok_inj in H as [_ <-]; repeat split.
  - apply Ok_inj in H as [_ <-]. apply same_requests_refl.
Qed.

Lemma country_step_same_requests env ip info s f s' :
  EnhancedIPinfoService.country_step env ip info s = Ok f s' -> same_requests s s'.
Proof.
  intros H. unfold EnhancedIPinfoService.country_step in H. unfold_steps H.
  destruct (country_reader s) as [rd|].
  - destruct (rd ip) as [| |d|b];
      repeat match type of H with
             | context [if ?c then _ else _] => destruct c
             end;
      apply Ok_inj in H as [_ <-]; repeat split.
  - apply Ok_inj in H as [_ <-]. apply same_requests_refl.
Qed.

Lemma city_step_same_requests env ip info s f s' :
  EnhancedIPinfoService.city_step env ip info s = Ok f s' -> same_requests s s'.
Proof.
  intros H. unfold EnhancedIPinfoService.city_step in H. unfold_steps H.
  destruct (city_reader s) as [rd|].
  - destruct (rd ip) as [| |d|b];
      repeat match type of H with
             | context [if ?c then _ else _] => destruct c
             end;
      apply Ok_inj in H as [_ <-]; repeat split.
  - apply Ok_inj in H as [_ <-]. apply same_requests_refl.
Qed.

Lemma offline_block_same_requests env ip info s f s' :
  EnhancedIPinfoService.offline_block env ip info s = Ok f s' -> same_requests s s'.
Proof.
  intros H. unfold EnhancedIPinfoService.offline_block in H.
  apply bind_ok in H as (f1 & s1 & H1 & H).
  apply lite_step_same_requests in H1.
  destruct f1 as [|o1|info1];
    [apply ret_ok in H as [_ ->]; exact H1 ..|].
  apply bind_ok in H as (f2 & s2 & H2 & H).
  apply country_step_same_requests in H2.
  pose proof (same_requests_trans _ _ _ H1 H2) as H12.
  destruct f2 as [|o2|info2];
    [apply ret_ok in H as [_ ->]; exact H12 ..|].
  apply bind_ok in H as (f3 & s3 & H3 & H).
  apply city_step_same_requests in H3.
  pose proof (same_requests_trans _ _ _ H12 H3) as H123.
  destruct f3 as [|o3|info3]; apply ret_ok in H as [_ ->]; exact H123.
Qed.

(** The offline tier sends no request. *)
Lemma get_offline_info_same_requests env ip s o s' :
  EnhancedIPinfoService._get_offline_info env ip s = Ok o s' -> same_requests s s'.
Proof.
  unfold EnhancedIPinfoService._get_offline_info. intros H.
  destruct (EnhancedIPinfoService._is_private_ip ip).
  { apply ret_ok in H as [_ ->]. apply same_requests_refl. }
  apply bind_ok in H as (f & s1 & Hb & H).
  apply offline_block_same_requests in Hb.
  destruct f as [|o'|info'].
  - apply bind_ok in H as (u & s2 & Hm & H). apply ret_ok in H as [_ ->].
    apply modify_ok in Hm. subst s2.
    eapply same_requests_trans; [exact Hb|]. repeat split.
  - apply ret_ok in H as [_ ->]. exact Hb.
  - apply ret_ok in H as [_ ->]. exact Hb.
Qed.

Lemma save_cache_same_requests env s u s' :
  EnhancedIPinfoService._save_cache env s = Ok u s' -> same_requests s s'.
Proof.
  unfold EnhancedIPinfoService._save_cache. intros H. unfold_steps H.
  match type of H with context [if ?c then _ else _] => destruct c end;
    [|discriminate H].
  destruct (disk_ok env (tick s)); apply Ok_inj in H as [_ <-]; repeat split.
Qed.

Lemma consult_online_no_token env ip off s cand s' :
  token_set (token s) = false ->
  EnhancedIPinfoService.consult_online env ip off s = Ok cand s' ->
  cand = off /\ s' = s.
Proof.
  intros Htk H. unfold EnhancedIPinfoService.consult_online in H.
  match type of H with context [if ?c then _ else _] => destruct c end.
  - apply bind_ok in H as (online & s1 & Hon & H).
    rewrite (get_online_info_no_token env ip s Htk) in Hon.
    apply Ok_inj in Hon as [<- <-].
    cbn [EnhancedIPinfoService.opt_truthy] in H. now apply ret_ok in H.
  - now apply ret_ok in H.
Qed.

Lemma resolve_lower_no_request env ip s r s' :
  EnhancedIPinfoService.resolve_lower env ip s = Ok r s' -> no_request s s'.
Proof.
  intros H Hu. unfold EnhancedIPinfoService.resolve_lower in H.
  apply bind_ok in H as (off & s1 & Hoff & H).
  apply get_offline_info_same_requests in Hoff.
  eapply same_requests_trans; [exact Hoff|].
  apply (tokens_unset_kept _ _ Hu) in Hoff. destruct Hoff as [Htk _].
  apply bind_ok in H as (cand & s2 & Hcand & H).
  apply (consult_online_no_token env ip off s1 cand s2 Htk) in Hcand as [-> ->].
  cbv zeta in H.
  apply bind_ok in H as (u & s3 & Hstore & H).
  assert (K3 : same_requests s1 s3).
  { match type of Hstore with context [if ?c then _ else _] => destruct c end.
    - exact (store_ip_data_same_requests _ _ _ _ _ _ Hstore).
    - apply ret_ok in Hstore as [_ ->]. apply same_requests_refl. }
  eapply same_requests_trans; [exact K3|].
  apply bind_ok in H as (t & s4 & Hnow & H).
  apply now_ok in Hnow as [-> ->].
  apply bind_ok in H as (u2 & s5 & Hmod & H).
  apply modify_ok in Hmod. subst s5.
  apply bind_ok in H as (u3 & s6 & Hsave & H).
  apply save_cache_same_requests in Hsave. apply ret_ok in H as [_ ->].
  eapply same_requests_trans; [|exact Hsave]. repeat split.
Qed.

Lemma get_ip_info_no_request env ip s r s' :
  EnhancedIPinfoService.get_ip_info env ip s = Ok r s' -> no_request s s'.
Proof.
  intros H Hu. unfold EnhancedIPinfoService.get_ip_info in H.
  destruct (String.eqb ip "").
  { apply ret_ok in H as [_ ->]. apply same_requests_refl. }
  apply bind_ok in H as (local_info & s1 & Hloc & H).
  apply local_get_ip_info_no_request in Hloc. specialize (Hloc Hu).
  eapply same_requests_trans; [exact Hloc|].
  apply (tokens_unset_kept _ _ Hu) in Hloc.
  destruct (EnhancedIPinfoService.store_answers local_info).
  { apply bind_ok in H as (u & s2 & Hm & H). apply modify_ok in Hm.
    apply ret_ok in H as [_ ->]. subst s2. repeat split. }
  apply bind_ok in H as (cached & s2 & Hc & H).
  apply cache_lookup_same_requests in Hc.
  eapply same_requests_trans; [exact Hc|].
  apply (tokens_unset_kept _ _ Hloc) in Hc.
  destruct cached as [d|].
  - apply ret_ok in H as [_ ->]. apply same_requests_refl.
  - exact (resolve_lower_no_request env ip s2 r s' H Hc).
Qed.

Lemma first_pass_step_no_request env acc ip s acc' s' :
  EnhancedIPinfoService.first_pass_step env acc ip s = Ok acc' s' -> no_request s s'.
Proof.
  intros H Hu. unfold EnhancedIPinfoService.first_pass_step in H. cbv zeta in H.
  apply bind_ok in H as (local_info & s1 & Hloc & H).
  apply local_get_ip_info_no_request in Hloc. specialize (Hloc Hu).
  eapply same_requests_trans; [exact Hloc|].
  destruct (EnhancedIPinfoService.store_answers local_info).
  { apply bind_ok in H as (u & s2 & Hm & H). apply modify_ok in Hm.
    apply ret_ok in H as [_ ->]. subst s2. repeat split. }
  apply bind_ok in H as (cached & s2 & Hc & H).
  apply cache_lookup_same_requests in Hc.
  eapply same_requests_trans; [exact Hc|].
  destruct cached as [d|].
  { apply ret_ok in H as [_ ->]. apply same_requests_refl. }
  apply bind_ok in H as (off & s3 & Hoff & H).
  apply get_offline_info_same_requests in Hoff.
  eapply same_requests_trans; [exact Hoff|].
  destruct off as [info|]; [|apply ret_ok in H as [_ ->]; apply same_requests_refl].
  match type of H with context [if ?c then _ else _] => destruct c end;
    [|apply ret_ok in H as [_ ->]; apply same_requests_refl].
  apply bind_ok in H as (t & s4 & Hnow & H). apply now_ok in Hnow as [-> ->].
  cbv zeta in H.
  apply bind_ok in H as (u1 & s5 & Hm1 & H). apply modify_ok in Hm1. subst s5.
  apply bind_ok in H as (u2 & s6 & Hst & H).
  apply store_ip_data_same_requests in Hst.
  apply bind_ok in H as (u3 & s7 & Hm2 & H). apply modify_ok in Hm2. subst s7.
  apply ret_ok in H as [_ ->].
  eapply same_requests_trans; [|eapply same_requests_trans; [exact Hst|]];
    repeat split.
Qed.

Lemma fill_step_no_request env results ip s results' s' :
  EnhancedIPinfoService.fill_step env results ip s = Ok results' s' -> no_request s s'.
Proof.
  intros H _. unfold EnhancedIPinfoService.fill_step in H.
  destruct (results !! ip).
  - apply ret_ok in H as [_ ->]. apply same_requests_refl.
  - unfold EnhancedIPinfoService.bulk_fallback in H. unfold_steps H.
    apply Ok_inj in H as [_ <-]. repeat split.
Qed.

Lemma bulk_lookup_no_request env ips max_workers s res s' :
  EnhancedIPinfoService.bulk_lookup env ips max_workers s = Ok res s' ->
  no_request s s'.
Proof.
  intros H Hu. unfold EnhancedIPinfoService.bulk_lookup in H.
  destruct ips as [|ip0 ips0].
  { apply ret_ok in H as [_ ->]. apply same_requests_refl. }
  apply bind_ok in H as (acc & s1 & H1 & H).
  apply (foldM_related no_request _ no_request_refl
           no_request_trans (first_pass_step_no_request env)) in H1.
  specialize (H1 Hu).
  eapply same_requests_trans; [exact H1|].
  apply (tokens_unset_kept _ _ Hu) in H1.
  cbv zeta in H.
  apply bind_ok in H as (tok & s2 & Hg & H). apply gets_ok in Hg as [-> ->].
  apply bind_ok in H as (results & s3 & H2 & H).
  assert (K2 : s3 = s1).
  { destruct acc.2 as [|x l]; [now apply ret_ok in H2|].
    destruct H1 as [Ht _]. rewrite Ht in H2. now apply ret_ok in H2. }
  subst s3.
  apply bind_ok in H as (results' & s4 & H3 & H).
  apply (foldM_related no_request _ no_request_refl
           no_request_trans (fill_step_no_request env)) in H3.
  specialize (H3 H1).
  eapply same_requests_trans; [exact H3|].
  apply bind_ok in H as (u & s5 & Hsave & H).
  apply save_cache_same_requests in Hsave. now apply ret_ok in H as [_ ->].
Qed.

(** X8. A single-address resolution while neither service has a token sends no
    request to the online API, whatever the store, the cache and the offline
    databases hold. *)
Theorem no_token_no_request env ip s r s' :
  token_set (token s) = false -> token_set (ipinfo_token s) = false ->
  EnhancedIPinfoService.get_ip_info env ip s = Ok r s' ->
  http_calls (trace s') = http_calls (trace s).
Proof.
  intros H1 H2 H.
  now destruct (get_ip_info_no_request env ip s r s' H (conj H1 H2)) as (_ & _ & K).
Qed.

Lemma no_token_no_request_witness :
  match EnhancedIPinfoService.get_ip_info sparse_api_env "8.8.8.8" mmdb_state with
  | Ok r s' => http_calls (trace s') = []
  | Raise _ _ => False
  end.
Proof.
  assert (H : match EnhancedIPinfoService.get_ip_info sparse_api_env "8.8.8.8"
                      mmdb_state with
              | Ok _ _ => true
              | Raise _ _ => false
              end = true).
  { vm_compute. reflexivity. }
  destruct (EnhancedIPinfoService.get_ip_info sparse_api_env "8.8.8.8" mmdb_state)
    as [r s'|e s'] eqn:E; [|discriminate H].
  exact (no_token_no_request sparse_api_env "8.8.8.8" mmdb_state r s'
           eq_refl eq_refl E).
Defined.

(** X9. Bulk resolution while neither service has a token sends no request
    to the online API: the second pass is skipped, whatever the first pass
    left for it. *)
Theorem bulk_no_token_no_request env ips max_workers s res s' :
  token_set (token s) = false -> token_set (ipinfo_token s) = false ->
  EnhancedIPinfoService.bulk_lookup env ips max_workers s = Ok res s' ->
  http_calls (trace s') = http_calls (trace s).
Proof.
  intros H1 H2 H.
  now destruct (bulk_lookup_no_request env ips max_workers s res s' H (conj H1 H2))
    as (_ & _ & K).
Qed.

Lemma bulk_no_token_no_request_witness :
  match EnhancedIPinfoService.bulk_lookup sparse_api_env ["8.8.8.8"; "1.1.1.1"] 10
          mmdb_state with
  | Ok res s' => http_calls (trace s') = []
  | Raise _ _ => False
  end.
Proof.
  assert (H : match EnhancedIPinfoService.bulk_lookup sparse_api_env
                      ["8.8.8.8"; "1.1.1.1"] 10 mmdb_state with
              | Ok _ _ => true
              | Raise _ _ => false
              end = true).
  { vm_compute. reflexivity. }
  destruct (EnhancedIPinfoService.bulk_lookup sparse_api_env ["8.8.8.8"; "1.1.1.1"] 10
              mmdb_state) as [res s'|e s'] eqn:E; [|discriminate H].
  exact (bulk_no_token_no_request sparse_api_env ["8.8.8.8"; "1.1.1.1"] 10 mmdb_state
           res s' eq_refl eq_refl E).
Defined.

(* ===================================================================== *)
(** * The keys of a bulk result                                       *)
(* ===================================================================== *)

Lemma first_pass_step_keys env acc ip s acc' s' :
  EnhancedIPinfoService.first_pass_step env acc ip s = Ok acc' s' ->
  (acc'.1 = acc.1 \/ exists r, acc'.1 = <[ip := r]> acc.1) /\
  (acc'.2 = acc.2 \/ acc'.2 = (acc.2 ++ [ip])%list).
Proof.
  intros H. unfold EnhancedIPinfoService.first_pass_step in H. cbv zeta in H.
  apply bind_ok in H as (local_info & s1 & _ & H).
  destruct (EnhancedIPinfoService.store_answers local_info).
  { apply bind_ok in H as (u & s2 & _ & H). apply ret_ok in H as [-> _].
    split; [right; eexists; reflexivity | now left]. }
  apply bind_ok in H as (cached & s2 & _ & H).
  destruct cached as [d|].
  { apply ret_ok in H as [-> _]. split; [right; eexists; reflexivity | now left]. }
  apply bind_ok in H as (off & s3 & _ & H).
  destruct off as [info|]; [|apply ret_ok in H as [-> _]; split; [now left | now right]].
  match type of H with context [if ?c then _ else _] => destruct c end;
    [|apply ret_ok in H as [-> _]; split; [now left | now right]].
  apply bind_ok in H as (t & s4 & _ & H). cbv zeta in H.
  apply bind_ok in H as (u1 & s5 & _ & H).
  apply bind_ok in H as (u2 & s6 & _ & H).
  apply bind_ok in H as (u3 & s7 & _ & H).
  apply ret_ok in H as [-> _]. split; [right; eexists; reflexivity | now left].
Qed.

Lemma first_pass_keys env ips : forall acc s acc' s',
  EnhancedIPinfoService.foldM (EnhancedIPinfoService.first_pass_step env) ips acc s
    = Ok acc' s' ->
  (forall k, is_Some (acc'.1 !! k) -> is_Some (acc.1 !! k) \/ k ∈ ips) /\
  (forall k, k ∈ acc'.2 -> k ∈ acc.2 \/ k ∈ ips).
Proof.
  induction ips as [|ip ips IH]; intros acc s acc' s' H.
  - apply ret_ok in H as [-> _]. split; intros k Hk; now left.
  - cbn [EnhancedIPinfoService.foldM] in H.
    apply bind_ok in H as (acc1 & s1 & H1 & H).
    apply first_pass_step_keys in H1 as [Hres Hon].
    apply IH in H as [IH1 IH2]. split; intros k Hk.
    + destruct (IH1 k Hk) as [Hk1|Hk1]; [|right; now apply elem_of_cons; right].
      destruct Hres as [Hr|[r Hr]]; rewrite Hr in Hk1; [now left|].
      destruct (decide (k = ip)) as [->|Hne]; [right; apply elem_of_cons; now left|].
      rewrite lookup_insert_ne in Hk1 by congruence. now left.
    + destruct (IH2 k Hk) as [Hk1|Hk1]; [|right; now apply elem_of_cons; right].
      destruct Hon as [Hr|Hr]; rewrite Hr in Hk1; [now left|].
      apply elem_of_app in Hk1 as [Hk1|Hk1]; [now left|].
      apply list_elem_of_singleton in Hk1 as ->. right. apply elem_of_cons. now left.
Qed.

Lemma second_pass_step_keys env results ip s results' s' :
  EnhancedIPinfoService.second_pass_step env results ip s = Ok results' s' ->
  exists r, results' = <[ip := r]> results.
Proof.
  intros H. unfold EnhancedIPinfoService.second_pass_step in H.
  apply bind_ok in H as (info & s1 & _ & H).
  destruct info as [d|].
  - apply bind_ok in H as (u & s2 & _ & H). apply ret_ok in H as [-> _]. eauto.
  - apply bind_ok in H as (fb & s2 & _ & H). apply ret_ok in H as [-> _]. eauto.
Qed.

Lemma second_pass_keys env ips : forall results s results' s',
  EnhancedIPinfoService.foldM (EnhancedIPinfoService.second_pass_step env) ips results s
    = Ok results' s' ->
  forall k, is_Some (results' !! k) -> is_Some (results !! k) \/ k ∈ ips.
Proof.
  induction ips as [|ip ips IH]; intros results s results' s' H k Hk.
  - apply ret_ok in H as [-> _]. now left.
  - cbn [EnhancedIPinfoService.foldM] in H.
    apply bind_ok in H as (res1 & s1 & H1 & H).
    apply second_pass_step_keys in H1 as [r ->].
    destruct (IH _ _ _ _ H k Hk) as [Hk1|Hk1]; [|right; now apply elem_of_cons; right].
    destruct (decide (k = ip)) as [->|Hne]; [right; apply elem_of_cons; now left|].
    rewrite lookup_insert_ne in Hk1 by congruence. now left.
Qed.

Lemma fill_step_keys env results ip s results' s' :
  EnhancedIPinfoService.fill_step env results ip s = Ok results' s' ->
  forall k, is_Some (results' !! k) <-> is_Some (results !! k) \/ k = ip.
Proof.
  intros H k. unfold EnhancedIPinfoService.fill_step in H.
  destruct (results !! ip) as [r|] eqn:Hr.
  - apply ret_ok in H as [-> _]. split; [now left|].
    intros [Hk| ->]; [exact Hk | rewrite Hr; eauto].
  - apply bind_ok in H as (fb & s1 & _ & H). apply ret_ok in H as [-> _].
    destruct (decide (k = ip)) as [->|Hne].
    + rewrite lookup_insert_eq. split; eauto.
    + rewrite lookup_insert_ne by congruence. split; [now left|].
      intros [Hk|Hk]; [exact Hk | contradiction].
Qed.

Lemma fill_keys env ips : forall results s results' s',
  EnhancedIPinfoService.foldM (EnhancedIPinfoService.fill_step env) ips results s
    = Ok results' s' ->
  forall k, is_Some (results' !! k) <-> is_Some (results !! k) \/ k ∈ ips.
Proof.
  induction ips as [|ip ips IH]; intros results s results' s' H k.
  - apply ret_ok in H as [-> _]. split; [now left|].
    intros [Hk|Hk]; [exact Hk | now apply elem_of_nil in Hk].
  - cbn [EnhancedIPinfoService.foldM] in H.
    apply bind_ok in H as (res1 & s1 & H1 & H).
    rewrite (IH _ _ _ _ H k), (fill_step_keys _ _ _ _ _ _ H1 k), elem_of_cons.
    tauto.
Qed.

(** X10. Every run of [bulk_lookup] that returns, returns a mapping whose keys
    are the addresses of the list: none is left out and none is added,
    whichever tier answered or failed. *)
Theorem bulk_lookup_keys env ips max_workers s res s' :
  EnhancedIPinfoService.bulk_lookup env ips max_workers s = Ok res s' ->
  forall k, is_Some (res !! k) <-> k ∈ ips.
Proof.
  intros H k. unfold EnhancedIPinfoService.bulk_lookup in H.
  destruct ips as [|ip0 ips0].
  { apply ret_ok in H as [-> _]. rewrite lookup_empty. split.
    - intros [x Hx]. discriminate Hx.
    - intros Hk. now apply elem_of_nil in Hk. }
  set (ips := ip0 :: ips0) in *.
  apply bind_ok in H as (acc & s1 & H1 & H).
  apply first_pass_keys in H1 as [K1 K1'].
  cbv zeta in H.
  apply bind_ok in H as (tok & s2 & _ & H).
  apply bind_ok in H as (results & s3 & H2 & H).
  assert (K2 : is_Some (results !! k) -> k ∈ ips).
  { intros Hk.
    assert (Hcase : is_Some (acc.1 !! k) \/ k ∈ acc.2).
    { destruct acc.2 as [|x l] eqn:Hl; [apply ret_ok in H2 as [-> _]; now left|].
      destruct (token_set tok); [|apply ret_ok in H2 as [-> _]; now left].
      exact (second_pass_keys env _ _ _ _ _ H2 k Hk). }
    destruct Hcase as [Hc|Hc].
    - destruct (K1 k Hc) as [Hc'|Hc']; [|exact Hc'].
      cbn in Hc'. rewrite lookup_empty in Hc'. destruct Hc' as [x Hx]. discriminate Hx.
    - destruct (K1' k Hc) as [Hc'|Hc']; [|exact Hc'].
      cbn in Hc'. now apply elem_of_nil in Hc'. }
  apply bind_ok in H as (results' & s4 & H3 & H).
  apply bind_ok in H as (u & s5 & _ & H). apply ret_ok in H as [-> _].
  rewrite (fill_keys env ips _ _ _ _ H3 k). tauto.
Qed.

Lemma bulk_lookup_keys_witness :
  match EnhancedIPinfoService.bulk_lookup sparse_api_env
          ["8.8.8.8"; "10.0.0.1"; "8.8.8.8"; "not an address"] 10 mmdb_token_state with
  | Ok res _ =>
      forall k, is_Some (res !! k) <-> k ∈ ["8.8.8.8"; "10.0.0.1"; "8.8.8.8"; "not an address"]
  | Raise _ _ => False
  end.
Proof.
  assert (H : match EnhancedIPinfoService.bulk_lookup sparse_api_env
                      ["8.8.8.8"; "10.0.0.1"; "8.8.8.8"; "not an address"] 10
                      mmdb_token_state with
              | Ok _ _ => true
              | Raise _ _ => false
              end = true).
  { vm_compute. reflexivity. }
  destruct (EnhancedIPinfoService.bulk_lookup sparse_api_env
              ["8.8.8.8"; "10.0.0.1"; "8.8.8.8"; "not an address"] 10 mmdb_token_state)
    as [res s'|e s'] eqn:E; [|discriminate H].
  exact (bulk_lookup_keys sparse_api_env _ 10 mmdb_token_state res s' E).
Defined.

(* ===================================================================== *)
(** * Clearing the cache                                              *)
(* ===================================================================== *)

Lemma forallb_map_to_list {A} (f : string * A -> bool) (m : gmap string A) :
  forallb f (map_to_list m) = true <-> forall k x, m !! k = Some x -> f (k, x) = true.
Proof.
  rewrite forallb_forall. split.
  - intros H k x Hk. apply H, list_elem_of_In, elem_of_map_to_list. exact Hk.
  - intros H [k x] Hin. apply H, elem_of_map_to_list, list_elem_of_In. exact Hin.
Qed.

Lemma filter_sizes {A} (P : string * A -> Prop) `{!forall x, Decision (P x)}
    (m : gmap string A) :
  size m = (size (filter P m) + size (filter (fun kv => ~ P kv) m))%nat.
Proof.
  rewrite <- (map_filter_union_complement P m) at 1.
  apply map_size_disj_union, map_disjoint_filter_complement.
Qed.

Lemma clear_cache_days_inv env days s n s' :
  EnhancedIPinfoService.clear_cache env (Some days) s = Ok n s' ->
  cache s' = filter (fun kv => ~ (EnhancedIPinfoService.older_than
                                    (clear_cutoff env days s) kv.2 = true)) (cache s) /\
  n = Z.of_nat (size (filter (fun kv => EnhancedIPinfoService.older_than
                                          (clear_cutoff env days s) kv.2 = true) (cache s))) /\
  (forall k e, cache s !! k = Some e ->
               is_Some (EnhancedIPinfoService.entry_stamp e)) /\
  ip_data s' = ip_data s.
Proof.
  intros H. unfold EnhancedIPinfoService.clear_cache in H.
  apply bind_ok in H as (t & s1 & Hnow & H). apply now_ok in Hnow as [-> ->].
  unfold EnhancedIPinfoService.timedelta_days in H.
  destruct (Z.abs days <=? 999999999); [|discriminate H].
  cbv zeta in H.
  match type of H with context [if ?c then _ else _] => destruct c end;
    [discriminate H|].
  apply bind_ok in H as (c & s2 & Hg & H). apply gets_ok in Hg as [-> ->].
  match type of H with context [if ?c then _ else _] => destruct c eqn:Hall end;
    [|discriminate H].
  apply bind_ok in H as (u & s3 & Hm & H). apply modify_ok in Hm. subst s3.
  apply bind_ok in H as (u2 & s4 & Hsave & H).
  apply save_cache_inv in Hsave as (Sd & Sc & _). apply ret_ok in H as [-> ->].
  split; [rewrite Sc; reflexivity|]. split; [reflexivity|].
  split; [|rewrite Sd; reflexivity].
  intros k e Hk. apply forallb_map_to_list with (k := k) (x := e) in Hall; [|exact Hk].
  now apply bool_decide_eq_true in Hall.
Qed.

(** X11. [clear_cache(days)] when it returns. The entries left are exactly the
    entries whose timestamp is not before the cutoff (the time of the call
    minus [days]); an entry without timestamp counts as stamped
    [datetime.min]; the number returned is the number of entries that went;
    the durable store is not touched. *)
Theorem clear_cache_older env days s n s' :
  EnhancedIPinfoService.clear_cache env (Some days) s = Ok n s' ->
  (forall k e, cache s' !! k = Some e <->
     cache s !! k = Some e /\
     exists t, EnhancedIPinfoService.entry_stamp e = Some t /\
               clear_cutoff env days s <= t) /\
  n = Z.of_nat (size (cache s)) - Z.of_nat (size (cache s')) /\
  ip_data s' = ip_data s.
Proof.
  intros H. apply clear_cache_days_inv in H as (Hc & Hn & Hall & Hd).
  split; [|split; [|exact Hd]].
  - intros k e. rewrite Hc, map_lookup_filter_Some. cbn [snd].
    unfold EnhancedIPinfoService.older_than. split.
    + intros [Hk Hold]. split; [exact Hk|].
      destruct (Hall k e Hk) as [t Ht]. exists t. split; [exact Ht|].
      rewrite Ht in Hold. destruct (Z.ltb_spec t (clear_cutoff env days s)); [|lia].
      now contradiction Hold.
    + intros [Hk (t & Ht & Hle)]. split; [exact Hk|].
      rewrite Ht. intros Hlt. apply Z.ltb_lt in Hlt. lia.
  - rewrite Hn, Hc.
    rewrite (filter_sizes (fun kv => EnhancedIPinfoService.older_than
                                       (clear_cutoff env days s) kv.2 = true) (cache s)).
    lia.
Qed.

Lemma clear_cache_older_witness :
  match EnhancedIPinfoService.clear_cache quiet_env (Some 0) (cached_state 1) with
  | Ok n s' => n = 1 /\ cache s' !! "8.8.8.8" = None
  | Raise _ _ => False
  end.
Proof.
  assert (H : match EnhancedIPinfoService.clear_cache quiet_env (Some 0) (cached_state 1) with
              | Ok _ _ => true
              | Raise _ _ => false
              end = true).
  { vm_compute. reflexivity. }
  destruct (EnhancedIPinfoService.clear_cache quiet_env (Some 0) (cached_state 1))
    as [n s'|e s'] eqn:E; [|discriminate H].
  destruct (clear_cache_older quiet_env 0 (cached_state 1) n s' E) as (Hk & Hn & _).
  assert (Hnone : cache s' !! "8.8.8.8" = None).
  { destruct (cache s' !! "8.8.8.8") as [e|] eqn:He; [|reflexivity].
    apply Hk in He as [He (t & Ht & Hle)].
    unfold cached_state in He. cbn [cache] in He.
    apply lookup_singleton_Some in He as [_ <-].
    vm_compute in Ht. injection Ht as <-. vm_compute in Hle. now contradiction Hle. }
  split; [|exact Hnone].
  assert (Hsz : size (cache s') = 0%nat).
  { apply map_size_empty_iff, map_eq. intros k. rewrite lookup_empty.
    destruct (cache s' !! k) as [e|] eqn:He; [|reflexivity].
    pose proof He as He'. apply Hk in He' as [He' _].
    unfold cached_state in He'. cbn [cache] in He'.
    apply lookup_singleton_Some in He' as [<- _]. congruence. }
  rewrite Hn, Hsz. reflexivity.
Defined.

(** An entry whose timestamp is a text stops [clear_cache(days)]. *)
Lemma clear_cache_text_stamp env days s k e text :
  cache s !! k = Some e -> e !! "timestamp" = Some (VStr text) ->
  cutoff_in_range env days s ->
  EnhancedIPinfoService.clear_cache env (Some days) s = Raise TypeError (advance s).
Proof.
  intros Hk Ht (Hdays & Hlo & Hhi). unfold clear_cutoff in Hlo, Hhi.
  unfold EnhancedIPinfoService.clear_cache, bind, now, gets.
  unfold EnhancedIPinfoService.timedelta_days.
  replace (Z.abs days <=? 999999999) with true by (symmetry; apply Z.leb_le; lia).
  cbv zeta.
  replace (clock env (tick s) - days * 86400 * 1000000
             <? EnhancedIPinfoService.datetime_min) with false
    by (symmetry; apply Z.ltb_ge; lia).
  replace (EnhancedIPinfoService.datetime_max
             <? clock env (tick s) - days * 86400 * 1000000) with false
    by (symmetry; apply Z.ltb_ge; lia).
  cbn [orb].
  match goal with |- context [if ?c then _ else _] => destruct c eqn:Hall end;
    [|reflexivity].
  apply forallb_map_to_list with (k := k) (x := e) in Hall; [|exact Hk].
  apply bool_decide_eq_true in Hall. cbn [snd] in Hall.
  unfold EnhancedIPinfoService.entry_stamp, dict_get in Hall. rewrite Ht in Hall.
  destruct Hall as [x Hx]. discriminate Hx.
Qed.

Lemma fill_default_other r fd k :
  fd.1 <> k -> LocalIPDatabase.fill_default r fd !! k = r !! k.
Proof.
  intros Hne. unfold LocalIPDatabase.fill_default.
  destruct (r !! fd.1) as [w|]; [destruct (LocalIPDatabase.blank w)|];
    try rewrite lookup_insert_ne by exact Hne; reflexivity.
Qed.

Lemma assemble_no_timestamp env ip mmdb_data ipinfo_data :
  (mmdb_data = None \/ exists d, mmdb_data = Some (LocalIPDatabase.mmdb_record d)) ->
  (ipinfo_data = None \/ exists d, ipinfo_data = Some (LocalIPDatabase.ipinfo_record d)) ->
  LocalIPDatabase.assemble env ip mmdb_data ipinfo_data !! "timestamp" = None.
Proof.
  intros Hm Hi. unfold LocalIPDatabase.assemble.
  assert (Hd : forall r, LocalIPDatabase.derive_isp env r !! "timestamp" = r !! "timestamp").
  { intros r. unfold LocalIPDatabase.derive_isp.
    repeat match goal with |- context [if ?c then _ else _] => destruct c end;
      try rewrite lookup_insert_ne by discriminate; reflexivity. }
  rewrite Hd. unfold LocalIPDatabase.default_fields. cbn [foldl].
  rewrite !fill_default_other by discriminate.
  destruct Hm as [->|[d ->]], Hi as [->|[d' ->]]; reflexivity.
Qed.

(** No record of the store tier has a [timestamp]. *)
Lemma local_no_timestamp env ip s r s' :
  LocalIPDatabase.get_ip_info env ip false s = Ok r s' -> r !! "timestamp" = None.
Proof.
  intros H. apply local_get_ip_info_inv in H.
  destruct H as [? -> ?|mk ? ? -> ? ?|row ? ? ? -> ?|m i s2 mk ? ? ? Hsc -> ? ?];
    try reflexivity.
  apply assemble_no_timestamp;
    [exact (sc_mmdb_shape _ _ _ _ Hsc) | exact (sc_ipinfo_shape _ _ _ _ Hsc)].
Qed.

(** An entry served from the cache has no text under [timestamp]. *)
Lemma cache_hit_stamp env ip s d s' text :
  EnhancedIPinfoService.cache_lookup env ip s = Ok (Some d) s' ->
  d !! "timestamp" <> Some (VStr text).
Proof.
  unfold EnhancedIPinfoService.cache_lookup. intros H Ht. unfold_steps H.
  destruct (cache s !! ip) as [d0|]; [|discriminate H].
  destruct (dict_get d0 "timestamp" (VDatetime EnhancedIPinfoService.datetime_min))
    eqn:Hs; try discriminate H.
  match type of H with context [if ?c then _ else _] => destruct c end;
    apply Ok_inj in H as [H _]; [|discriminate H].
  injection H as ->. unfold dict_get in Hs. rewrite Ht in Hs. discriminate Hs.
Qed.

(** X12. Clearing after a single-address resolution. A record that
    [get_ip_info] returns with a text under [timestamp] was resolved by the
    tiers below the cache and is in the cache as returned; from then on
    [clear_cache(days)] raises [TypeError] without removing anything. *)
Theorem clear_cache_after_resolution env ip s r s' text days :
  EnhancedIPinfoService.get_ip_info env ip s = Ok r s' ->
  r !! "timestamp" = Some (VStr text) ->
  cutoff_in_range env days s' ->
  EnhancedIPinfoService.clear_cache env (Some days) s' = Raise TypeError (advance s').
Proof.
  intros H Ht Hrange.
  apply (clear_cache_text_stamp env days s' ip r text); [|exact Ht|exact Hrange].
  unfold EnhancedIPinfoService.get_ip_info in H.
  destruct (String.eqb ip "").
  { apply ret_ok in H as [-> _]. rewrite lookup_empty in Ht. discriminate Ht. }
  apply bind_ok in H as (local_info & s1 & Hloc & H).
  apply local_no_timestamp in Hloc.
  destruct (EnhancedIPinfoService.store_answers local_info).
  { apply bind_ok in H as (u & s2 & _ & H). apply ret_ok in H as [-> _]. congruence. }
  apply bind_ok in H as (cached & s2 & Hc & H).
  destruct cached as [d|].
  { apply ret_ok in H as [-> _]. now apply cache_hit_stamp with (text := text) in Hc. }
  apply resolve_lower_inv in H as (info & t & _ & Hcache & _).
  rewrite Hcache. apply lookup_insert_eq.
Qed.

Lemma clear_cache_after_resolution_witness :
  match EnhancedIPinfoService.get_ip_info quiet_env "8.8.8.8" fresh_state with
  | Ok r s' =>
      EnhancedIPinfoService.clear_cache quiet_env (Some 30) s'
        = Raise TypeError (advance s')
  | Raise _ _ => False
  end.
Proof.
  assert (H : match EnhancedIPinfoService.get_ip_info quiet_env "8.8.8.8" fresh_state with
              | Ok r s' =>
                  bool_decide (r !! "timestamp" = Some (VStr "1000000"))
                  && (tick s' =? 3)%nat
              | Raise _ _ => false
              end = true).
  { vm_compute. reflexivity. }
  destruct (EnhancedIPinfoService.get_ip_info quiet_env "8.8.8.8" fresh_state)
    as [r s'|e s'] eqn:E; [|discriminate H].
  apply andb_prop in H as [Ht Hn].
  apply bool_decide_eq_true in Ht. apply Nat.eqb_eq in Hn.
  apply (clear_cache_after_resolution quiet_env "8.8.8.8" fresh_state r s'
           "1000000" 30 E Ht).
  unfold cutoff_in_range, clear_cutoff. rewrite Hn. vm_compute.
  repeat split; discriminate.
Defined.

(* ===================================================================== *)
(** * Loading the cache file                                          *)
(* ===================================================================== *)

Lemma load_saved_entry env fromisoformat (e : record) :
  (forall t, e !! "timestamp" = Some (VDatetime t) ->
             fromisoformat (iso_text env t) = Some t) ->
  (forall text, e !! "timestamp" <> Some (VStr text)) ->
  EnhancedIPinfoService.load_entry fromisoformat
    (EnhancedIPinfoService.cache_entry_to_save env e) = e.
Proof.
  intros Hiso Htext.
  unfold EnhancedIPinfoService.cache_entry_to_save.
  destruct (e !! "timestamp") as [v|] eqn:Hv.
  - destruct v as [| | |text| |t];
      try (unfold EnhancedIPinfoService.load_entry; rewrite Hv; reflexivity).
    + now contradiction (Htext text).
    + unfold EnhancedIPinfoService.load_entry.
      rewrite lookup_insert_eq, (Hiso t eq_refl), insert_insert_eq.
      now apply insert_id.
  - unfold EnhancedIPinfoService.load_entry. now rewrite Hv.
Qed.

(** X13. Saving and loading. When the timestamps of the cache are [datetime]s,
    as [bulk_lookup] leaves them, and [fromisoformat] reads back what
    [isoformat] wrote for them, then the file written by a successful
    [_save_cache] is loaded by [_load_cache] into the same cache. *)
Theorem save_load_round_trip env fromisoformat s s1 s0 :
  (forall k e t, cache s !! k = Some e -> e !! "timestamp" = Some (VDatetime t) ->
                 fromisoformat (iso_text env t) = Some t) ->
  (forall k e text, cache s !! k = Some e -> e !! "timestamp" <> Some (VStr text)) ->
  disk_ok env (tick s) = true ->
  EnhancedIPinfoService._save_cache env s = Ok tt s1 ->
  exists s2,
    EnhancedIPinfoService._load_cache fromisoformat
      (FileObject (cache_file s1)) s0 = Ok tt s2 /\
    cache s2 = cache s.
Proof.
  intros Hiso Htext Hdisk H.
  unfold EnhancedIPinfoService._save_cache in H. unfold_steps H.
  match type of H with context [if ?c then _ else _] => destruct c end;
    [|discriminate H].
  rewrite Hdisk in H. apply Ok_inj in H as [_ <-].
  eexists. split; [reflexivity|]. cbn [cache cache_file set_cache set_cache_file advance].
  apply map_eq. intros k. rewrite !lookup_fmap.
  destruct (cache s !! k) as [e|] eqn:Hk; [|reflexivity].
  cbn [option_map fmap option_fmap]. f_equal.
  apply load_saved_entry.
  - intros t. exact (Hiso k e t Hk).
  - intros text. exact (Htext k e text Hk).
Qed.

Lemma save_load_round_trip_witness :
  match EnhancedIPinfoService._save_cache quiet_env (cached_state 5) with
  | Ok _ s1 =>
      exists s2,
        EnhancedIPinfoService._load_cache zero_iso
          (FileObject (cache_file s1)) fresh_state = Ok tt s2 /\
        cache s2 = cache (cached_state 5)
  | Raise _ _ => False
  end.
Proof.
  assert (H : match EnhancedIPinfoService._save_cache quiet_env (cached_state 5) with
              | Ok _ _ => true
              | Raise _ _ => false
              end = true).
  { vm_compute. reflexivity. }
  destruct (EnhancedIPinfoService._save_cache quiet_env (cached_state 5))
    as [[] s1|e s1] eqn:E; [|discriminate H].
  apply (save_load_round_trip quiet_env zero_iso (cached_state 5) s1 fresh_state).
  - intros k e t Hk Ht. unfold cached_state in Hk. cbn [cache] in Hk.
    apply lookup_singleton_Some in Hk as [_ <-].
    vm_compute in Ht. injection Ht as <-. reflexivity.
  - intros k e text Hk Ht. unfold cached_state in Hk. cbn [cache] in Hk.
    apply lookup_singleton_Some in Hk as [_ <-].
    vm_compute in Ht. discriminate Ht.
  - reflexivity.
  - exact E.
Defined.

(** X14. A timestamp that cannot be read. When [fromisoformat] rejects the text
    under [timestamp], [_load_cache] does not drop the entry: it is loaded
    with the text still in place, and the next look in the cache for that
    address raises [TypeError]. *)
Theorem load_keeps_unreadable_stamp env fromisoformat cache_data ip e text s :
  cache_data !! ip = Some e -> e !! "timestamp" = Some (VStr text) ->
  fromisoformat text = None ->
  exists s1,
    EnhancedIPinfoService._load_cache fromisoformat
      (FileObject cache_data) s = Ok tt s1 /\
    cache s1 !! ip = Some e /\
    EnhancedIPinfoService.cache_lookup env ip s1 = Raise TypeError (advance s1).
Proof.
  intros Hk Ht Hno. eexists. split; [reflexivity|].
  assert (Hc : cache (set_cache (fun _ => EnhancedIPinfoService.load_entry fromisoformat
                                            <$> cache_data) s) !! ip = Some e).
  { cbn [cache set_cache]. rewrite lookup_fmap, Hk. cbn [fmap option_fmap option_map].
    unfold EnhancedIPinfoService.load_entry. now rewrite Ht, Hno. }
  split; [exact Hc|].
  exact (cache_lookup_text_stamp env ip _ e text Hc Ht).
Qed.

Lemma load_keeps_unreadable_stamp_witness :
  exists s1,
    EnhancedIPinfoService._load_cache zero_iso
      (FileObject damaged_file) fresh_state = Ok tt s1 /\
    EnhancedIPinfoService.cache_lookup quiet_env "8.8.8.8" s1
      = Raise TypeError (advance s1).
Proof.
  destruct (load_keeps_unreadable_stamp quiet_env zero_iso damaged_file "8.8.8.8"
              (<["timestamp" := VStr "yesterday"]>
                 (EnhancedIPinfoService.fallback_info "8.8.8.8"))
              "yesterday" fresh_state)
    as (s1 & H1 & _ & H2); [reflexivity | reflexivity | reflexivity |].
  exists s1. split; [exact H1 | exact H2].
Defined.

(* ===================================================================== *)
(** * The statistics table                                            *)
(* ===================================================================== *)

Lemma update_ip_statistics_last_request env json_loads table ip status_code timestamp
    table' :
  LocalIPDatabase.update_ip_statistics env json_loads table ip status_code timestamp
    = inr table' ->
  exists row, table' !! ip = Some row /\
    LocalIPDatabase.st_last_request row = LocalIPDatabase.bind_timestamp env timestamp.
Proof.
  unfold LocalIPDatabase.update_ip_statistics. intros H.
  destruct (table !! ip) as [row|].
  - destruct (LocalIPDatabase.parse_status_codes json_loads
                (LocalIPDatabase.st_last_request row)) as [e|codes]; [discriminate H|].
    cbv zeta in H.
    match type of H with context [if ?c then _ else _] => destruct c end;
      [|discriminate H].
    injection H as <-. eexists. split; [apply lookup_insert_eq | reflexivity].
  - injection H as <-. eexists. split; [apply lookup_insert_eq | reflexivity].
Qed.

(** X15. The status codes of an address are not accumulated. The list is parsed
    from column 4 of the row, which is [last_request]; the text the last
    call stored there for its [datetime] is no JSON, so the list starts
    empty again: after two calls in a row the row holds the status code of
    the second call only, whatever the first one was. *)
Theorem status_codes_forgotten env json_loads table ip c1 t1 table1 c2 t2 table2 text :
  LocalIPDatabase.bind_timestamp env t1 = VStr text -> text <> "" ->
  json_loads text = LocalIPDatabase.LoadsRaises ->
  LocalIPDatabase.update_ip_statistics env json_loads table ip c1 t1 = inr table1 ->
  LocalIPDatabase.update_ip_statistics env json_loads table1 ip c2 t2 = inr table2 ->
  exists row, table2 !! ip = Some row /\
    LocalIPDatabase.st_unique_status_codes row = [LocalIPDatabase.ElemInt c2].
Proof.
  intros Hb Hne Hj H1 H2.
  apply update_ip_statistics_last_request in H1 as (row1 & Hr1 & Hl1).
  unfold LocalIPDatabase.update_ip_statistics in H2. rewrite Hr1 in H2.
  unfold LocalIPDatabase.parse_status_codes in H2.
  rewrite Hl1, Hb in H2. cbn [truthy] in H2.
  apply String.eqb_neq in Hne. rewrite Hne in H2. cbn [negb] in H2.
  rewrite Hj in H2. cbv zeta in H2. cbn [existsb app] in H2.
  match type of H2 with context [if ?c then _ else _] => destruct c end;
    [|discriminate H2].
  injection H2 as <-. eexists. split; [apply lookup_insert_eq | reflexivity].
Qed.

Lemma status_codes_forgotten_witness :
  match LocalIPDatabase.update_ip_statistics log_env array_loads ∅ "8.8.8.8" 200 1 with
  | inr table1 =>
      match LocalIPDatabase.update_ip_statistics log_env array_loads table1
              "8.8.8.8" 404 2 with
      | inr table2 =>
          exists row, table2 !! "8.8.8.8" = Some row /\
            LocalIPDatabase.st_unique_status_codes row = [LocalIPDatabase.ElemInt 404]
      | inl _ => False
      end
  | inl _ => False
  end.
Proof.
  assert (Hne : "2024-01-01 00:00:01" <> "") by discriminate.
  assert (H : match LocalIPDatabase.update_ip_statistics log_env array_loads ∅
                      "8.8.8.8" 200 1 with
              | inr table1 =>
                  match LocalIPDatabase.update_ip_statistics log_env array_loads table1
                          "8.8.8.8" 404 2 with
                  | inr _ => true
                  | inl _ => false
                  end
              | inl _ => false
              end = true).
  { vm_compute. reflexivity. }
  destruct (LocalIPDatabase.update_ip_statistics log_env array_loads ∅ "8.8.8.8" 200 1)
    as [e|table1] eqn:E1; [discriminate H|].
  destruct (LocalIPDatabase.update_ip_statistics log_env array_loads table1
              "8.8.8.8" 404 2) as [e|table2] eqn:E2; [discriminate H|].
  exact (status_codes_forgotten log_env array_loads ∅ "8.8.8.8" 200 1 table1 404 2
           table2 "2024-01-01 00:00:01" eq_refl Hne eq_refl E1 E2).
Defined.

(** X16. The counters. A call that returns adds one to [total_requests] of the
    address and one to [error_requests] exactly when the status code is 400
    or more, counting from zero when the address had no row; the rows of
    other addresses stay as they are, and the counters of every row keep
    making sense. *)
Theorem update_ip_statistics_counters env json_loads table ip status_code timestamp
    table' :
  stat_sound table ->
  LocalIPDatabase.update_ip_statistics env json_loads table ip status_code timestamp
    = inr table' ->
  stat_sound table' /\
  (forall ip', ip' <> ip -> table' !! ip' = table !! ip') /\
  requests_so_far table' ip
    = ((requests_so_far table ip).1 + 1,
       (requests_so_far table ip).2 + (if 400 <=? status_code then 1 else 0)).
Proof.
  intros Hs H. unfold LocalIPDatabase.update_ip_statistics in H.
  unfold requests_so_far.
  destruct (table !! ip) as [row|] eqn:Hrow.
  - destruct (Hs ip row Hrow) as (Ht & He1 & He2).
    destruct (LocalIPDatabase.parse_status_codes json_loads
                (LocalIPDatabase.st_last_request row)) as [e|codes]; [discriminate H|].
    cbv zeta in H.
    match type of H with context [if ?c then _ else _] => destruct c end;
      [|discriminate H].
    injection H as <-. split; [|split].
    + intros k r Hk. destruct (decide (k = ip)) as [->|Hne].
      * rewrite lookup_insert_eq in Hk. injection Hk as <-. cbn.
        destruct (400 <=? status_code); lia.
      * rewrite lookup_insert_ne in Hk by congruence. exact (Hs k r Hk).
    + intros ip' Hne. now rewrite lookup_insert_ne by congruence.
    + rewrite lookup_insert_eq. reflexivity.
  - injection H as <-. split; [|split].
    + intros k r Hk. destruct (decide (k = ip)) as [->|Hne].
      * rewrite lookup_insert_eq in Hk. injection Hk as <-. cbn.
        destruct (400 <=? status_code); lia.
      * rewrite lookup_insert_ne in Hk by congruence. exact (Hs k r Hk).
    + intros ip' Hne. now rewrite lookup_insert_ne by congruence.
    + rewrite lookup_insert_eq. reflexivity.
Qed.

Lemma update_ip_statistics_counters_witness :
  match LocalIPDatabase.update_ip_statistics log_env array_loads ∅ "8.8.8.8" 503 1 with
  | inr table' => stat_sound table' /\ requests_so_far table' "8.8.8.8" = (1, 1)
  | inl _ => False
  end.
Proof.
  assert (Hs : stat_sound ∅).
  { intros k r Hk. rewrite lookup_empty in Hk. discriminate Hk. }
  assert (H : match LocalIPDatabase.update_ip_statistics log_env array_loads ∅
                      "8.8.8.8" 503 1 with
              | inr _ => true
              | inl _ => false
              end = true).
  { vm_compute. reflexivity. }
  destruct (LocalIPDatabase.update_ip_statistics log_env array_loads ∅ "8.8.8.8" 503 1)
    as [e|table'] eqn:E; [discriminate H|].
  destruct (update_ip_statistics_counters log_env array_loads ∅ "8.8.8.8" 503 1
              table' Hs E) as (Hs' & _ & Hn).
  split; [exact Hs' | exact Hn].
Defined.

(* ===================================================================== *)
(** * The single-tier service of src/ipinfo_service.py                *)
(* ===================================================================== *)

(** X17. Anything that is not made of four parts is answered as a private
    address: the empty string, a host name, an IPv6 address.  The record
    says "Private/Internal"; no request is sent and nothing is cached or
    written. *)
Theorem ipinfo_malformed_is_private env api_get disk ip use_lite sv :
  length (split_dots ip) <> 4%nat ->
  let res := IPInfoService.get_ip_info env api_get disk ip use_lite sv in
  res.1 !! "country" = Some (VStr "Private/Internal") /\
  res.1 !! "is_private" = Some (VBool true) /\
  IPInfoService.sv_requests res.2 = IPInfoService.sv_requests sv /\
  IPInfoService.ip_cache res.2 = IPInfoService.ip_cache sv /\
  IPInfoService.ip_cache_file res.2 = IPInfoService.ip_cache_file sv.
Proof.
  intros Hlen res. subst res. unfold IPInfoService.get_ip_info.
  assert (Hp : IPInfoService._is_private_ip ip = true).
  { unfold IPInfoService._is_private_ip.
    apply Nat.eqb_neq in Hlen. now rewrite Hlen. }
  rewrite Hp. unfold IPInfoService.now_iso. cbn [fst snd].
  repeat split.
Qed.

Lemma ipinfo_malformed_is_private_witness :
  (IPInfoService.get_ip_info quiet_env country_api good_disk "" true fresh_service).1
    !! "country" = Some (VStr "Private/Internal").
Proof.
  assert (Hlen : length (split_dots "") <> 4%nat) by discriminate.
  exact (proj1 (ipinfo_malformed_is_private quiet_env country_api good_disk ""
                  true fresh_service Hlen)).
Defined.

(** X18. An answer of the API is cached. When the API answers a public address
    that is not in the cache with status 200 and a JSON object, the record
    is put in the cache, and the next call for the address, with either
    value of [use_lite], returns the same record without a request. *)
Theorem ipinfo_success_cached env api_get disk ip use_lite use_lite' sv :
  IPInfoService._is_private_ip ip = false ->
  IPInfoService.ip_cache sv !! ip = None ->
  api_success (api_get (use_lite && token_set (IPInfoService.api_token sv))
                 (IPInfoService.sv_tick sv) ip) = true ->
  let res := IPInfoService.get_ip_info env api_get disk ip use_lite sv in
  res.1 !! "is_private" = Some (VBool false) /\
  IPInfoService.ip_cache res.2 !! ip = Some res.1 /\
  IPInfoService.get_ip_info env api_get disk ip use_lite' res.2 = res.
Proof.
  intros Hp Hc Hok res.
  assert (Hres : exists data t sv',
            res = (<["cached_at" := VStr t]>
                     (<["is_private" := VBool false]> (<["ip" := VStr ip]> data)), sv') /\
            IPInfoService.ip_cache sv' =
              <[ip := <["cached_at" := VStr t]>
                        (<["is_private" := VBool false]> (<["ip" := VStr ip]> data))]>
                (IPInfoService.ip_cache sv)).
  { subst res. unfold IPInfoService.get_ip_info.
    rewrite Hp, Hc. unfold IPInfoService.send_request.
    destruct (api_get (use_lite && token_set (IPInfoService.api_token sv))
                (IPInfoService.sv_tick sv) ip) as [|code [data| |]];
      try discriminate Hok.
    cbn [api_success] in Hok. rewrite Hok.
    unfold IPInfoService.now_iso.
    eexists _, _, _. split; reflexivity. }
  destruct Hres as (data & t & sv' & -> & Hcache). cbn [fst snd].
  split; [|split].
  - rewrite lookup_insert_ne by discriminate. apply lookup_insert_eq.
  - rewrite Hcache. apply lookup_insert_eq.
  - unfold IPInfoService.get_ip_info. rewrite Hp, Hcache, lookup_insert_eq.
    reflexivity.
Qed.

Lemma ipinfo_success_cached_witness :
  IPInfoService.get_ip_info quiet_env country_api good_disk "8.8.8.8" false
    (IPInfoService.get_ip_info quiet_env country_api good_disk "8.8.8.8" true
       fresh_service).2
  = IPInfoService.get_ip_info quiet_env country_api good_disk "8.8.8.8" true
      fresh_service.
Proof.
  exact (proj2 (proj2 (ipinfo_success_cached quiet_env country_api good_disk "8.8.8.8"
                         true false fresh_service eq_refl eq_refl eq_refl))).
Defined.

(** X19. A failure is not cached. When the request raises, or the status is not
    200, or the body is no JSON object, the record is the fallback with
    country "Unknown", the cache and its file stay as they are, and the
    next call for the address sends a request again. *)
Theorem ipinfo_failure_not_cached env api_get disk ip use_lite sv :
  IPInfoService._is_private_ip ip = false ->
  IPInfoService.ip_cache sv !! ip = None ->
  api_success (api_get (use_lite && token_set (IPInfoService.api_token sv))
                 (IPInfoService.sv_tick sv) ip) = false ->
  let lite := use_lite && token_set (IPInfoService.api_token sv) in
  let res := IPInfoService.get_ip_info env api_get disk ip use_lite sv in
  res.1 !! "country" = Some (VStr "Unknown") /\
  IPInfoService.ip_cache res.2 = IPInfoService.ip_cache sv /\
  IPInfoService.ip_cache_file res.2 = IPInfoService.ip_cache_file sv /\
  IPInfoService.sv_requests res.2 = (lite, ip) :: IPInfoService.sv_requests sv /\
  IPInfoService.sv_requests
    (IPInfoService.get_ip_info env api_get disk ip use_lite res.2).2
    = (lite, ip) :: (lite, ip) :: IPInfoService.sv_requests sv.
Proof.
  intros Hp Hc Hfail lite res.
  assert (Hres : res = IPInfoService._get_fallback_info env ip
                         (IPInfoService.send_request api_get ip use_lite sv).2).
  { subst res lite. unfold IPInfoService.get_ip_info. rewrite Hp, Hc.
    unfold IPInfoService.send_request.
    destruct (api_get (use_lite && token_set (IPInfoService.api_token sv))
                (IPInfoService.sv_tick sv) ip) as [|code [data| |]];
      try reflexivity.
    cbn [api_success] in Hfail. now rewrite Hfail. }
  rewrite Hres. clear Hres res.
  unfold IPInfoService._get_fallback_info, IPInfoService.now_iso,
    IPInfoService.send_request.
  cbn [fst snd IPInfoService.ip_cache IPInfoService.ip_cache_file
       IPInfoService.sv_requests IPInfoService.api_token IPInfoService.sv_tick].
  fold lite. repeat (split; [reflexivity|]).
  unfold IPInfoService.get_ip_info. rewrite Hp.
  cbn [IPInfoService.ip_cache]. rewrite Hc.
  unfold IPInfoService.send_request.
  cbn [IPInfoService.api_token IPInfoService.sv_tick IPInfoService.sv_requests
       IPInfoService.ip_cache IPInfoService.ip_cache_file].
  fold lite.
  destruct (api_get lite (S (S (IPInfoService.sv_tick sv))) ip) as [|code [data| |]];
    try reflexivity.
  destruct (code =? 200); reflexivity.
Qed.

Lemma ipinfo_failure_not_cached_witness :
  (IPInfoService.get_ip_info quiet_env down_api good_disk "8.8.8.8" true
     fresh_service).1 !! "country" = Some (VStr "Unknown") /\
  IPInfoService.ip_cache
    (IPInfoService.get_ip_info quiet_env down_api good_disk "8.8.8.8" true
       fresh_service).2 = ∅.
Proof.
  destruct (ipinfo_failure_not_cached quiet_env down_api good_disk "8.8.8.8" true
              fresh_service eq_refl eq_refl eq_refl) as (H1 & H2 & _).
  split; [exact H1 | exact H2].
Defined.

(** X20. What [IPInfoService._load_cache] keeps. Every entry of the loaded cache
    is an entry of the file whose [cached_at] is an ISO text of an instant
    less than seven days before the time of loading; entries without
    [cached_at] are dropped with the old ones. *)
Theorem ipinfo_load_fresh_only fromisoformat file t k e :
  IPInfoService._load_cache fromisoformat file t !! k = Some e ->
  exists cache_data text cached_at,
    file = FileObject cache_data /\ cache_data !! k = Some e /\
    e !! "cached_at" = Some (VStr text) /\ fromisoformat text = Some cached_at /\
    t - IPInfoService.seven_days < cached_at.
Proof.
  unfold IPInfoService._load_cache. intros H.
  destruct file as [| |cache_data]; try (rewrite lookup_empty in H; discriminate H).
  cbv zeta in H.
  destruct (t - IPInfoService.seven_days <? IPInfoService.datetime_min);
    [rewrite lookup_empty in H; discriminate H|].
  match type of H with context [if ?c then _ else _] => destruct c end;
    [|rewrite lookup_empty in H; discriminate H].
  apply map_lookup_filter_Some in H as [Hk Hfresh]. cbn [snd] in Hfresh.
  unfold IPInfoService.fresh_entry, IPInfoService.cached_instant in Hfresh.
  destruct (e !! "cached_at") as [[| | |text| |]|] eqn:Hat; try discriminate Hfresh.
  destruct (fromisoformat text) as [cached_at|] eqn:Hiso; [|discriminate Hfresh].
  apply Z.ltb_lt in Hfresh.
  exists cache_data, text, cached_at. auto.
Qed.

Lemma ipinfo_load_fresh_only_witness :
  match IPInfoService._load_cache zero_iso (FileObject stale_file) 1000 !! "8.8.8.8" with
  | Some e => e !! "cached_at" = Some (VStr "0")
  | None => False
  end.
Proof.
  assert (H : match IPInfoService._load_cache zero_iso (FileObject stale_file) 1000
                      !! "8.8.8.8" with
              | Some _ => true
              | None => false
              end = true).
  { vm_compute. reflexivity. }
  destruct (IPInfoService._load_cache zero_iso (FileObject stale_file) 1000 !! "8.8.8.8")
    as [e|] eqn:E; [|discriminate H].
  destruct (ipinfo_load_fresh_only zero_iso (FileObject stale_file) 1000 "8.8.8.8" e E)
    as (d & text & at0 & _ & _ & Hat & Hiso & _).
  rewrite Hat. unfold zero_iso in Hiso.
  destruct (String.eqb text "0") eqn:Ht; [|discriminate Hiso].
  apply String.eqb_eq in Ht. now subst text.
Defined.

(** X21. One entry that cannot be read empties the cache. When some entry of the
    file has a [cached_at] that [fromisoformat] rejects, the exception ends
    the loading and the service starts with an empty cache, whatever the
    other entries are. *)
Theorem ipinfo_load_all_or_nothing fromisoformat cache_data t k e text :
  cache_data !! k = Some e -> e !! "cached_at" = Some (VStr text) ->
  fromisoformat text = None ->
  IPInfoService._load_cache fromisoformat (FileObject cache_data) t = ∅.
Proof.
  intros Hk Hat Hiso. unfold IPInfoService._load_cache. cbv zeta.
  destruct (t - IPInfoService.seven_days <? IPInfoService.datetime_min); [reflexivity|].
  match goal with |- context [if ?c then _ else _] => destruct c eqn:Hall end;
    [|reflexivity].
  apply forallb_map_to_list with (k := k) (x := e) in Hall; [|exact Hk].
  cbn [snd] in Hall. apply negb_true_iff, bool_decide_eq_false in Hall.
  contradiction Hall. unfold IPInfoService.cached_instant. now rewrite Hat, Hiso.
Qed.

Lemma ipinfo_load_all_or_nothing_witness :
  IPInfoService._load_cache zero_iso (FileObject damaged_ipinfo_file) 1000 = ∅.
Proof.
  apply (ipinfo_load_all_or_nothing zero_iso damaged_ipinfo_file 1000 "1.1.1.1"
           (list_to_map [ ("ip", VStr "1.1.1.1"); ("cached_at", VStr "soon") ]) "soon");
    reflexivity.
Defined.
